(** * The product-generation pipeline of vercel-bigcommerce

    A shallow embedding of the four-stage workflow
    (organize input, generate products, create commerce records,
    upload images) and of the placeholder-image detector, together
    with the properties the specification states about them.

    Conventions of the embedding.
    - A JavaScript string is a [string]; every [ascii] stands for one
      code unit below 256.
    - A JavaScript number is a [number]: not-a-number, the two
      infinities, or a finite value held as a rational.  Every finite
      double is a rational, the comparisons the code makes (with 1,
      100, 10, 0.8 and a loop counter) are exact on them, and a sum is
      rounded to the nearest binary64 value as the runtime does.
    - Code that awaits the outside world (the generation service, the
      commerce API, the process environment, the clock) is a state
      transformer over an abstract world [W] that may also throw; a
      call to the outside world answers or throws.
    - The loop over a requested count runs on fuel and the outcome
      [Diverge] stands for running out of it; the statements that a
      stage returns say that enough fuel gives a result.
    - Console logging has no effect in the embedding.  What a log
      call is given is still evaluated: where that can throw (a
      [JSON.stringify] of a caller's argument) the call is kept. *)

From Stdlib Require Import List String Ascii Bool Arith ZArith QArith Qabs Qround Lia.
From Stdlib Require Import DecimalString.
Import ListNotations.
Local Open Scope string_scope.

(** ** JavaScript values used by the pipeline *)

Module JS.

(** [number]: the value space of the JavaScript number type. *)
Inductive number : Type :=
| NaN
| PInf
| NInf
| Fin (q : Q).

Definition Qltb (x y : Q) : bool := negb (Qle_bool y x).

(** [a < b] on numbers; every comparison with NaN is false. *)
Definition ltb (a b : number) : bool :=
  match a, b with
  | NaN, _ | _, NaN => false
  | PInf, _ => false
  | _, NInf => false
  | NInf, _ => true
  | _, PInf => true
  | Fin x, Fin y => Qltb x y
  end.

(** [a > b] is [b < a]. *)
Definition gtb (a b : number) : bool := ltb b a.

(** [x * 2^k] *)
Definition scale (x : Q) (k : Z) : Q :=
  if (0 <=? k)%Z then x * inject_Z (2 ^ k) else x / inject_Z (2 ^ (- k)).

(** The integer nearest to [x], the even one of two that are equally
    near. *)
Definition round_half_even (x : Q) : Z :=
  let f := Qfloor x in
  match Qcompare (x - inject_Z f) (1 # 2) with
  | Lt => f
  | Gt => (f + 1)%Z
  | Eq => if Z.even f then f else (f + 1)%Z
  end.

(** [floor (log2 x)] for a positive [x]. *)
Definition ilog2 (x : Q) : Z :=
  let l := (Z.log2 (Qnum x) - Z.log2 (Zpos (Qden x)))%Z in
  if Qle_bool (scale 1 l) x then l else (l - 1)%Z.

(** The binary64 value nearest to [x], ties to even: 53 significant
    bits, exponents from -1022 to 1023 (smaller values lose bits), an
    infinity beyond.  The two zeros are not told apart. *)
Definition binary64 (x : Q) : number :=
  let x := Qred x in
  if Qeq_bool x 0 then Fin 0
  else
    let a := Qabs x in
    let k := (Z.max (ilog2 a) (-1022) - 52)%Z in
    let r := Qred (scale (inject_Z (round_half_even (scale a (- k)))) k) in
    if Qle_bool (scale 1 1024) r
    then (if (0 <? Qnum x)%Z then PInf else NInf)
    else Fin (if (0 <? Qnum x)%Z then r else Qred (- r)).

(** [a + b]: the exact sum of two finite values, rounded to binary64. *)
Definition add (a b : number) : number :=
  match a, b with
  | NaN, _ | _, NaN => NaN
  | PInf, NInf | NInf, PInf => NaN
  | PInf, _ | _, PInf => PInf
  | NInf, _ | _, NInf => NInf
  | Fin x, Fin y => binary64 (x + y)
  end.

Definition of_Z (z : Z) : number := Fin (inject_Z z).
Definition of_nat (n : nat) : number := of_Z (Z.of_nat n).

(** Truthiness of a number: everything but 0 and NaN. *)
Definition truthy_number (a : number) : bool :=
  match a with
  | NaN => false
  | Fin q => negb (Qeq_bool q 0)
  | _ => true
  end.

(** [a || b] on numbers. *)
Definition or_number (a b : number) : number :=
  if truthy_number a then a else b.

(** Numbers that denote an integer. *)
Definition is_integer (a : number) : bool :=
  match a with
  | Fin q => Qeq_bool q (inject_Z (Qfloor q))
  | _ => false
  end.

(** Equality of numbers as values ([Fin] up to equality of rationals). *)
Definition eqb (a b : number) : bool :=
  match a, b with
  | Fin x, Fin y => Qeq_bool x y
  | PInf, PInf | NInf, NInf => true
  | _, _ => false
  end.

(** The values a field of a request entry can hold at run time.  The
    declared types are [string] and [number]; the code re-checks them
    with [typeof], so the other cases are kept. *)
Inductive value : Type :=
| Undefined
| Null
| Boolean (b : bool)
| Number (n : number)
| String (s : string)
| Object.

Definition truthy (v : value) : bool :=
  match v with
  | Undefined | Null => false
  | Boolean b => b
  | Number n => truthy_number n
  | String s => negb (s =? "")
  | Object => true
  end.

(** Truthiness of a string, and [s || d]. *)
Definition truthy_string (s : string) : bool := negb (s =? "").
Definition or_string (s d : string) : string :=
  if truthy_string s then s else d.

(** A string that may be undefined or null ([None]): its truthiness,
    [a || b], and its use where a string is expected. *)
Definition truthy_opt (v : option string) : bool :=
  match v with Some s => truthy_string s | None => false end.
Definition or_opt (a b : option string) : option string :=
  if truthy_opt a then a else b.
Definition get_opt (v : option string) : string :=
  match v with Some s => s | None => "" end.

(** Decimal text of a natural number, as template literals print it. *)
Definition show_nat (n : nat) : string := NilEmpty.string_of_uint (Nat.to_uint n).
Definition show_N (n : N) : string := NilEmpty.string_of_uint (N.to_uint n).

(** What a [throw] carries: an [Error] with its message, or anything
    else. *)
Inductive exn : Type :=
| Error (message : string)
| Thrown (v : value).

(** [error instanceof Error ? error.message : 'Unknown error'] *)
Definition message_of (e : exn) : string :=
  match e with
  | Error m => m
  | Thrown _ => "Unknown error"
  end.

End JS.

(** ** Computations that may throw and act on the world *)

Module Eff.

(** What a call to the outside world gives back: it throws or it
    answers. *)
Inductive res (A : Type) : Type :=
| Throw (e : JS.exn)
| Ok (a : A).
Arguments Throw {A} e.
Arguments Ok {A} a.

(** What running a piece of the program gives: an exception, a value,
    or [Diverge] when a loop of the embedding has used up its fuel. *)
Inductive outcome (A : Type) : Type :=
| Raised (e : JS.exn)
| Done (a : A)
| Diverge.
Arguments Raised {A} e.
Arguments Done {A} a.
Arguments Diverge {A}.

Section WithWorld.
Context {W : Type}.

Definition M (A : Type) : Type := W -> outcome A * W.

Definition ret {A} (a : A) : M A := fun w => (Done a, w).
Definition throw {A} (e : JS.exn) : M A := fun w => (Raised e, w).
Definition diverge {A} : M A := fun w => (Diverge, w).

(** A pure computation that may throw. *)
Definition lift {A} (r : res A) : M A :=
  fun w => match r with Throw e => (Raised e, w) | Ok a => (Done a, w) end.

(** An awaited call to the outside world. *)
Definition call {A} (f : W -> res A * W) : M A :=
  fun w => match f w with
           | (Throw e, w') => (Raised e, w')
           | (Ok a, w') => (Done a, w')
           end.

(** Reading the world without changing it. *)
Definition read {A} (f : W -> A) : M A := fun w => (Done (f w), w).

Definition bind {A B} (m : M A) (k : A -> M B) : M B :=
  fun w =>
    match m w with
    | (Done a, w') => k a w'
    | (Raised e, w') => (Raised e, w')
    | (Diverge, w') => (Diverge, w')
    end.

(** [try { m } catch (e) { ... }] with the way the block ends made a
    value: the [catch] blocks of the program either return from the
    enclosing function or fall through, and they do so on this value. *)
Definition attempt {A} (m : M A) : M (res A) :=
  fun w =>
    match m w with
    | (Done a, w') => (Done (Ok a), w')
    | (Raised e, w') => (Done (Throw e), w')
    | (Diverge, w') => (Diverge, w')
    end.

(** [m] ends, with a value or an exception, from every world. *)
Definition terminates {A} (m : M A) : Prop :=
  forall w, fst (m w) <> Diverge.
End WithWorld.

End Eff.

Declare Scope eff_scope.
Delimit Scope eff_scope with eff.
Notation "x <- m ;; k" := (Eff.bind m (fun x => k))
  (at level 61, m at next level, right associativity) : eff_scope.
Notation "m ;;; k" := (Eff.bind m (fun _ => k))
  (at level 61, right associativity) : eff_scope.

(** ** String operations of the runtime *)

Module Str.

Definition nl : ascii := ascii_of_nat 10.
Definition cr : ascii := ascii_of_nat 13.

Fixpoint drop (n : nat) (s : string) : string :=
  match n, s with
  | O, _ => s
  | S n', String.String _ s' => drop n' s'
  | S _, EmptyString => EmptyString
  end.

(** [s.startsWith(p)] *)
Definition startsWith (p s : string) : bool := String.prefix p s.

(** [s.indexOf(p)], [None] standing for -1. *)
Fixpoint indexOf (p s : string) : option nat :=
  if startsWith p s then Some O
  else match s with
       | EmptyString => None
       | String.String _ s' => option_map S (indexOf p s')
       end.

(** [s.includes(p)] *)
Definition includes (p s : string) : bool :=
  match indexOf p s with Some _ => true | None => false end.

(** [s.substring(n)] *)
Definition substring_from (n : nat) (s : string) : string := drop n s.

(** White space in the sense of [String.prototype.trim], among the code
    units below 256: tab, line feed, vertical tab, form feed, carriage
    return, space and no-break space. *)
Definition is_space (c : ascii) : bool :=
  let n := nat_of_ascii c in
  (Nat.leb 9 n && Nat.leb n 13) || Nat.eqb n 32 || Nat.eqb n 160.

Fixpoint trimStart (s : string) : string :=
  match s with
  | EmptyString => EmptyString
  | String.String c s' => if is_space c then trimStart s' else s
  end.

Fixpoint trimEnd (s : string) : string :=
  match s with
  | EmptyString => EmptyString
  | String.String c s' =>
      match trimEnd s' with
      | EmptyString => if is_space c then EmptyString else String.String c EmptyString
      | t => String.String c t
      end
  end.

(** [s.trim()] *)
Definition trim (s : string) : string := trimEnd (trimStart s).

(** Line terminators, which [.] of a regular expression does not match. *)
Definition is_line_terminator (c : ascii) : bool :=
  (Ascii.eqb c nl) || (Ascii.eqb c cr).

(** The longest prefix of [s] whose characters all satisfy [p]. *)
Fixpoint span (p : ascii -> bool) (s : string) : string :=
  match s with
  | EmptyString => EmptyString
  | String.String c s' => if p c then String.String c (span p s') else EmptyString
  end.

(** [s.replace(/\n/g, r)] *)
Fixpoint replace_newlines (r s : string) : string :=
  match s with
  | EmptyString => EmptyString
  | String.String c s' =>
      if Ascii.eqb c nl then r ++ replace_newlines r s'
      else String.String c (replace_newlines r s')
  end.

(** [s.match(/base64,(.+)/)]: the first place where ["base64,"] is
    followed by at least one character that is not a line terminator;
    the group is the longest run of such characters. *)
Fixpoint match_base64 (s : string) : option string :=
  let here :=
    if startsWith "base64," s
    then match span (fun c => negb (is_line_terminator c)) (drop 7 s) with
         | EmptyString => None
         | g => Some g
         end
    else None in
  match here with
  | Some g => Some g
  | None => match s with
            | EmptyString => None
            | String.String _ s' => match_base64 s'
            end
  end.

Definition not_semicolon (c : ascii) : bool := negb (Ascii.eqb c ";").

(** [s.replace(/^data:image\/[^;]+;base64,/, '')] *)
Definition strip_data_uri_prefix (s : string) : string :=
  if startsWith "data:image/" s then
    let rest := drop 11 s in
    let mime := span not_semicolon rest in
    let after := drop (String.length mime) rest in
    if negb (mime =? "") && startsWith ";base64," after
    then drop 8 after
    else s
  else s.

(** [s.match(/data:image\/([^;]+)/)]: the group of the first match. *)
Fixpoint match_mime (s : string) : option string :=
  let here :=
    if startsWith "data:image/" s
    then match span not_semicolon (drop 11 s) with
         | EmptyString => None
         | g => Some g
         end
    else None in
  match here with
  | Some g => Some g
  | None => match s with
            | EmptyString => None
            | String.String _ s' => match_mime s'
            end
  end.

(** [s.replace(/^https?:\/\//, '').replace(/\/$/, '')] *)
Fixpoint drop_last_slash (s : string) : string :=
  match s with
  | EmptyString => EmptyString
  | String.String c EmptyString => if Ascii.eqb c "/" then EmptyString else s
  | String.String c s' => String.String c (drop_last_slash s')
  end.

Definition normalize_domain (s : string) : string :=
  let s1 := if startsWith "https://" s then drop 8 s
            else if startsWith "http://" s then drop 7 s
            else s in
  drop_last_slash s1.

End Str.

(** ** Base64 *)

Module Base64.

Definition alphabet : string :=
  "ABCDEFGHIJKLMNOPQRSTUVWXYZabcdefghijklmnopqrstuvwxyz0123456789+/".

Definition digit (n : N) : ascii :=
  match String.get (N.to_nat n) alphabet with
  | Some c => c
  | None => "="%char
  end.

(** Three bytes give four digits; a short last group is padded. *)
Fixpoint encode_bytes (bs : list N) : string :=
  match bs with
  | [] => EmptyString
  | [a] =>
      String.String (digit (N.shiftr a 2))
        (String.String (digit (N.shiftl (N.land a 3) 4)) "==")
  | [a; b] =>
      String.String (digit (N.shiftr a 2))
        (String.String (digit (N.lor (N.shiftl (N.land a 3) 4) (N.shiftr b 4)))
           (String.String (digit (N.shiftl (N.land b 15) 2)) "="))
  | a :: b :: c :: rest =>
      String.String (digit (N.shiftr a 2))
        (String.String (digit (N.lor (N.shiftl (N.land a 3) 4) (N.shiftr b 4)))
           (String.String (digit (N.lor (N.shiftl (N.land b 15) 2) (N.shiftr c 6)))
              (String.String (digit (N.land c 63)) (encode_bytes rest))))
  end.

(** The UTF-8 bytes of a code unit below 256. *)
Definition utf8 (c : ascii) : list N :=
  let n := N_of_ascii c in
  if N.ltb n 128 then [n]
  else [N.lor 192 (N.shiftr n 6); N.lor 128 (N.land n 63)].

Definition bytes_of_string (s : string) : list N :=
  List.flat_map utf8 (list_ascii_of_string s).

(** [Buffer.from(s).toString('base64')] *)
Definition encode (s : string) : string := encode_bytes (bytes_of_string s).

Fixpoint position (c : ascii) (s : string) (i : N) : option N :=
  match s with
  | EmptyString => None
  | String.String d s' => if Ascii.eqb c d then Some i else position c s' (N.succ i)
  end.

(** The value of a digit, in the standard alphabet or in the URL-safe
    one, where [-] and [_] stand for [+] and [/]. *)
Definition digit_value (c : ascii) : option N :=
  if Ascii.eqb c "-" then Some 62%N
  else if Ascii.eqb c "_" then Some 63%N
  else position c alphabet 0.

(** The digits of a string up to its first [=], other characters
    skipped. *)
Fixpoint digits (s : string) : list N :=
  match s with
  | EmptyString => []
  | String.String c s' =>
      if Ascii.eqb c "=" then []
      else match digit_value c with
           | Some d => d :: digits s'
           | None => digits s'
           end
  end.

Fixpoint decode_digits (fuel : nat) (ds : list N) : list N :=
  match fuel with
  | O => []
  | S fuel' =>
      match ds with
      | a :: b :: c :: d :: rest =>
          N.lor (N.shiftl a 2) (N.shiftr b 4)
          :: N.lor (N.shiftl (N.land b 15) 4) (N.shiftr c 2)
          :: N.lor (N.shiftl (N.land c 3) 6) d
          :: decode_digits fuel' rest
      | [a; b; c] =>
          [N.lor (N.shiftl a 2) (N.shiftr b 4);
           N.lor (N.shiftl (N.land b 15) 4) (N.shiftr c 2)]
      | [a; b] => [N.lor (N.shiftl a 2) (N.shiftr b 4)]
      | _ => []
      end
  end.

(** [Buffer.from(s, 'base64')] as Node decodes it: both alphabets,
    other characters skipped, the text after the first [=] ignored, an
    incomplete last group giving the bytes it holds.  It is the instance
    at which the detector is evaluated on concrete images; the detector
    itself is stated for any decoder. *)
Definition decode (s : string) : list N :=
  let ds := digits s in decode_digits (S (List.length ds)) ds.

End Base64.

(** ** The placeholder detector (generate-products.ts) *)

Section Detector.

(** [Buffer.from(s, 'base64')], a function of the runtime: the bytes
    of the buffer, each below 256. *)
Variable Buffer_from_base64 : string -> list N.

Definition byte_value (b : N) : Q := inject_Z (Z.of_N b).

(** [samples.reduce((a, b) => a + b, 0) / samples.length] *)
Definition average (samples : list N) : Q :=
  fold_left (fun a b => a + byte_value b) samples 0
  / inject_Z (Z.of_nat (List.length samples)).

(** [s => Math.abs(s - avg) < 10] *)
Definition near (avg : Q) (s : N) : bool :=
  JS.Qltb (Qabs (byte_value s - avg)) 10.

(** [samples.filter(s => Math.abs(s - avg) < 10).length] *)
Definition uniformCount (samples : list N) : nat :=
  List.length (filter (near (average samples)) samples).

(** The first [Math.min(100, buffer.length)] bytes. *)
Definition take_samples (buffer : list N) : list N :=
  firstn (Nat.min 100 (List.length buffer)) buffer.

(** [uniformCount / samples.length > 0.8] *)
Definition mostly_uniform (samples : list N) : bool :=
  JS.Qltb (8 # 10)
    (inject_Z (Z.of_nat (uniformCount samples))
     / inject_Z (Z.of_nat (List.length samples))).

(** [isPlaceholderImage].  Nothing inside the [try] block throws on a
    string, so its [catch] is never entered. *)
Definition isPlaceholderImage (imageDataUri : string) : bool :=
  if Str.includes "data:image/svg+xml" imageDataUri then true
  else
    match Str.match_base64 imageDataUri with
    | None => false
    | Some base64Data =>
        let buffer := Buffer_from_base64 base64Data in
        if Nat.ltb (List.length buffer) 1024 then true
        else if mostly_uniform (take_samples buffer) then true
        else false
    end.

End Detector.

Definition png_uri (bytes : list N) : string :=
  "data:image/png;base64," ++ Base64.encode_bytes bytes.

(** 2000 bytes of one value. *)
Definition solid_image (b : N) : string := png_uri (repeat b 2000).

(** 2000 bytes whose first hundred are eighty 0s and twenty 40s. *)
Definition eighty_percent_image : string :=
  png_uri (repeat 0%N 80 ++ repeat 40%N 20 ++ repeat 0%N 1900).

(** As above with eighty-one 0s and nineteen 40s. *)
Definition eighty_one_percent_image : string :=
  png_uri (repeat 0%N 81 ++ repeat 40%N 19 ++ repeat 0%N 1900).

(** ** The data the stages exchange *)

(** An entry of the request as it arrives: the fields are declared
    [string] and [number], and checked again at run time. *)
Module Entry.
Record t : Type := { category : JS.value; count : JS.value }.
End Entry.

Module CategoryInput.
Record t : Type := { category : string; count : JS.number }.
End CategoryInput.

Module OrganizedInput.
Record t : Type :=
  { categories : list CategoryInput.t; totalProducts : JS.number }.
End OrganizedInput.

Module Variant.
Record t : Type := { title : string; price : string }.
End Variant.

(** [Omit<GeneratedProduct, 'image' | 'category'>] *)
Module ProductData.
Record t : Type :=
  { title : string;
    description : string;
    price : string;
    variants : list Variant.t;
    features : list string }.
End ProductData.

Module GeneratedProduct.
Record t : Type :=
  { title : string;
    description : string;
    price : string;
    variants : list Variant.t;
    features : list string;
    image : string;
    category : string }.
End GeneratedProduct.

Module ShopifyProduct.
Record t : Type := { id : string; title : string; image : string }.
End ShopifyProduct.

Module WorkflowResult.
Record t : Type :=
  { success : bool;
    totalProducts : JS.number;
    createdProducts : list ShopifyProduct.t;
    errors : option (list string) }.
End WorkflowResult.

(** ** Step 1: the inlined organizeInput logic *)

Module Organize.

Definition msg_empty : string :=
  "Categories array is required and cannot be empty".
Definition msg_too_many : string := "Maximum 10 categories allowed".
Definition msg_none_valid : string :=
  "No valid categories found. Each category needs a name and count between 1-100".

(** [typeof v === 'string'] and [typeof v === 'number'] *)
Definition is_string (v : JS.value) : bool :=
  match v with JS.String _ => true | _ => false end.
Definition is_number (v : JS.value) : bool :=
  match v with JS.Number _ => true | _ => false end.

(** A field read at its declared type. *)
Definition as_string (v : JS.value) : string :=
  match v with JS.String s => s | _ => "" end.
Definition as_number (v : JS.value) : JS.number :=
  match v with JS.Number n => n | _ => JS.NaN end.

(** The callback of [categories.filter]; [None] is a null or undefined
    entry. *)
Definition valid (cat : option Entry.t) : bool :=
  match cat with
  | None => false
  | Some c =>
      if negb (JS.truthy (Entry.category c)) || negb (is_string (Entry.category c))
      then false
      else if negb (is_number (Entry.count c))
              || JS.ltb (as_number (Entry.count c)) (JS.of_Z 1)
              || JS.gtb (as_number (Entry.count c)) (JS.of_Z 100)
      then false
      else true
  end.

Definition entry_category (cat : option Entry.t) : string :=
  match cat with Some c => as_string (Entry.category c) | None => "" end.
Definition entry_count (cat : option Entry.t) : JS.number :=
  match cat with Some c => as_number (Entry.count c) | None => JS.NaN end.

(** The body of the first [try] block.  [categories] is [None] when the
    argument is not an array. *)
Definition organizeInput (categories : option (list (option Entry.t)))
  : Eff.res OrganizedInput.t :=
  match categories with
  | None => Eff.Throw (JS.Error msg_empty)
  | Some cats =>
      if Nat.eqb (List.length cats) 0 then Eff.Throw (JS.Error msg_empty)
      else if Nat.ltb 10 (List.length cats) then Eff.Throw (JS.Error msg_too_many)
      else
        let validCategories := filter valid cats in
        if Nat.eqb (List.length validCategories) 0
        then Eff.Throw (JS.Error msg_none_valid)
        else
          let totalProducts :=
            fold_left (fun sum cat => JS.add sum (entry_count cat))
              validCategories (JS.of_Z 0) in
          Eff.Ok
            {| OrganizedInput.categories :=
                 map (fun cat =>
                        {| CategoryInput.category := Str.trim (entry_category cat);
                           CategoryInput.count := entry_count cat |})
                   validCategories;
               OrganizedInput.totalProducts := totalProducts |}
  end.

End Organize.

Definition entry (c : string) (n : JS.number) : option Entry.t :=
  Some {| Entry.category := JS.String c; Entry.count := JS.Number n |}.

(** ** The outside world *)

Module Env.
(** The variables of [process.env] the stages read; [None] is an
    unset variable. *)
Record t : Type :=
  { SHOPIFY_STORE_DOMAIN : option string;
    SHOPIFY_ACCESS_TOKEN : option string;
    AI_GATEWAY_API_KEY : option string;
    VERCEL_AI_GATEWAY_KEY : option string;
    VERCEL_AI_GATEWAY_URL : option string;
    AI_GATEWAY_URL : option string }.

End Env.

Module Gen.
(** What varies in the prompt sent to the model; its fixed wording is
    not reproduced. *)
Record prompt : Type :=
  { category : string;
    imageInstruction : bool;
    retryEnhancement : option (nat * nat);
    referenceNote : bool }.

(** The argument of [generateText]. *)
Record request : Type :=
  { model : string;
    responseModalities : list string;
    apiKey : string;
    baseURL : option string;
    text_prompt : prompt }.

Record file : Type :=
  { mediaType : option string;
    base64 : option string;
    uint8Array : option (list N) }.

Record result : Type := { text : string; files : list file }.
End Gen.

(** ** Step 2: generateProducts *)

Definition dq : string := String.String (ascii_of_nat 34) EmptyString.

Definition attr (name value : string) : string :=
  " " ++ name ++ "=" ++ dq ++ value ++ dq.

(** The labelled grey square used when no image is available. *)
Definition placeholder_svg (category : string) : string :=
  "<svg" ++ attr "width" "400" ++ attr "height" "400"
  ++ attr "xmlns" "http://www.w3.org/2000/svg" ++ ">"
  ++ "<rect" ++ attr "width" "400" ++ attr "height" "400"
  ++ attr "fill" "#f0f0f0" ++ "/>"
  ++ "<text" ++ attr "x" "50%" ++ attr "y" "50%"
  ++ attr "font-family" "Arial" ++ attr "font-size" "20"
  ++ attr "fill" "#666" ++ attr "text-anchor" "middle"
  ++ attr "dominant-baseline" "middle" ++ ">"
  ++ category ++ "</text></svg>".

Definition placeholder_uri (category : string) : string :=
  "data:image/svg+xml;base64," ++ Base64.encode (placeholder_svg category).

Definition default_features : list string :=
  ["High quality"; "Durable"; "Modern design"].

Definition default_variants : list Variant.t :=
  [ {| Variant.title := "Standard"; Variant.price := "99.99" |};
    {| Variant.title := "Premium"; Variant.price := "149.99" |} ].

Definition msg_no_api_key : string :=
  "AI Gateway API key not found. Please set AI_GATEWAY_API_KEY in your .env.local file. "
  ++ "Get your API key from: https://vercel.com/d?to=%2F%5Bteam%5D%2F%7E%2Fai%2Fapi-keys".

(** [text.match(/\{[\s\S]*\}/)]: from the first opening brace to the
    last closing brace after it. *)
Fixpoint upto_last_brace (s : string) : option string :=
  match s with
  | EmptyString => None
  | String.String c s' =>
      match upto_last_brace s' with
      | Some t => Some (String.String c t)
      | None => if Ascii.eqb c "}" then Some (String.String c EmptyString) else None
      end
  end.

Fixpoint match_json (s : string) : option string :=
  match s with
  | EmptyString => None
  | String.String c s' =>
      if Ascii.eqb c "{"
      then option_map (String.String c) (upto_last_brace s')
      else match_json s'
  end.

(** [text.split('\n')[0]] *)
Definition first_line (s : string) : string :=
  Str.span (fun c => negb (Ascii.eqb c Str.nl)) s.

Section Generate.
Context {W : Type}.
Variable process_env : W -> Env.t.
Variable generateText : Gen.request -> W -> Eff.res Gen.result * W.
(** [JSON.parse] read at the type of the structured payload. *)
Variable JSON_parse : string -> Eff.res ProductData.t.
Variable Buffer_from_base64 : string -> list N.

Local Open Scope eff_scope.

Definition maxRetries : nat := 3.

Definition build_prompt (category : string) (sampleImage : option string)
           (attempts : nat) : Gen.prompt :=
  let given := JS.truthy_opt sampleImage in
  {| Gen.category := category;
     Gen.imageInstruction := given;
     Gen.retryEnhancement :=
       if Nat.ltb 1 attempts then Some (attempts, maxRetries) else None;
     Gen.referenceNote := given |}.

(** The structured payload read from the model's text, with its two
    fallbacks. *)
Definition parse_product (category : string) (i : nat) (text : string)
  : ProductData.t :=
  match match_json text with
  | Some json =>
      match JSON_parse json with
      | Eff.Ok productData => productData
      | Eff.Throw _ =>
          {| ProductData.title := "Premium " ++ category ++ " " ++ JS.show_nat (i + 1);
             ProductData.description :=
               JS.or_string text
                 ("A high-quality " ++ category ++ " with excellent features.");
             ProductData.price := "99.99";
             ProductData.variants := default_variants;
             ProductData.features := default_features |}
      end
  | None =>
      {| ProductData.title :=
           JS.or_string (first_line text)
             ("Premium " ++ category ++ " " ++ JS.show_nat (i + 1));
         ProductData.description := text;
         ProductData.price := "99.99";
         ProductData.variants := default_variants;
         ProductData.features := default_features |}
  end.

(** [f.mediaType?.startsWith('image/')] *)
Definition is_image (f : Gen.file) : bool :=
  match Gen.mediaType f with
  | Some m => Str.startsWith "image/" m
  | None => false
  end.

(** The data URI of the first returned image, or the empty string. *)
Definition extract_image (files : list Gen.file) : string :=
  match filter is_image files with
  | imageFile :: _ =>
      if JS.truthy_opt (Gen.base64 imageFile)
      then "data:" ++ JS.get_opt (Gen.mediaType imageFile) ++ ";base64,"
           ++ JS.get_opt (Gen.base64 imageFile)
      else match Gen.uint8Array imageFile with
           | Some bytes =>
               "data:" ++ JS.get_opt (Gen.mediaType imageFile) ++ ";base64,"
               ++ Base64.encode_bytes bytes
           | None => ""
           end
  | [] => ""
  end.

(** The body of the [try] block of one attempt.  [None] is the
    [continue] taken on a placeholder image; [Some p] is the product
    pushed onto [allProducts]. *)
Definition try_generate (category : string) (i : nat)
           (sampleImage : option string) (attempts : nat)
  : Eff.M (W := W) (option GeneratedProduct.t) :=
  env <- Eff.read process_env ;;
  let apiKey := JS.or_opt (Env.AI_GATEWAY_API_KEY env) (Env.VERCEL_AI_GATEWAY_KEY env) in
  if negb (JS.truthy_opt apiKey) then Eff.throw (JS.Error msg_no_api_key)
  else
    let gatewayUrl := JS.or_opt (Env.VERCEL_AI_GATEWAY_URL env) (Env.AI_GATEWAY_URL env) in
    let config :=
      {| Gen.model := "google/gemini-2.5-flash-image-preview";
         Gen.responseModalities := ["TEXT"; "IMAGE"];
         Gen.apiKey := JS.get_opt apiKey;
         Gen.baseURL := if JS.truthy_opt gatewayUrl then gatewayUrl else None;
         Gen.text_prompt := build_prompt category sampleImage attempts |} in
    result <- Eff.call (generateText config) ;;
    let productData := parse_product category i (Gen.text result) in
    let imageDataUri :=
      let uri := extract_image (Gen.files result) in
      if JS.truthy_string uri then uri else placeholder_uri category in
    let isPlaceholder := isPlaceholderImage Buffer_from_base64 imageDataUri in
    if isPlaceholder && Nat.ltb attempts maxRetries then Eff.ret None
    else
      Eff.ret
        (Some
           {| GeneratedProduct.title := ProductData.title productData;
              GeneratedProduct.description := ProductData.description productData;
              GeneratedProduct.price := ProductData.price productData;
              GeneratedProduct.variants := ProductData.variants productData;
              GeneratedProduct.features := ProductData.features productData;
              GeneratedProduct.image := imageDataUri;
              GeneratedProduct.category := category |}).

(** The product pushed by the [catch] block after the last attempt. *)
Definition fallback_product (category : string) (i : nat) : GeneratedProduct.t :=
  {| GeneratedProduct.title := category ++ " " ++ JS.show_nat (i + 1);
     GeneratedProduct.description :=
       "A high-quality " ++ category ++ " with excellent features and modern design.";
     GeneratedProduct.price := "99.99";
     GeneratedProduct.variants :=
       [ {| Variant.title := "Standard"; Variant.price := "99.99" |} ];
     GeneratedProduct.features := default_features;
     GeneratedProduct.image := placeholder_uri category;
     GeneratedProduct.category := category |}.

(** [while (!productGenerated && attempts < maxRetries)]; one unit of
    fuel per iteration ([maxRetries] units are enough, see
    [retry_loop_pushes_one]). *)
Fixpoint retry_loop (fuel : nat) (category : string) (i : nat)
         (sampleImage : option string)
         (attempts : nat) (productGenerated : bool)
         (allProducts : list GeneratedProduct.t)
  : Eff.M (W := W) (list GeneratedProduct.t) :=
  if negb productGenerated && Nat.ltb attempts maxRetries then
    match fuel with
    | O => Eff.diverge
    | S fuel' =>
        let attempts := S attempts in
        r <- Eff.attempt (try_generate category i sampleImage attempts) ;;
        match r with
        | Eff.Ok None =>
            retry_loop fuel' category i sampleImage attempts false allProducts
        | Eff.Ok (Some product) =>
            retry_loop fuel' category i sampleImage attempts true
              (allProducts ++ [product])
        | Eff.Throw _ =>
            if Nat.ltb attempts maxRetries
            then retry_loop fuel' category i sampleImage attempts false allProducts
            else retry_loop fuel' category i sampleImage attempts true
                   (allProducts ++ [fallback_product category i])
        end
    end
  else Eff.ret allProducts.

(** [for (let i = 0; i < count; i++)], entered at [i]. *)
Fixpoint count_loop (fuel : nat) (category : string) (count : JS.number)
         (sampleImage : option string) (i : nat)
         (allProducts : list GeneratedProduct.t)
  : Eff.M (W := W) (list GeneratedProduct.t) :=
  if JS.ltb (JS.of_nat i) count then
    match fuel with
    | O => Eff.diverge
    | S fuel' =>
        allProducts' <- retry_loop maxRetries category i sampleImage 0 false allProducts ;;
        count_loop fuel' category count sampleImage (S i) allProducts'
    end
  else Eff.ret allProducts.

(** [for (const categoryData of organizedInput.categories)] *)
Fixpoint category_loop (fuel : nat) (categories : list CategoryInput.t)
         (sampleImage : option string)
         (allProducts : list GeneratedProduct.t)
  : Eff.M (W := W) (list GeneratedProduct.t) :=
  match categories with
  | [] => Eff.ret allProducts
  | categoryData :: rest =>
      allProducts' <-
        count_loop fuel (CategoryInput.category categoryData)
          (CategoryInput.count categoryData) sampleImage 0 allProducts ;;
      category_loop fuel rest sampleImage allProducts'
  end.

(** [generateProducts]; [fuel] bounds the iterations of the loop over
    [count], which does not end when [count] is infinite. *)
Definition generateProducts (fuel : nat) (organizedInput : OrganizedInput.t)
           (sampleImage : option string)
  : Eff.M (W := W) (list GeneratedProduct.t) :=
  category_loop fuel (OrganizedInput.categories organizedInput) sampleImage [].

End Generate.

(** ** The commerce API *)

Module Payload.
(** [inventory_management] is always [null] and is left out. *)
Record variant : Type :=
  { option1 : string; price : string; position : nat }.

Record product : Type :=
  { title : string;
    body_html : string;
    vendor : string;
    product_type : string;
    variants : list variant;
    options : option (list string) }.

Record image : Type := { attachment : string; filename : string }.

Inductive body : Type :=
| Product (p : product)
| Image (i : image).
End Payload.

Module Http.
(** A POST with a JSON body and the access-token header. *)
Record request : Type :=
  { url : string; access_token : string; body : Payload.body }.

(** The [product] object of a response body: [id] is [None] when it
    is missing or falsy, and otherwise its [toString()]. *)
Record product_json : Type := { id : option string; title : string }.

(** A response: [text] and [json] are what awaiting [text()] and
    [json()] gives; [json] is [Ok None] when the body has no
    [product]. *)
Record response : Type :=
  { ok : bool;
    status : nat;
    text : Eff.res string;
    json : Eff.res (option product_json) }.
End Http.

(** ** Step 3: createShopifyProducts *)

Fixpoint mapi_from {A B} (f : A -> nat -> B) (index : nat) (l : list A) : list B :=
  match l with
  | [] => []
  | x :: rest => f x index :: mapi_from f (S index) rest
  end.

(** [array.map((x, index) => f x index)] *)
Definition mapi {A B} (f : A -> nat -> B) (l : list A) : list B :=
  mapi_from f 0 l.

(** [new Set()], [set.has(v)] and [set.add(v)] on strings. *)
Definition new_Set : list string := [].
Definition Set_has (set : list string) (v : string) : bool :=
  existsb (String.eqb v) set.
Definition Set_add (set : list string) (v : string) : list string :=
  if Set_has set v then set else set ++ [v].

(** The callback of [product.variants.map].  [seenValues] is created
    inside the callback, once per variant, and dropped when the callback
    returns. *)
Definition variant_record (variant : Variant.t) (index : nat) : Payload.variant :=
  let optionValue :=
    JS.or_string (Variant.title variant) ("Option " ++ JS.show_nat (index + 1)) in
  let seenValues := new_Set in
  let uniqueOptionValue :=
    if Set_has seenValues optionValue
    then optionValue ++ " " ++ JS.show_nat (index + 1)
    else optionValue in
  let seenValues := Set_add seenValues uniqueOptionValue in
  {| Payload.option1 := uniqueOptionValue;
     Payload.price := Variant.price variant;
     Payload.position := index + 1 |}.

(** [const variants = ...] *)
Definition build_variants (product : GeneratedProduct.t) : list Payload.variant :=
  if Nat.ltb 0 (List.length (GeneratedProduct.variants product))
  then mapi variant_record (GeneratedProduct.variants product)
  else [ {| Payload.option1 := "Default";
            Payload.price := JS.or_string (GeneratedProduct.price product) "0.00";
            Payload.position := 1 |} ].

(** [productPayload] *)
Definition product_payload (product : GeneratedProduct.t) : Payload.product :=
  let productOptions :=
    if Nat.ltb 0 (List.length (GeneratedProduct.variants product))
    then ["Variant"] else [] in
  {| Payload.title := GeneratedProduct.title product;
     Payload.body_html :=
       "<p>" ++ Str.replace_newlines "</p><p>" (GeneratedProduct.description product)
       ++ "</p>";
     Payload.vendor := "AI Generated";
     Payload.product_type := GeneratedProduct.category product;
     Payload.variants := build_variants product;
     Payload.options :=
       if Nat.ltb 0 (List.length productOptions) then Some productOptions else None |}.

Definition yes_no (v : option string) : string :=
  if JS.truthy_opt v then "yes" else "no".

Definition msg_create_credentials (shopifyDomain accessToken : option string) : string :=
  "Shopify credentials not configured. Please set SHOPIFY_STORE_DOMAIN and SHOPIFY_ACCESS_TOKEN environment variables."
  ++ String.String Str.nl
       ("      Found SHOPIFY_STORE_DOMAIN: " ++ yes_no shopifyDomain)
  ++ String.String Str.nl
       ("      Found SHOPIFY_ACCESS_TOKEN: " ++ yes_no accessToken).

Definition msg_upload_credentials : string :=
  "Shopify credentials not configured. Please set SHOPIFY_STORE_DOMAIN and SHOPIFY_ACCESS_TOKEN environment variables.".

(** The error thrown on a response that is not ok.  The advice that
    follows the first line of the 401 and 422 messages is left out; the
    enclosing [catch] discards the error. *)
Definition create_error (status : nat) (errorText : string) : JS.exn :=
  if Nat.eqb status 401 then
    JS.Error ("Shopify authentication failed (401). Error details: " ++ errorText)
  else if Nat.eqb status 422 then
    JS.Error ("Shopify validation error (422). Error details: " ++ errorText)
  else
    JS.Error ("Shopify API error: " ++ JS.show_nat status ++ " - " ++ errorText).

Section Commerce.
Context {W : Type}.
Variable process_env : W -> Env.t.
Variable fetch : Http.request -> W -> Eff.res Http.response * W.
Variable Date_now : W -> N.

Local Open Scope eff_scope.

(** The body of the [try] block for one product: the record pushed
    onto [createdProducts]. *)
Definition create_one (normalizedDomain accessToken : string)
           (product : GeneratedProduct.t)
  : Eff.M (W := W) ShopifyProduct.t :=
  let createProductUrl :=
    "https://" ++ normalizedDomain ++ "/admin/api/2025-07/products.json" in
  createResponse <-
    Eff.call (fetch {| Http.url := createProductUrl;
                       Http.access_token := Str.trim accessToken;
                       Http.body := Payload.Product (product_payload product) |}) ;;
  if negb (Http.ok createResponse) then
    errorText <- Eff.lift (Http.text createResponse) ;;
    Eff.throw (create_error (Http.status createResponse) errorText)
  else
    createResult <- Eff.lift (Http.json createResponse) ;;
    match createResult with
    | None => Eff.throw (JS.Error "Product created but no ID returned from Shopify")
    | Some created =>
        match Http.id created with
        | None => Eff.throw (JS.Error "Product created but no ID returned from Shopify")
        | Some productId =>
            Eff.ret {| ShopifyProduct.id := productId;
                       ShopifyProduct.title := Http.title created;
                       ShopifyProduct.image := GeneratedProduct.image product |}
        end
    end.

(** [for (const product of products) { try {...} catch {} }] *)
Fixpoint create_loop (normalizedDomain accessToken : string)
         (products : list GeneratedProduct.t)
         (createdProducts : list ShopifyProduct.t)
  : Eff.M (W := W) (list ShopifyProduct.t) :=
  match products with
  | [] => Eff.ret createdProducts
  | product :: rest =>
      r <- Eff.attempt (create_one normalizedDomain accessToken product) ;;
      match r with
      | Eff.Ok created =>
          create_loop normalizedDomain accessToken rest (createdProducts ++ [created])
      | Eff.Throw _ =>
          create_loop normalizedDomain accessToken rest createdProducts
      end
  end.

Definition createShopifyProducts (products : list GeneratedProduct.t)
  : Eff.M (W := W) (list ShopifyProduct.t) :=
  env <- Eff.read process_env ;;
  let shopifyDomain := Env.SHOPIFY_STORE_DOMAIN env in
  let accessToken := Env.SHOPIFY_ACCESS_TOKEN env in
  if negb (JS.truthy_opt shopifyDomain) || negb (JS.truthy_opt accessToken) then
    Eff.throw (JS.Error (msg_create_credentials shopifyDomain accessToken))
  else
    let normalizedDomain := Str.normalize_domain (JS.get_opt shopifyDomain) in
    create_loop normalizedDomain (JS.get_opt accessToken) products [].

(** ** Step 4: uploadProductImages *)

(** The base64 text of an image with its data-URI prefix removed. *)
Definition image_data (image : string) : string :=
  if Str.startsWith "data:image/" image then Str.strip_data_uri_prefix image
  else match Str.indexOf "base64," image with
       | Some at_ => Str.substring_from (at_ + 7) image
       | None => image
       end.

Definition image_extension (image : string) : string :=
  match Str.match_mime image with
  | Some mimeType =>
      if Str.includes "jpeg" mimeType || Str.includes "jpg" mimeType then "jpg"
      else if Str.includes "png" mimeType then "png"
      else if Str.includes "webp" mimeType then "webp"
      else if Str.includes "svg" mimeType then "png"
      else "png"
  | None => "png"
  end.

(** The body of the [try] block for one record; each [continue] ends
    it with [tt]. *)
Definition upload_one (normalizedDomain accessToken : string)
           (product : ShopifyProduct.t)
  : Eff.M (W := W) unit :=
  if negb (JS.truthy_string (ShopifyProduct.image product)) then Eff.ret tt
  else
    let imageData := image_data (ShopifyProduct.image product) in
    if negb (JS.truthy_string imageData) then Eff.ret tt
    else
      let imageExtension := image_extension (ShopifyProduct.image product) in
      let imageUploadUrl :=
        "https://" ++ normalizedDomain ++ "/admin/api/2025-07/products/"
        ++ ShopifyProduct.id product ++ "/images.json" in
      now <- Eff.read Date_now ;;
      let imagePayload :=
        {| Payload.attachment := imageData;
           Payload.filename :=
             "product-" ++ ShopifyProduct.id product ++ "-" ++ JS.show_N now
             ++ "." ++ imageExtension |} in
      response <-
        Eff.call (fetch {| Http.url := imageUploadUrl;
                           Http.access_token := Str.trim accessToken;
                           Http.body := Payload.Image imagePayload |}) ;;
      if negb (Http.ok response) then Eff.ret tt else Eff.ret tt.

(** [for (const product of products) { try {...} catch { continue } }] *)
Fixpoint upload_loop (normalizedDomain accessToken : string)
         (products : list ShopifyProduct.t)
  : Eff.M (W := W) unit :=
  match products with
  | [] => Eff.ret tt
  | product :: rest =>
      _ <- Eff.attempt (upload_one normalizedDomain accessToken product) ;;
      upload_loop normalizedDomain accessToken rest
  end.

Definition uploadProductImages (products : list ShopifyProduct.t)
  : Eff.M (W := W) unit :=
  env <- Eff.read process_env ;;
  let shopifyDomain := Env.SHOPIFY_STORE_DOMAIN env in
  let accessToken := Env.SHOPIFY_ACCESS_TOKEN env in
  if negb (JS.truthy_opt shopifyDomain) || negb (JS.truthy_opt accessToken) then
    Eff.throw (JS.Error msg_upload_credentials)
  else
    let normalizedDomain := Str.normalize_domain (JS.get_opt shopifyDomain) in
    upload_loop normalizedDomain (JS.get_opt accessToken) products.

End Commerce.

(** ** The workflow (productGeneratorWorkflow) *)

(** What [await generateProducts(...)] can hand back to the workflow,
    which checks it. *)
Inductive generated : Type :=
| Nullish
| NotArray (type_of : string)
| Products (products : list GeneratedProduct.t).

Section Orchestrator.
Context {W : Type}.

(** [JSON.stringify(categories)], which the workflow evaluates for its
    first log line, before the first [try].  The call throws a
    [TypeError] on an argument that holds a BigInt or refers to itself.
    The embedding of a request keeps what step 1 reads of it, which
    does not decide that, so how the call ends is given with the run;
    its text is only logged. *)
Variable JSON_stringify : option (list (option Entry.t)) -> Eff.res unit.

(** The three imported stage functions; the workflow is stated for
    any behaviour of them. *)
Variable stage_generate : OrganizedInput.t -> option string -> Eff.M (W := W) generated.
Variable stage_create : list GeneratedProduct.t -> Eff.M (W := W) (list ShopifyProduct.t).
Variable stage_upload : list ShopifyProduct.t -> Eff.M (W := W) unit.

Local Open Scope eff_scope.

Definition step_failed (n : string) (error : JS.exn) : string :=
  "Step " ++ n ++ " failed: " ++ JS.message_of error.

(** The second [try] block. *)
Definition step2 (organizedInput : OrganizedInput.t) (sampleImage : option string)
  : Eff.M (W := W) (list GeneratedProduct.t) :=
  result <- stage_generate organizedInput sampleImage ;;
  match result with
  | Nullish => Eff.throw (JS.Error "generateProducts returned null or undefined")
  | NotArray type_of =>
      Eff.throw (JS.Error ("generateProducts returned invalid type: " ++ type_of
                           ++ ", expected array"))
  | Products products => Eff.ret products
  end.

Definition productGeneratorWorkflow
           (categories : option (list (option Entry.t)))
           (sampleImage : option string)
  : Eff.M (W := W) WorkflowResult.t :=
  Eff.lift (JSON_stringify categories) ;;;
  let errors : list string := [] in
  let createdProducts : list ShopifyProduct.t := [] in
  r1 <- Eff.attempt (Eff.lift (Organize.organizeInput categories)) ;;
  match r1 with
  | Eff.Throw error =>
      let errors := (errors ++ [step_failed "1" error])%list in
      Eff.ret {| WorkflowResult.success := false;
                 WorkflowResult.totalProducts := JS.of_Z 0;
                 WorkflowResult.createdProducts := [];
                 WorkflowResult.errors := Some errors |}
  | Eff.Ok organizedInput =>
      r2 <- Eff.attempt (step2 organizedInput sampleImage) ;;
      match r2 with
      | Eff.Throw error =>
          let errors := (errors ++ [step_failed "2" error])%list in
          Eff.ret {| WorkflowResult.success := false;
                     WorkflowResult.totalProducts :=
                       JS.or_number (OrganizedInput.totalProducts organizedInput)
                         (JS.of_Z 0);
                     WorkflowResult.createdProducts := [];
                     WorkflowResult.errors := Some errors |}
      | Eff.Ok generatedProducts =>
          r3 <- Eff.attempt (stage_create generatedProducts) ;;
          match r3 with
          | Eff.Throw error =>
              let errors := (errors ++ [step_failed "3" error])%list in
              Eff.ret {| WorkflowResult.success :=
                           Nat.ltb 0 (List.length createdProducts);
                         WorkflowResult.totalProducts :=
                           OrganizedInput.totalProducts organizedInput;
                         WorkflowResult.createdProducts := createdProducts;
                         WorkflowResult.errors := Some errors |}
          | Eff.Ok createdProducts =>
              r4 <- Eff.attempt (stage_upload createdProducts) ;;
              let errors :=
                match r4 with
                | Eff.Throw error => (errors ++ [step_failed "4" error])%list
                | Eff.Ok _ => errors
                end in
              Eff.ret {| WorkflowResult.success := true;
                         WorkflowResult.totalProducts :=
                           OrganizedInput.totalProducts organizedInput;
                         WorkflowResult.createdProducts := createdProducts;
                         WorkflowResult.errors :=
                           if Nat.ltb 0 (List.length errors)
                           then Some errors else None |}
          end
      end
  end.

End Orchestrator.

(** ** The pipeline with its own stages *)

Section Pipeline.
Context {W : Type}.
Variable JSON_stringify : option (list (option Entry.t)) -> Eff.res unit.
Variable process_env : W -> Env.t.
Variable generateText : Gen.request -> W -> Eff.res Gen.result * W.
Variable JSON_parse : string -> Eff.res ProductData.t.
Variable Buffer_from_base64 : string -> list N.
Variable fetch : Http.request -> W -> Eff.res Http.response * W.
Variable Date_now : W -> N.

Definition run_generate (fuel : nat) (organizedInput : OrganizedInput.t)
           (sampleImage : option string) : Eff.M (W := W) generated :=
  Eff.bind
    (generateProducts process_env generateText JSON_parse Buffer_from_base64
       fuel organizedInput sampleImage)
    (fun products => Eff.ret (Products products)).

(** The workflow as deployed; [fuel] bounds the loops of step 2. *)
Definition pipeline (fuel : nat)
           (categories : option (list (option Entry.t)))
           (sampleImage : option string)
  : Eff.M (W := W) WorkflowResult.t :=
  productGeneratorWorkflow
    JSON_stringify
    (run_generate fuel)
    (createShopifyProducts process_env fetch)
    (uploadProductImages process_env fetch Date_now)
    categories sampleImage.

End Pipeline.

(** ** A scripted world, for evaluating the stages *)

Module Script.

(** The environment and, for each call made so far, what the next
    call to the generation service and to the commerce API gives. *)
Record world : Type :=
  { env : Env.t;
    generation : list (Eff.res Gen.result);
    commerce : list (Eff.res Http.response);
    clock : N;
    sent : list Http.request }.

Definition generateText (_ : Gen.request) (w : world)
  : Eff.res Gen.result * world :=
  match generation w with
  | [] => (Eff.Throw (JS.Error "generation service unavailable"), w)
  | r :: rest =>
      (r, {| env := env w; generation := rest; commerce := commerce w;
             clock := clock w; sent := sent w |})
  end.

Definition fetch (req : Http.request) (w : world)
  : Eff.res Http.response * world :=
  match commerce w with
  | [] => (Eff.Throw (JS.Error "fetch failed"),
           {| env := env w; generation := generation w; commerce := [];
              clock := clock w; sent := sent w ++ [req] |})
  | r :: rest =>
      (r, {| env := env w; generation := generation w; commerce := rest;
             clock := clock w; sent := sent w ++ [req] |})
  end.

(** No JSON is accepted: every payload falls back. *)
Definition JSON_parse (_ : string) : Eff.res ProductData.t :=
  Eff.Throw (JS.Error "Unexpected token").

Definition configured : Env.t :=
  {| Env.SHOPIFY_STORE_DOMAIN := Some "https://shop.example.com/";
     Env.SHOPIFY_ACCESS_TOKEN := Some "token";
     Env.AI_GATEWAY_API_KEY := Some "key";
     Env.VERCEL_AI_GATEWAY_KEY := None;
     Env.VERCEL_AI_GATEWAY_URL := None;
     Env.AI_GATEWAY_URL := None |}.


Definition start (e : Env.t) (g : list (Eff.res Gen.result))
           (c : list (Eff.res Http.response)) : world :=
  {| env := e; generation := g; commerce := c; clock := 1700000000%N; sent := [] |}.

Definition created (id title : string) : Eff.res Http.response :=
  Eff.Ok {| Http.ok := true; Http.status := 201;
            Http.text := Eff.Ok "";
            Http.json := Eff.Ok (Some {| Http.id := Some id; Http.title := title |}) |}.

Definition refused (status : nat) : Eff.res Http.response :=
  Eff.Ok {| Http.ok := false; Http.status := status;
            Http.text := Eff.Ok "refused";
            Http.json := Eff.Throw (JS.Error "no body") |}.

(** The scripted requests are plain data, which [JSON.stringify]
    serialises. *)
Definition JSON_stringify (_ : option (list (option Entry.t))) : Eff.res unit :=
  Eff.Ok tt.

Definition run (fuel : nat) (categories : option (list (option Entry.t)))
           (sampleImage : option string) (w : world) :=
  pipeline JSON_stringify env generateText JSON_parse Base64.decode fetch clock
    fuel categories sampleImage w.

End Script.

(** ** Notions the statements use *)

(** The bytes the detector looks at in a data URI. *)
Definition decoded (decode : string -> list N) (uri : string) : list N :=
  match Str.match_base64 uri with
  | Some data => decode data
  | None => []
  end.

(** The counts the filter lets through, said without the code's
    comparisons: not-a-number, or a finite value from 1 to 100. *)
Definition accepted_count (n : JS.number) : Prop :=
  n = JS.NaN \/ exists q, n = JS.Fin q /\ 1 <= q /\ q <= 100.

(** The entries the filter lets through: a non-empty string for a name
    and an accepted count. *)
Definition acceptable (cat : option Entry.t) : Prop :=
  exists s n,
    cat = Some {| Entry.category := JS.String s; Entry.count := JS.Number n |}
    /\ s <> "" /\ accepted_count n.

(** A count between 1 and 100, an integer or not. *)
Definition in_range (n : JS.number) : Prop :=
  exists q, n = JS.Fin q /\ 1 <= q /\ q <= 100.

(** An entry with a non-empty string for a name and a count in
    range. *)
Definition well_formed_entry (cat : option Entry.t) : Prop :=
  exists s n,
    cat = Some {| Entry.category := JS.String s; Entry.count := JS.Number n |}
    /\ s <> "" /\ in_range n.

(** An entry whose count is the number NaN. *)
Definition count_is_NaN (cat : option Entry.t) : Prop :=
  exists c, cat = Some c /\ Entry.count c = JS.Number JS.NaN.

(** The request that attempt number [attempts] sends to the generation
    service when a key is configured. *)
Definition request_sent (env : Env.t) (category : string)
           (sampleImage : option string) (attempts : nat) : Gen.request :=
  let gatewayUrl := JS.or_opt (Env.VERCEL_AI_GATEWAY_URL env) (Env.AI_GATEWAY_URL env) in
  {| Gen.model := "google/gemini-2.5-flash-image-preview";
     Gen.responseModalities := ["TEXT"; "IMAGE"];
     Gen.apiKey :=
       JS.get_opt (JS.or_opt (Env.AI_GATEWAY_API_KEY env) (Env.VERCEL_AI_GATEWAY_KEY env));
     Gen.baseURL := if JS.truthy_opt gatewayUrl then gatewayUrl else None;
     Gen.text_prompt := build_prompt category sampleImage attempts |}.

(** What the workflow keeps of an entry that passed the filter. *)
Definition organized (cat : option Entry.t) : CategoryInput.t :=
  {| CategoryInput.category := Str.trim (Organize.entry_category cat);
     CategoryInput.count := Organize.entry_count cat |}.

(** A count as the data model has it: an integer from 1 to 100. *)
Definition valid_count (n : JS.number) : bool :=
  JS.is_integer n && negb (JS.ltb n (JS.of_Z 1)) && negb (JS.gtb n (JS.of_Z 100)).

(** The batch invariant of the data model: 1 to 10 categories, valid
    counts, and a total that is the sum of the counts. *)
Definition valid_batch (b : OrganizedInput.t) : bool :=
  let counts := map CategoryInput.count (OrganizedInput.categories b) in
  Nat.leb 1 (List.length counts) && Nat.leb (List.length counts) 10
  && forallb valid_count counts
  && JS.eqb (OrganizedInput.totalProducts b) (fold_left JS.add counts (JS.of_Z 0)).

(** The integer a count denotes. *)
Definition whole (n : JS.number) : nat :=
  match n with
  | JS.Fin q => Z.to_nat (Qfloor q)
  | _ => O
  end.

(** The iterations of the loop over [count] that start at [i] and
    fit in [fuel]. *)
Definition trips (count : JS.number) (i fuel : nat) : nat :=
  List.length (filter (fun j => JS.ltb (JS.of_nat j) count) (seq i fuel)).

Definition requested (categories : list CategoryInput.t) : nat :=
  list_sum (map (fun c => whole (CategoryInput.count c)) categories).

(** An environment variable that is not set, or set to nothing. *)
Definition unset (v : option string) : Prop := v = None \/ v = Some "".

(** The commerce credentials are absent. *)
Definition credentials_absent (env : Env.t) : Prop :=
  unset (Env.SHOPIFY_STORE_DOMAIN env) \/ unset (Env.SHOPIFY_ACCESS_TOKEN env).

(** The requests the normalizer refuses: not an array, no entry, more
    than 10 entries, or no acceptable entry. *)
Definition rejected (categories : option (list (option Entry.t))) : Prop :=
  match categories with
  | None => True
  | Some cats =>
      cats = [] \/ (10 < List.length cats)%nat
      \/ (forall cat, In cat cats -> ~ acceptable cat)
  end.

(** ** Concrete inputs *)

(** A generated product whose two variants carry the same title. *)
Definition twin_variants : GeneratedProduct.t :=
  {| GeneratedProduct.title := "Oak Chair";
     GeneratedProduct.description := "A chair.";
     GeneratedProduct.price := "99.99";
     GeneratedProduct.variants :=
       [ {| Variant.title := "Standard"; Variant.price := "99.99" |};
         {| Variant.title := "Standard"; Variant.price := "149.99" |} ];
     GeneratedProduct.features := default_features;
     GeneratedProduct.image := "";
     GeneratedProduct.category := "Chairs" |}.

(** A request with a fractional count and a blank name. *)
Definition fractional_request : option (list (option Entry.t)) :=
  Some [entry "Chairs" (JS.Fin (5 # 2)); entry "   " (JS.of_Z 3)].

(** A request for two chairs. *)
Definition two_chairs : option (list (option Entry.t)) :=
  Some [entry "Chairs" (JS.of_Z 2)].

Definition two_chairs_batch : OrganizedInput.t :=
  {| OrganizedInput.categories :=
       [ {| CategoryInput.category := "Chairs"; CategoryInput.count := JS.of_Z 2 |} ];
     OrganizedInput.totalProducts := JS.of_Z 2 |}.

(** [JSON.stringify] on a request an entry of which also refers to
    itself ([c.self = c]): the [TypeError] of V8, by the first line of
    its message.  Step 1 reads nothing of the extra property. *)
Definition stringify_circular (_ : option (list (option Entry.t))) : Eff.res unit :=
  Eff.Throw (JS.Error "Converting circular structure to JSON").

(** Stages that only record that they ran; the publish stage throws. *)
Module Stub.
Definition world : Type := list string.

Definition record : ShopifyProduct.t :=
  {| ShopifyProduct.id := "1001";
     ShopifyProduct.title := "Oak Chair";
     ShopifyProduct.image := "" |}.

Definition generate (_ : OrganizedInput.t) (_ : option string)
  : Eff.M (W := world) generated :=
  fun w => (Eff.Done (Products [twin_variants]), (w ++ ["generate"])%list).

Definition create (_ : list GeneratedProduct.t)
  : Eff.M (W := world) (list ShopifyProduct.t) :=
  fun w => (Eff.Done [record], (w ++ ["create"])%list).

Definition upload (_ : list ShopifyProduct.t) : Eff.M (W := world) unit :=
  fun w => (Eff.Raised (JS.Error "upload refused"), (w ++ ["upload"])%list).
End Stub.

(** ** The forms that start the workflow (page.tsx, shopify-data-generator.tsx) *)

(** [a <= b] on numbers. *)
Definition number_leb (a b : JS.number) : bool :=
  match a, b with
  | JS.NaN, _ | _, JS.NaN => false
  | JS.NInf, _ => true
  | _, JS.PInf => true
  | JS.PInf, _ => false
  | _, JS.NInf => false
  | JS.Fin x, JS.Fin y => Qle_bool x y
  end.

(** [array.filter((_, i) => i !== index)] *)
Fixpoint remove_at {A} (index : nat) (l : list A) : list A :=
  match l, index with
  | [], _ => []
  | _ :: rest, O => rest
  | x :: rest, S index' => x :: remove_at index' rest
  end.

Module Form.

(** The rows of the form when it opens. *)
Definition initial : list CategoryInput.t :=
  [ {| CategoryInput.category := ""; CategoryInput.count := JS.of_Z 1 |} ].

(** [addCategory], the same in both forms. *)
Definition addCategory (categories : list CategoryInput.t) : list CategoryInput.t :=
  if Nat.ltb (List.length categories) 10
  then (categories
        ++ [ {| CategoryInput.category := ""; CategoryInput.count := JS.of_Z 1 |} ])%list
  else categories.

(** [removeCategory], the same in both forms. *)
Definition removeCategory (categories : list CategoryInput.t) (index : nat)
  : list CategoryInput.t :=
  if Nat.ltb 1 (List.length categories)
  then remove_at index categories
  else categories.

(** What a user does to the rows. *)
Inductive action : Type :=
| Add
| Remove (index : nat).

Definition act (categories : list CategoryInput.t) (a : action) : list CategoryInput.t :=
  match a with
  | Add => addCategory categories
  | Remove index => removeCategory categories index
  end.

End Form.

Module Page.

(** The callback of [categories.filter] in [handleSubmit] of page.tsx. *)
Definition valid (cat : CategoryInput.t) : bool :=
  JS.truthy_string (Str.trim (CategoryInput.category cat))
  && JS.gtb (CategoryInput.count cat) (JS.of_Z 0)
  && number_leb (CategoryInput.count cat) (JS.of_Z 100).

(** [categoriesData], or [None] when [handleSubmit] stops at the
    validation error. *)
Definition categoriesData (categories : list CategoryInput.t)
  : option (list CategoryInput.t) :=
  let validCategories := filter valid categories in
  if Nat.eqb (List.length validCategories) 0 then None
  else Some (map (fun cat =>
                    {| CategoryInput.category := Str.trim (CategoryInput.category cat);
                       CategoryInput.count := CategoryInput.count cat |})
               validCategories).

(** [JSON.parse(JSON.stringify(categoriesData))], as the route reads
    what the page sent: a number that is not finite becomes [null]. *)
Definition through_json (cat : CategoryInput.t) : option Entry.t :=
  Some {| Entry.category := JS.String (CategoryInput.category cat);
          Entry.count :=
            match CategoryInput.count cat with
            | JS.Fin q => JS.Number (JS.Fin q)
            | _ => JS.Null
            end |}.

End Page.

Module Component.

(** The callback of [categories.filter] in [handleSubmit] of
    shopify-data-generator.tsx. *)
Definition valid (cat : CategoryInput.t) : bool :=
  JS.truthy_string (Str.trim (CategoryInput.category cat)).

(** [validCategories], or [None] when [handleSubmit] stops at the
    validation error. *)
Definition validCategories (categories : list CategoryInput.t)
  : option (list CategoryInput.t) :=
  let validCategories := filter valid categories in
  if Nat.eqb (List.length validCategories) 0 then None
  else Some validCategories.

(** The argument as the server action receives it. *)
Definition as_argument (cat : CategoryInput.t) : option Entry.t :=
  Some {| Entry.category := JS.String (CategoryInput.category cat);
          Entry.count := JS.Number (CategoryInput.count cat) |}.

End Component.

(** ** The route that starts the workflow (api/workflow/route.ts) *)

Module Route.

(** The body of a JSON response. *)
Inductive body : Type :=
| ErrorBody (error : string)
| WorkflowBody (workflowId status : string) (result : WorkflowResult.t).

(** [NextResponse.json(body, { status })]; the status is 200 when none
    is given. *)
Record response : Type := { status : nat; payload : body }.

(** The fields of a multipart form that the route reads, as strings. *)
Record form : Type :=
  { categories_field : option string; sampleImage_field : option string }.

(** What [request.json()] gives: something whose [categories] can be
    read ([None] when that is not an array), or null or undefined, on
    which reading [categories] throws the given error. *)
Inductive json_body : Type :=
| Nothing (message : string)
| Object (categories : option (list (option Entry.t))).

(** A request: its content type, and what awaiting [formData()] and
    [json()] gives. *)
Record request : Type :=
  { content_type : option string;
    formData : Eff.res form;
    json : Eff.res json_body }.

Section Handler.
Context {W : Type}.
(** [JSON.parse] of the [categories] field; [None] is a value that is
    not an array. *)
Variable JSON_parse : string -> Eff.res (option (list (option Entry.t))).
Variable Date_now : W -> N.
(** [Math.random().toString(36).substr(2, 9)] *)
Variable random_suffix : W -> string * W.
(** [triggerProductGeneratorWorkflow], which hands its arguments to the
    workflow. *)
Variable triggerProductGeneratorWorkflow :
  option (list (option Entry.t)) -> option string -> Eff.M (W := W) WorkflowResult.t.

Local Open Scope eff_scope.

(** The first part of the [try] block: the categories and the sample
    image read from the request, or the response returned at once. *)
Definition read_request (request : request)
  : Eff.M (W := W) (response + option (list (option Entry.t)) * option string) :=
  let contentType := JS.or_string (JS.get_opt (content_type request)) "" in
  if Str.includes "multipart/form-data" contentType then
    formData <- Eff.lift (formData request) ;;
    let categoriesStr := categories_field formData in
    if negb (JS.truthy_opt categoriesStr) then
      Eff.ret (inl {| status := 400; payload := ErrorBody "Categories are required" |})
    else
      categories <- Eff.lift (JSON_parse (JS.get_opt categoriesStr)) ;;
      let imageData := sampleImage_field formData in
      let sampleImage := if JS.truthy_opt imageData then imageData else None in
      Eff.ret (inr (categories, sampleImage))
  else
    body <- Eff.lift (json request) ;;
    match body with
    | Nothing message => Eff.throw (JS.Error message)
    | Object categories => Eff.ret (inr (categories, None))
    end.

(** The [try] block of [POST].  Its log lines serialise [categories],
    which was parsed from JSON at this point, so that they do not
    throw. *)
Definition handle (request : request) : Eff.M (W := W) response :=
  r <- read_request request ;;
  match r with
  | inl response => Eff.ret response
  | inr (categories, sampleImage) =>
      match categories with
      | None =>
          Eff.ret {| status := 400; payload := ErrorBody "Categories array is required" |}
      | Some cats =>
          if Nat.eqb (List.length cats) 0 then
            Eff.ret {| status := 400;
                       payload := ErrorBody "At least one category is required" |}
          else if Nat.ltb 10 (List.length cats) then
            Eff.ret {| status := 400;
                       payload := ErrorBody "Maximum 10 categories allowed" |}
          else
            now <- Eff.read Date_now ;;
            suffix <- Eff.call (fun w => let (s, w') := random_suffix w in (Eff.Ok s, w')) ;;
            let workflowId := "workflow-" ++ JS.show_N now ++ "-" ++ suffix in
            r <- Eff.attempt (triggerProductGeneratorWorkflow categories sampleImage) ;;
            match r with
            | Eff.Throw error => Eff.throw error
            | Eff.Ok result =>
                Eff.ret
                  {| status := 200;
                     payload :=
                       WorkflowBody workflowId
                         (if WorkflowResult.success result then "completed" else "failed")
                         result |}
            end
      end
  end.

(** [POST]: the [catch] block answers 500 with the message of the
    error. *)
Definition POST (request : request) : Eff.M (W := W) response :=
  r <- Eff.attempt (handle request) ;;
  match r with
  | Eff.Ok response => Eff.ret response
  | Eff.Throw error =>
      Eff.ret {| status := 500;
                 payload :=
                   ErrorBody (match error with
                              | JS.Error message => message
                              | JS.Thrown _ => "Internal server error"
                              end) |}
  end.

End Handler.

End Route.

Section DeployedRoute.
Context {W : Type}.
Variable JSON_stringify : option (list (option Entry.t)) -> Eff.res unit.
Variable process_env : W -> Env.t.
Variable generateText : Gen.request -> W -> Eff.res Gen.result * W.
Variable JSON_parse_product : string -> Eff.res ProductData.t.
Variable Buffer_from_base64 : string -> list N.
Variable fetch : Http.request -> W -> Eff.res Http.response * W.
Variable Date_now : W -> N.
Variable JSON_parse : string -> Eff.res (option (list (option Entry.t))).
Variable random_suffix : W -> string * W.

(** The route with the workflow as deployed behind it. *)
Definition deployed_POST (fuel : nat) (request : Route.request)
  : Eff.M (W := W) Route.response :=
  Route.POST JSON_parse Date_now random_suffix
    (pipeline JSON_stringify process_env generateText JSON_parse_product
       Buffer_from_base64 fetch Date_now fuel)
    request.

End DeployedRoute.

(** ** More notions the statements use *)

(** [kept l l']: [l] is [l'] with some elements left out, the others in
    their order. *)
Inductive kept {A : Type} : list A -> list A -> Prop :=
| kept_nil : kept [] []
| kept_skip x l l' : kept l l' -> kept l (x :: l')
| kept_take x l l' : kept l l' -> kept (x :: l) (x :: l').

(** The request that creates [product]. *)
Definition create_request (normalizedDomain accessToken : string)
           (product : GeneratedProduct.t) : Http.request :=
  {| Http.url := "https://" ++ normalizedDomain ++ "/admin/api/2025-07/products.json";
     Http.access_token := Str.trim accessToken;
     Http.body := Payload.Product (product_payload product) |}.

(** The records whose image gives something to upload. *)
Definition has_image_data (product : ShopifyProduct.t) : bool :=
  JS.truthy_string (ShopifyProduct.image product)
  && JS.truthy_string (image_data (ShopifyProduct.image product)).

(** The request that attaches the image of [product], made at clock
    reading [now]. *)
Definition upload_request (normalizedDomain accessToken : string) (now : N)
           (product : ShopifyProduct.t) : Http.request :=
  {| Http.url := "https://" ++ normalizedDomain ++ "/admin/api/2025-07/products/"
                 ++ ShopifyProduct.id product ++ "/images.json";
     Http.access_token := Str.trim accessToken;
     Http.body :=
       Payload.Image
         {| Payload.attachment := image_data (ShopifyProduct.image product);
            Payload.filename :=
              "product-" ++ ShopifyProduct.id product ++ "-" ++ JS.show_N now ++ "."
              ++ image_extension (ShopifyProduct.image product) |} |}.

(** The indices of the loop over [count] that start at [i] and fit in
    [fuel]. *)
Definition indices (count : JS.number) (i fuel : nat) : list nat :=
  filter (fun j => JS.ltb (JS.of_nat j) count) (seq i fuel).

(** No key for the generation service is configured. *)
Definition no_api_key (env : Env.t) : Prop :=
  unset (Env.AI_GATEWAY_API_KEY env) /\ unset (Env.VERCEL_AI_GATEWAY_KEY env).

(** What is known of a product an attempt pushes. *)
Definition well_formed (category : string) (product : GeneratedProduct.t) : Prop :=
  GeneratedProduct.category product = category
  /\ GeneratedProduct.image product <> "".

(** The products made up when nothing can be generated. *)
Definition fallback_products (categories : list CategoryInput.t)
  : list GeneratedProduct.t :=
  flat_map (fun c => map (fallback_product (CategoryInput.category c))
                       (seq 0 (whole (CategoryInput.count c))))
    categories.

(** Every count of the request that is a number is an integer. *)
Definition integer_counts (cats : list (option Entry.t)) : Prop :=
  forall c n, In (Some c) cats -> Entry.count c = JS.Number n ->
              JS.is_integer n = true.

(** The rows of a form hold integer counts. *)
Definition integer_rows (categories : list CategoryInput.t) : Prop :=
  Forall (fun cat => JS.is_integer (CategoryInput.count cat) = true) categories.

(** The requests the route answers with 400 once it has read them. *)
Definition refused_by_route (categories : option (list (option Entry.t))) : Prop :=
  match categories with
  | None => True
  | Some cats => cats = [] \/ (10 < List.length cats)%nat
  end.

(** ** More concrete inputs *)

(** A file the model returned for an image of subtype [sub], with its
    base64 text. *)
Definition image_file (sub base64 : string) : Gen.file :=
  {| Gen.mediaType := Some ("image/" ++ sub);
     Gen.base64 := Some base64;
     Gen.uint8Array := None |}.

(** A generated product whose description has two lines. *)
Definition two_line_chair : GeneratedProduct.t :=
  {| GeneratedProduct.title := "Oak Chair";
     GeneratedProduct.description :=
       "Solid oak." ++ String.String Str.nl "Seats one.";
     GeneratedProduct.price := "99.99";
     GeneratedProduct.variants := [];
     GeneratedProduct.features := default_features;
     GeneratedProduct.image := "";
     GeneratedProduct.category := "Chairs" |}.

(** An answer of the generation service whose one image file holds no
    byte. *)
Definition empty_image_answer : Gen.result :=
  {| Gen.text := "An oak chair.";
     Gen.files :=
       [ {| Gen.mediaType := Some "image/png";
            Gen.base64 := None;
            Gen.uint8Array := Some [] |} ] |}.

(** A scripted run of the create stage: the first and third products
    are created, the second is refused. *)
Definition three_products : list GeneratedProduct.t :=
  [ fallback_product "Chairs" 0; fallback_product "Sofas" 0;
    fallback_product "Lamps" 0 ].

Definition created_refused_created : Script.world :=
  Script.start Script.configured []
    [Script.created "1" "Oak Chair"; Script.refused 422; Script.created "3" "Oak Chair"].

(** Three records: a PNG, no image, and a data-URI prefix with nothing
    after it. *)
Definition mixed_records : list ShopifyProduct.t :=
  [ {| ShopifyProduct.id := "11"; ShopifyProduct.title := "a";
       ShopifyProduct.image := "data:image/png;base64,iVBORw0KGgo=" |};
    {| ShopifyProduct.id := "12"; ShopifyProduct.title := "b";
       ShopifyProduct.image := "" |};
    {| ShopifyProduct.id := "13"; ShopifyProduct.title := "c";
       ShopifyProduct.image := "data:image/png;base64," |} ].

(** A generate stage that hands back nothing. *)
Definition generate_nothing (_ : OrganizedInput.t) (_ : option string)
  : Eff.M (W := Stub.world) generated :=
  fun w => (Eff.Done Nullish, (w ++ ["generate"])%list).

(** An environment with the commerce credentials and no key for the
    generation service. *)
Definition keyless : Env.t :=
  {| Env.SHOPIFY_STORE_DOMAIN := Some "shop.example.com";
     Env.SHOPIFY_ACCESS_TOKEN := Some "token";
     Env.AI_GATEWAY_API_KEY := None;
     Env.VERCEL_AI_GATEWAY_KEY := Some "";
     Env.VERCEL_AI_GATEWAY_URL := None;
     Env.AI_GATEWAY_URL := None |}.

(** Rows as a user may leave them: a blank name, a count out of range,
    a name with spaces around it. *)
Definition some_rows : list CategoryInput.t :=
  [ {| CategoryInput.category := "   "; CategoryInput.count := JS.of_Z 3 |};
    {| CategoryInput.category := " Chairs "; CategoryInput.count := JS.of_Z 2 |};
    {| CategoryInput.category := "Sofas"; CategoryInput.count := JS.of_Z 0 |} ].

(** A JSON request with the given body. *)
Definition json_request (body : Route.json_body) : Route.request :=
  {| Route.content_type := Some "application/json";
     Route.formData := Eff.Throw (JS.Error "not a form");
     Route.json := Eff.Ok body |}.

(** The scripted world has no source of randomness: the suffix is
    fixed. *)
Definition fixed_suffix (w : Script.world) : string * Script.world :=
  ("k3x9a1b2c", w).

(** No form is read in the scripted runs. *)
Definition no_form_parse (_ : string) : Eff.res (option (list (option Entry.t))) :=
  Eff.Throw (JS.Error "Unexpected token").

(** A workflow that never returns. *)
Definition never_returns (_ : option (list (option Entry.t))) (_ : option string)
  : Eff.M (W := Script.world) WorkflowResult.t :=
  Eff.diverge.

(** * Properties *)

(** ** Strings *)

Lemma indexOf_none_tail (p : string) (c : ascii) (s : string) :
  Str.indexOf p (String.String c s) = None ->
  Str.startsWith p (String.String c s) = false /\ Str.indexOf p s = None.
Proof.
  intros H. cbn [Str.indexOf] in H.
  destruct (Str.startsWith p (String.String c s)); [discriminate H|].
  destruct (Str.indexOf p s); [discriminate H|]. auto.
Qed.

Lemma match_base64_none (s : string) :
  Str.indexOf "base64," s = None -> Str.match_base64 s = None.
Proof.
  induction s as [|c s IH]; intros H.
  - reflexivity.
  - apply indexOf_none_tail in H. destruct H as [Hp Ht].
    cbn [Str.match_base64]. rewrite Hp. auto.
Qed.

Lemma includes_false (p s : string) :
  Str.includes p s = false -> Str.indexOf p s = None.
Proof.
  unfold Str.includes. destruct (Str.indexOf p s); [discriminate|reflexivity].
Qed.

(** ** The placeholder detector *)

Lemma Qltb_true (x y : Q) : JS.Qltb x y = true <-> x < y.
Proof.
  unfold JS.Qltb. rewrite negb_true_iff.
  destruct (Qle_bool y x) eqn:E.
  - apply Qle_bool_iff in E. split; [discriminate|].
    intros H. exfalso. exact (Qlt_not_le _ _ H E).
  - split; [intros _|reflexivity].
    apply Qnot_le_lt. intros H. apply Qle_bool_iff in H. congruence.
Qed.

Lemma near_iff (avg : Q) (s : N) :
  near avg s = true <-> Qabs (byte_value s - avg) < 10.
Proof. apply Qltb_true. Qed.

(** More than four fifths of the samples are counted. *)
Lemma mostly_uniform_iff (samples : list N) :
  mostly_uniform samples = true <->
  (4 * List.length samples < 5 * uniformCount samples)%nat.
Proof.
  unfold mostly_uniform. rewrite Qltb_true.
  assert (uniformCount samples <= List.length samples)%nat as Hle
      by apply filter_length_le.
  revert Hle.
  generalize (uniformCount samples) as u. generalize (List.length samples) as l.
  intros l u Hle. destruct l as [|l].
  - unfold Qdiv, Qinv, Qmult, Qlt, inject_Z. cbn [Qnum Qden Z.of_nat]. lia.
  - unfold Qdiv, Qinv, Qmult, Qlt, inject_Z. cbn [Qnum Qden Z.of_nat].
    rewrite Pos2Z.inj_mul. cbn [Qnum Qden].
    pose proof (Zpos_P_of_succ_nat l) as Hl. lia.
Qed.

Lemma sum_repeat (b : N) (n : nat) (acc : Q) :
  fold_left (fun a x => a + byte_value x) (repeat b n) acc
  == acc + inject_Z (Z.of_nat n) * byte_value b.
Proof.
  revert acc. induction n as [|n IH]; intros acc.
  - cbn. ring.
  - cbn [repeat fold_left]. rewrite IH, Nat2Z.inj_succ.
    unfold Z.succ. rewrite inject_Z_plus. ring.
Qed.

Lemma average_repeat (b : N) (n : nat) :
  average (repeat b (S n)) == byte_value b.
Proof.
  unfold average. rewrite sum_repeat, repeat_length.
  assert (~ inject_Z (Z.of_nat (S n)) == 0) as Hn.
  { unfold Qeq, inject_Z. cbn [Qnum Qden]. lia. }
  field. exact Hn.
Qed.

Lemma near_self (avg : Q) (b : N) :
  avg == byte_value b -> near avg b = true.
Proof.
  intros H. apply near_iff.
  assert (byte_value b - avg == 0) as E by (rewrite H; ring).
  rewrite E. reflexivity.
Qed.

Lemma filter_repeat_true {A} (f : A -> bool) (x : A) (n : nat) :
  f x = true -> filter f (repeat x n) = repeat x n.
Proof.
  intros H. induction n as [|n IH]; cbn; [reflexivity|].
  rewrite H, IH. reflexivity.
Qed.

(** A run of one byte value is uniform. *)
Lemma solid_is_uniform (b : N) (n : nat) :
  mostly_uniform (repeat b (S n)) = true.
Proof.
  apply mostly_uniform_iff. unfold uniformCount.
  rewrite filter_repeat_true by (apply near_self, average_repeat).
  rewrite repeat_length. lia.
Qed.

Lemma take_samples_repeat (b : N) (n : nat) :
  (100 <= n)%nat -> take_samples (repeat b n) = repeat b 100.
Proof.
  intros H. unfold take_samples. rewrite repeat_length.
  rewrite Nat.min_l by exact H.
  replace n with (100 + (n - 100))%nat at 1 by lia.
  rewrite repeat_app, firstn_app, repeat_length.
  replace (100 - 100)%nat with O by reflexivity.
  rewrite firstn_O, app_nil_r.
  rewrite firstn_all2 by (rewrite repeat_length; lia). reflexivity.
Qed.

(** C4, amended.  An image is classified as a placeholder exactly when
    it mentions the SVG media type, or its base64 part decodes to fewer
    than 1024 bytes, or strictly more than 80% of the first hundred
    decoded bytes differ from their mean by strictly less than 10; a
    byte is counted when [near] holds, that is when the distance is
    below 10.  In particular an image that decodes to 2000 equal bytes
    is a placeholder. *)
Theorem placeholder_detector_spec (decode : string -> list N) (uri : string) :
  (isPlaceholderImage decode uri = true <->
   Str.includes "data:image/svg+xml" uri = true
   \/ exists data,
        Str.match_base64 uri = Some data
        /\ ((List.length (decode data) < 1024)%nat
            \/ (4 * List.length (take_samples (decode data))
                < 5 * uniformCount (take_samples (decode data)))%nat))
  /\ (forall avg s, near avg s = true <-> Qabs (byte_value s - avg) < 10)
  /\ (forall data b,
        Str.match_base64 uri = Some data ->
        decode data = repeat b 2000 ->
        isPlaceholderImage decode uri = true).
Proof.
  assert (isPlaceholderImage decode uri = true <->
   Str.includes "data:image/svg+xml" uri = true
   \/ exists data,
        Str.match_base64 uri = Some data
        /\ ((List.length (decode data) < 1024)%nat
            \/ (4 * List.length (take_samples (decode data))
                < 5 * uniformCount (take_samples (decode data)))%nat)) as Hiff.
  { unfold isPlaceholderImage.
    destruct (Str.includes "data:image/svg+xml" uri); [tauto|].
    destruct (Str.match_base64 uri) as [data|].
    - destruct (Nat.ltb (List.length (decode data)) 1024) eqn:Hlen.
      + apply Nat.ltb_lt in Hlen. split; [|reflexivity].
        intros _. right. exists data. auto.
      + apply Nat.ltb_ge in Hlen.
        destruct (mostly_uniform (take_samples (decode data))) eqn:Hu.
        * apply mostly_uniform_iff in Hu. split; [|reflexivity].
          intros _. right. exists data. auto.
        * split; [discriminate|].
          intros [H|[d [Hd [H|H]]]]; try discriminate;
            injection Hd as <-; [lia|].
          apply mostly_uniform_iff in H. congruence.
    - split; [discriminate|].
      intros [H|[d [Hd _]]]; discriminate. }
  split; [exact Hiff|]. split; [exact near_iff|].
  intros data b Hm Hd. apply Hiff. right. exists data. split; [exact Hm|].
  right. rewrite Hd. rewrite take_samples_repeat by lia.
  apply mostly_uniform_iff. apply (solid_is_uniform b 99).
Qed.

(** C4, as stated, fails on an image whose first hundred bytes have
    exactly eighty within 10 of their mean: it is not classified as a
    placeholder. *)
Lemma eighty_percent_is_not_placeholder :
  Str.includes "data:image/svg+xml" eighty_percent_image = false
  /\ List.length (decoded Base64.decode eighty_percent_image) = 2000%nat
  /\ List.length (take_samples (decoded Base64.decode eighty_percent_image)) = 100%nat
  /\ uniformCount (take_samples (decoded Base64.decode eighty_percent_image)) = 80%nat
  /\ isPlaceholderImage Base64.decode eighty_percent_image = false.
Proof. repeat split; vm_compute; reflexivity. Qed.

(** One more uniform byte tips the classification. *)
Example eighty_one_percent_is_placeholder :
  uniformCount (take_samples (decoded Base64.decode eighty_one_percent_image)) = 81%nat
  /\ isPlaceholderImage Base64.decode eighty_one_percent_image = true.
Proof. split; vm_compute; reflexivity. Qed.

Example solid_grey_is_placeholder :
  isPlaceholderImage Base64.decode (solid_image 128) = true.
Proof. vm_compute. reflexivity. Qed.

(** ** Step 3: the variant records *)

Lemma variant_record_option1 (variant : Variant.t) (index : nat) :
  Payload.option1 (variant_record variant index)
  = JS.or_string (Variant.title variant) ("Option " ++ JS.show_nat (index + 1)).
Proof. reflexivity. Qed.

Lemma mapi_from_prices (variants : list Variant.t) (index : nat) :
  map Payload.price (mapi_from variant_record index variants)
  = map Variant.price variants.
Proof.
  revert index. induction variants as [|v rest IH]; intros index; cbn.
  - reflexivity.
  - rewrite IH. reflexivity.
Qed.

(** Every generated variant gives one record, with its price
    unchanged. *)
Lemma build_variants_prices (product : GeneratedProduct.t) :
  GeneratedProduct.variants product <> [] ->
  map Payload.price (build_variants product)
  = map Variant.price (GeneratedProduct.variants product).
Proof.
  intros H. unfold build_variants.
  destruct (GeneratedProduct.variants product) as [|v rest]; [congruence|].
  apply mapi_from_prices.
Qed.

(** C1.  On a product whose two variants share the title "Standard",
    both records get the option value "Standard": the set of seen
    values is empty at every variant, so no suffix is ever appended.
    The prices are carried through. *)
Theorem twin_variants_are_not_deduplicated :
  map Payload.option1 (build_variants twin_variants) = ["Standard"; "Standard"]
  /\ ~ NoDup (map Payload.option1 (build_variants twin_variants))
  /\ map Payload.price (build_variants twin_variants) = ["99.99"; "149.99"].
Proof.
  split; [reflexivity|]. split; [|reflexivity].
  cbn. intros H. inversion H as [|x l Hin _]. apply Hin. left. reflexivity.
Qed.

(** ** Step 1: the normalizer *)

Lemma Qltb_false (x y : Q) : JS.Qltb x y = false <-> y <= x.
Proof.
  unfold JS.Qltb. rewrite negb_false_iff. apply Qle_bool_iff.
Qed.

Lemma accepted_count_iff (n : JS.number) :
  JS.ltb n (JS.of_Z 1) = false /\ JS.gtb n (JS.of_Z 100) = false
  <-> accepted_count n.
Proof.
  unfold accepted_count, JS.gtb, JS.of_Z. destruct n as [| | |q]; cbn.
  - split; auto.
  - split; [intros [_ H]; discriminate|].
    intros [H|[q [H _]]]; discriminate.
  - split; [intros [H _]; discriminate|].
    intros [H|[q [H _]]]; discriminate.
  - rewrite !Qltb_false. split.
    + intros [H1 H2]. right. exists q. auto.
    + intros [H|[q' [H [H1 H2]]]]; [discriminate|].
      injection H as ->. auto.
Qed.

Lemma string_eqb_empty (s : string) : (s =? "") = false <-> s <> "".
Proof.
  destruct (String.eqb_spec s ""); split; congruence.
Qed.

Lemma valid_unfold (c n : JS.value) :
  Organize.valid (Some {| Entry.category := c; Entry.count := n |})
  = match c, n with
    | JS.String s, JS.Number m =>
        negb (s =? "") && negb (JS.ltb m (JS.of_Z 1))
        && negb (JS.gtb m (JS.of_Z 100))
    | _, _ => false
    end.
Proof.
  unfold Organize.valid. cbn [Entry.category Entry.count].
  destruct c, n; cbn [JS.truthy Organize.is_string Organize.is_number Organize.as_number negb];
    rewrite ?orb_true_r, ?orb_false_r; try reflexivity;
    try (destruct (negb (negb _)); reflexivity).
  all: try (destruct (JS.truthy_number _); reflexivity).
  unfold JS.gtb.
  destruct (s =? ""), (JS.ltb n (JS.of_Z 1)), (JS.ltb (JS.of_Z 100) n);
    reflexivity.
Qed.

Lemma valid_iff (cat : option Entry.t) :
  Organize.valid cat = true <-> acceptable cat.
Proof.
  unfold acceptable. destruct cat as [[c n]|].
  - rewrite valid_unfold. split.
    + destruct c as [| | | |s|]; try discriminate.
      destruct n as [| | |m| |]; try discriminate.
      rewrite !andb_true_iff, !negb_true_iff, string_eqb_empty.
      intros [[Hs H1] H2]. exists s, m. split; [reflexivity|].
      split; [exact Hs|]. apply accepted_count_iff. auto.
    + intros (s & m & H & Hs & Hacc). injection H as -> ->.
      apply accepted_count_iff in Hacc. destruct Hacc as [H1 H2].
      apply string_eqb_empty in Hs. rewrite Hs, H1, H2. reflexivity.
  - split; [discriminate|]. intros (s & n & H & _). discriminate.
Qed.

Lemma acceptable_well_formed (cat : option Entry.t) :
  ~ count_is_NaN cat -> (acceptable cat <-> well_formed_entry cat).
Proof.
  intros Hnan. unfold acceptable, well_formed_entry, accepted_count, in_range.
  split.
  - intros (s & n & -> & Hs & [->|Hq]).
    + exfalso. apply Hnan. eexists. split; reflexivity.
    + exists s, n. auto.
  - intros (s & n & -> & Hs & Hq). exists s, n. auto.
Qed.

(** C2, amended.  For a request of 1 to 10 entries, and leaving aside
    the entries whose count is NaN, the normalizer keeps exactly the
    entries whose name is a non-empty string and whose count is a
    number from 1 to 100, whether an integer or not.  The kept entries
    stay in their order and their names are trimmed; when no entry is
    kept the normalizer throws. *)
Theorem organizeInput_keeps_acceptable (cats : list (option Entry.t)) :
  (1 <= List.length cats <= 10)%nat ->
  (forall cat, In cat cats -> ~ count_is_NaN cat ->
     (In cat (filter Organize.valid cats) <-> well_formed_entry cat))
  /\ (filter Organize.valid cats = [] ->
      Organize.organizeInput (Some cats)
      = Eff.Throw (JS.Error Organize.msg_none_valid))
  /\ (filter Organize.valid cats <> [] ->
      exists org,
        Organize.organizeInput (Some cats) = Eff.Ok org
        /\ OrganizedInput.categories org
           = map organized (filter Organize.valid cats)).
Proof.
  intros [Hlo Hhi]. split.
  { intros cat Hin Hnan.
    rewrite filter_In, valid_iff, (acceptable_well_formed cat Hnan). tauto. }
  unfold Organize.organizeInput.
  destruct (Nat.eqb_spec (List.length cats) 0) as [E|_]; [lia|].
  destruct (Nat.ltb_spec 10 (List.length cats)) as [E|_]; [lia|].
  split.
  - intros ->. reflexivity.
  - intros Hne.
    destruct (filter Organize.valid cats) as [|c kept] eqn:Hk; [congruence|].
    cbn [List.length Nat.eqb]. eexists. split; reflexivity.
Qed.

Lemma organizeInput_keeps_acceptable_witness :
  exists org,
    Organize.organizeInput (Some [entry "Chairs" (JS.of_Z 2); entry "" (JS.of_Z 5)])
    = Eff.Ok org
    /\ OrganizedInput.categories org
       = [ {| CategoryInput.category := "Chairs"; CategoryInput.count := JS.of_Z 2 |} ].
Proof.
  destruct (organizeInput_keeps_acceptable
              [entry "Chairs" (JS.of_Z 2); entry "" (JS.of_Z 5)])
    as (_ & _ & H).
  - cbn. lia.
  - apply H. cbn. discriminate.
Defined.

(** C2, as stated, fails: a count of 2.5 is kept, and a name made of
    spaces is kept and becomes empty when trimmed. *)
Lemma fractional_count_is_kept :
  Organize.organizeInput fractional_request
  = Eff.Ok
      {| OrganizedInput.categories :=
           [ {| CategoryInput.category := "Chairs";
                CategoryInput.count := JS.Fin (5 # 2) |};
             {| CategoryInput.category := "";
                CategoryInput.count := JS.Fin 3 |} ];
         OrganizedInput.totalProducts := JS.Fin (11 # 2) |}.
Proof. vm_compute. reflexivity. Qed.

(** ** Step 2: the generator *)

Lemma list_sum_cons (a : nat) (l : list nat) :
  list_sum (a :: l) = (a + list_sum l)%nat.
Proof. reflexivity. Qed.

Lemma ltb_of_nat_mono (count : JS.number) (i j : nat) :
  JS.ltb (JS.of_nat i) count = false -> (i <= j)%nat ->
  JS.ltb (JS.of_nat j) count = false.
Proof.
  destruct count as [| | |q]; cbn; try congruence.
  rewrite !Qltb_false. intros H Hij.
  apply Qle_trans with (1 := H).
  rewrite <- Zle_Qle. lia.
Qed.

Lemma trips_none (count : JS.number) (fuel i : nat) :
  JS.ltb (JS.of_nat i) count = false -> trips count i fuel = O.
Proof.
  unfold trips. revert i.
  induction fuel as [|fuel IH]; intros i H; cbn [seq filter].
  - reflexivity.
  - rewrite H. apply IH. apply (ltb_of_nat_mono count i); [exact H|lia].
Qed.

Lemma valid_count_whole (n : JS.number) :
  valid_count n = true ->
  exists q, n = JS.Fin q /\ q == inject_Z (Z.of_nat (whole n))
            /\ (1 <= whole n <= 100)%nat.
Proof.
  unfold valid_count, JS.gtb. rewrite !andb_true_iff, !negb_true_iff.
  intros [[Hint Hlo] Hhi]. destruct n as [| | |q]; try discriminate.
  cbn in Hint, Hlo, Hhi. apply Qeq_bool_iff in Hint.
  apply Qltb_false in Hlo, Hhi.
  rewrite Hint in Hlo, Hhi. rewrite <- Zle_Qle in Hlo, Hhi.
  exists q. split; [reflexivity|]. cbn [whole].
  rewrite Z2Nat.id by lia. split; [exact Hint|lia].
Qed.

Lemma trips_whole (q : Q) (k fuel : nat) :
  q == inject_Z (Z.of_nat k) ->
  forall i, (i <= k)%nat -> (k <= i + fuel)%nat ->
  trips (JS.Fin q) i fuel = (k - i)%nat.
Proof.
  intros Hq. unfold trips.
  induction fuel as [|fuel IH]; intros i Hik Hk; cbn [seq filter].
  - cbn. lia.
  - destruct (JS.ltb (JS.of_nat i) (JS.Fin q)) eqn:Hi.
    + cbn in Hi. apply Qltb_true in Hi. rewrite Hq, <- Zlt_Qlt in Hi.
      cbn [List.length]. rewrite IH by lia. lia.
    + cbn in Hi. apply Qltb_false in Hi. rewrite Hq, <- Zle_Qle in Hi.
      fold (trips (JS.Fin q) (S i) fuel).
      rewrite trips_none.
      * lia.
      * cbn. apply Qltb_false. rewrite Hq, <- Zle_Qle. lia.
Qed.

Lemma Qred_inject_Z (z : Z) : Qred (inject_Z z) = inject_Z z.
Proof.
  unfold Qred, inject_Z.
  generalize (Z.ggcd_gcd z 1), (Z.ggcd_correct_divisors z 1).
  destruct (Z.ggcd z 1) as [g [a b]]. cbn [fst snd].
  rewrite Z.gcd_1_r. intros -> [Ha Hb].
  rewrite Z.mul_1_l in Ha, Hb. subst a b. reflexivity.
Qed.

Lemma Qred_integer (x : Q) (z : Z) : x == inject_Z z -> Qred x = inject_Z z.
Proof.
  intros H. rewrite <- (Qred_inject_Z z). apply Qred_complete. exact H.
Qed.

Lemma round_half_even_integer (x : Q) (z : Z) :
  x == inject_Z z -> JS.round_half_even x = z.
Proof.
  intros H. unfold JS.round_half_even.
  assert (Qfloor x = z) as ->.
  { rewrite H. apply Qfloor_Z. }
  assert (x - inject_Z z == 0) as E by (rewrite H; ring).
  rewrite E. reflexivity.
Qed.

Lemma scale_down_up (z : Z) (k : Z) :
  (k <= 0)%Z ->
  JS.scale (inject_Z (JS.round_half_even (JS.scale (inject_Z z) (- k)))) k
  == inject_Z z.
Proof.
  intros Hk.
  assert (0 < 2 ^ (- k))%Z as Hpos by (apply Z.pow_pos_nonneg; lia).
  assert (JS.scale (inject_Z z) (- k) == inject_Z (z * 2 ^ (- k))) as E.
  { unfold JS.scale. destruct (Z.leb_spec 0 (- k)); [|lia].
    rewrite inject_Z_mult. reflexivity. }
  rewrite (round_half_even_integer _ _ E).
  unfold JS.scale. destruct (Z.leb_spec 0 k).
  - assert (k = 0)%Z as -> by lia. cbn. rewrite Z.mul_1_r. ring.
  - rewrite inject_Z_mult. field.
    intros H0. unfold Qeq in H0. cbn in H0. lia.
Qed.

(** Rounding leaves a positive integer below 2^53 as it is. *)
Lemma binary64_integer (x : Q) (z : Z) :
  (0 < z < 2 ^ 53)%Z -> x == inject_Z z -> JS.binary64 x = JS.Fin (inject_Z z).
Proof.
  intros [Hlo Hhi] H. unfold JS.binary64. rewrite (Qred_integer x z H).
  assert (Qeq_bool (inject_Z z) 0 = false) as ->.
  { apply not_true_is_false. intros E. apply Qeq_bool_iff in E.
    unfold Qeq in E. cbn in E. lia. }
  assert (Qabs (inject_Z z) = inject_Z z) as ->.
  { unfold inject_Z, Qabs. rewrite Z.abs_eq by lia. reflexivity. }
  assert (0 <= Z.log2 z < 53)%Z as Hlog.
  { split; [apply Z.log2_nonneg|]. apply Z.log2_lt_pow2; lia. }
  assert (JS.ilog2 (inject_Z z) = Z.log2 z) as ->.
  { unfold JS.ilog2. change (Qnum (inject_Z z)) with z.
    change (Z.pos (Qden (inject_Z z))) with 1%Z. change (Z.log2 1) with 0%Z.
    rewrite Z.sub_0_r.
    assert (Qle_bool (JS.scale 1 (Z.log2 z)) (inject_Z z) = true) as ->;
      [|reflexivity].
    apply Qle_bool_iff. unfold JS.scale.
    destruct (Z.leb_spec 0 (Z.log2 z)); [|lia].
    rewrite Qmult_1_l, <- Zle_Qle.
    apply Z.log2_spec. lia. }
  rewrite Z.max_l by lia.
  assert (Qred (JS.scale
                  (inject_Z (JS.round_half_even
                               (JS.scale (inject_Z z) (- (Z.log2 z - 52)))))
                  (Z.log2 z - 52))
          = inject_Z z) as ->.
  { apply Qred_integer. apply scale_down_up. lia. }
  assert ((0 <? Qnum (inject_Z z))%Z = true) as ->.
  { apply Z.ltb_lt. cbn. lia. }
  assert (Qle_bool (JS.scale 1 1024) (inject_Z z) = false) as ->; [|reflexivity].
  apply not_true_is_false. intros E. apply Qle_bool_iff in E.
  unfold JS.scale in E. change (0 <=? 1024)%Z with true in E. cbv iota in E.
  rewrite Qmult_1_l, <- Zle_Qle in E.
  assert (2 ^ 53 < 2 ^ 1024)%Z by (apply Z.pow_lt_mono_r; lia).
  lia.
Qed.

(** Sums that are not exact: 1.1 + 64.1 is 65.19999999999999 and
    0.1 + 0.2 is 0.30000000000000004, the operands and the results
    being the doubles these decimals denote. *)
Example add_rounds :
  JS.add (JS.Fin (2476979795053773 # 2251799813685248))
    (JS.Fin (2255318250894131 # 35184372088832))
  = JS.Fin (1147010530095923 # 17592186044416)
  /\ JS.add (JS.Fin (3602879701896397 # 36028797018963968))
       (JS.Fin (3602879701896397 # 18014398509481984))
     = JS.Fin (1351079888211149 # 4503599627370496).
Proof. split; vm_compute; reflexivity. Qed.

(** The sum of counts that are integers from 1 to 100 is exact as long
    as it stays below 2^53. *)
Lemma sum_of_counts (counts : list JS.number) :
  forallb valid_count counts = true ->
  forall (a : Q) (n : nat),
    a == inject_Z (Z.of_nat n) ->
    (Z.of_nat n + 100 * Z.of_nat (List.length counts) < 2 ^ 53)%Z ->
    exists r, fold_left JS.add counts (JS.Fin a) = JS.Fin r
              /\ r == inject_Z (Z.of_nat (n + list_sum (map whole counts))).
Proof.
  induction counts as [|c rest IH]; intros Hv a n Ha Hbound.
  - exists a. split; [reflexivity|]. cbn. rewrite Nat.add_0_r. exact Ha.
  - cbn [forallb] in Hv. apply andb_true_iff in Hv. destruct Hv as [Hc Hrest].
    destruct (valid_count_whole _ Hc) as (q & Hq & Hwhole & Hrange).
    subst c. cbn [fold_left map]. rewrite list_sum_cons. cbn [JS.add].
    set (k := whole (JS.Fin q)) in *. clearbody k.
    cbn [List.length] in Hbound.
    rewrite (binary64_integer (a + q) (Z.of_nat (n + k))).
    + destruct (IH Hrest (inject_Z (Z.of_nat (n + k))) (n + k)%nat)
        as (r & Hr & Hsum); [reflexivity|lia|].
      exists r. split; [exact Hr|]. rewrite Hsum, Nat.add_assoc. reflexivity.
    + lia.
    + rewrite Ha, Hwhole, <- inject_Z_plus, Nat2Z.inj_add. reflexivity.
Qed.

Lemma few_counts_bound (counts : list JS.number) :
  Nat.leb (List.length counts) 10 = true ->
  (Z.of_nat 0 + 100 * Z.of_nat (List.length counts) < 2 ^ 53)%Z.
Proof.
  intros H. apply Nat.leb_le in H.
  change (2 ^ 53)%Z with 9007199254740992%Z. lia.
Qed.

Section GenerateFacts.
Context {W : Type}.
Variable process_env : W -> Env.t.
Variable generateText : Gen.request -> W -> Eff.res Gen.result * W.
Variable JSON_parse : string -> Eff.res ProductData.t.
Variable Buffer_from_base64 : string -> list N.

Local Abbreviation try_once :=
  (try_generate process_env generateText JSON_parse Buffer_from_base64).
Local Abbreviation retrying :=
  (retry_loop process_env generateText JSON_parse Buffer_from_base64).
Local Abbreviation counting :=
  (count_loop process_env generateText JSON_parse Buffer_from_base64).
Local Abbreviation over_categories :=
  (category_loop process_env generateText JSON_parse Buffer_from_base64).

(** One attempt ends, and the last one does not ask for a retry. *)
Lemma try_generate_ends category i sampleImage attempts w :
  exists r w',
    Eff.attempt (try_once category i sampleImage attempts) w = (Eff.Done r, w')
    /\ (attempts = maxRetries -> r <> Eff.Ok None).
Proof.
  unfold try_generate, Eff.attempt, Eff.bind, Eff.read,
    Eff.call, Eff.throw, Eff.ret.
  destruct (negb (JS.truthy_opt _)).
  - eexists _, _. split; [reflexivity|]. discriminate.
  - destruct (generateText _ w) as [[e|result] w'].
    + eexists _, _. split; [reflexivity|]. discriminate.
    + destruct (isPlaceholderImage _ _ && Nat.ltb attempts maxRetries) eqn:E.
      * eexists _, _. split; [reflexivity|]. intros ->.
        rewrite andb_true_iff in E. destruct E as [_ E]. discriminate.
      * eexists _, _. split; [reflexivity|]. discriminate.
Qed.

Lemma retry_loop_generated fuel category i sampleImage attempts acc w :
  retrying fuel category i sampleImage attempts true acc w = (Eff.Done acc, w).
Proof. destruct fuel; reflexivity. Qed.

(** The retry loop pushes exactly one product and ends. *)
Lemma retry_loop_pushes fuel category i sampleImage :
  forall attempts acc w,
    (attempts + fuel = maxRetries)%nat -> (0 < fuel)%nat ->
    exists product w',
      retrying fuel category i sampleImage attempts false acc w
      = (Eff.Done (acc ++ [product])%list, w').
Proof.
  induction fuel as [|fuel IH]; intros attempts acc w Hsum Hpos; [lia|].
  assert (Nat.ltb attempts maxRetries = true) as Hlt by (apply Nat.ltb_lt; lia).
  cbn [retry_loop negb andb]. rewrite Hlt.
  unfold Eff.bind at 1.
  destruct (try_generate_ends category i sampleImage (S attempts) w)
    as (r & w' & Hr & Hlast).
  rewrite Hr.
  destruct r as [e|[product|]].
  - destruct (Nat.ltb_spec (S attempts) maxRetries) as [Hn|Hn].
    + apply IH; lia.
    + eexists _, _. apply retry_loop_generated.
  - eexists _, _. apply retry_loop_generated.
  - destruct fuel as [|fuel'].
    + exfalso. apply Hlast; [lia|reflexivity].
    + apply IH; lia.
Qed.

Lemma retry_loop_pushes_one category i sampleImage acc w :
  exists product w',
    retrying maxRetries category i sampleImage 0 false acc w
    = (Eff.Done (acc ++ [product])%list, w').
Proof. apply retry_loop_pushes; unfold maxRetries; lia. Qed.

(** With enough fuel the loop over [count] ends, having pushed one
    product per iteration. *)
Lemma count_loop_done category count sampleImage fuel :
  forall i acc w,
    JS.ltb (JS.of_nat (i + fuel)) count = false ->
    exists products w',
      counting fuel category count sampleImage i acc w = (Eff.Done products, w')
      /\ List.length products = (List.length acc + trips count i fuel)%nat.
Proof.
  induction fuel as [|fuel IH]; intros i acc w Hend.
  - rewrite Nat.add_0_r in Hend. cbn [count_loop]. rewrite Hend.
    exists acc, w. split; [reflexivity|]. cbn. lia.
  - cbn [count_loop].
    destruct (JS.ltb (JS.of_nat i) count) eqn:Hi.
    + unfold Eff.bind at 1.
      destruct (retry_loop_pushes_one category i sampleImage acc w)
        as (product & w1 & Hp).
      rewrite Hp.
      destruct (IH (S i) (acc ++ [product])%list w1) as (products & w' & Hc & Hlen).
      { rewrite <- Hend. f_equal. f_equal. lia. }
      exists products, w'. split; [exact Hc|].
      rewrite Hlen, length_app. unfold trips. cbn [seq filter].
      rewrite Hi. cbn. lia.
    + exists acc, w. split; [reflexivity|].
      rewrite trips_none by exact Hi. lia.
Qed.

(** The loop over the categories of a valid batch ends with one
    product per requested unit. *)
Lemma category_loop_done sampleImage fuel :
  (100 <= fuel)%nat ->
  forall categories acc w,
    forallb valid_count (map CategoryInput.count categories) = true ->
    exists products w',
      over_categories fuel categories sampleImage acc w = (Eff.Done products, w')
      /\ List.length products = (List.length acc + requested categories)%nat.
Proof.
  intros Hfuel. induction categories as [|c rest IH]; intros acc w Hv.
  - exists acc, w. split; [reflexivity|]. cbn. lia.
  - cbn [map forallb] in Hv. apply andb_true_iff in Hv. destruct Hv as [Hc Hrest].
    destruct (valid_count_whole _ Hc) as (q & Hq & Hwhole & Hrange).
    cbn [category_loop]. unfold Eff.bind at 1.
    destruct (count_loop_done (CategoryInput.category c) (CategoryInput.count c)
                sampleImage fuel 0 acc w) as (mid & w1 & Hmid & Hlen).
    { rewrite Hq. cbn. apply Qltb_false. rewrite Hwhole, <- Zle_Qle. lia. }
    rewrite Hmid.
    destruct (IH mid w1 Hrest) as (products & w' & Hp & Hlen').
    exists products, w'. split; [exact Hp|].
    rewrite Hlen', Hlen. unfold requested. cbn [map]. rewrite list_sum_cons.
    rewrite Hq at 1. rewrite (trips_whole q (whole (CategoryInput.count c))) by
      (try exact Hwhole; lia).
    lia.
Qed.

(** C5.  On a valid batch, and whatever the generation service does,
    [generateProducts] ends without throwing and returns as many
    products as the batch asks for. *)
Theorem generateProducts_length fuel organizedInput sampleImage w :
  valid_batch organizedInput = true ->
  (100 <= fuel)%nat ->
  exists products w',
    generateProducts process_env generateText JSON_parse Buffer_from_base64
      fuel organizedInput sampleImage w = (Eff.Done products, w')
    /\ JS.eqb (JS.of_nat (List.length products))
         (OrganizedInput.totalProducts organizedInput) = true.
Proof.
  unfold valid_batch. rewrite !andb_true_iff.
  intros [[[_ Hfew] Hv] Htotal] Hfuel.
  destruct (category_loop_done sampleImage fuel Hfuel
              (OrganizedInput.categories organizedInput) [] w Hv)
    as (products & w' & Hp & Hlen).
  exists products, w'. split; [exact Hp|].
  destruct (sum_of_counts _ Hv 0 0) as (r & Hr & Hsum);
    [reflexivity|apply few_counts_bound; exact Hfew|].
  unfold JS.of_Z in Htotal. cbn [inject_Z] in Hr. 
  change (JS.Fin (inject_Z 0)) with (JS.Fin 0) in Htotal.
  rewrite Hr in Htotal.
  destruct (OrganizedInput.totalProducts organizedInput) as [| | |t];
    try discriminate.
  cbn in Htotal |- *. apply Qeq_bool_iff in Htotal. apply Qeq_bool_iff.
  rewrite Htotal, Hsum, Hlen. cbn [List.length Nat.add].
  unfold requested. rewrite map_map. reflexivity.
Qed.

End GenerateFacts.

(** ** The placeholder check within an attempt *)

Lemma api_key_check (env : Env.t) :
  ~ no_api_key env ->
  negb (JS.truthy_opt
          (JS.or_opt (Env.AI_GATEWAY_API_KEY env) (Env.VERCEL_AI_GATEWAY_KEY env)))
  = false.
Proof.
  intros H. apply negb_false_iff. unfold JS.or_opt.
  destruct (JS.truthy_opt (Env.AI_GATEWAY_API_KEY env)) eqn:E1; [exact E1|].
  destruct (JS.truthy_opt (Env.VERCEL_AI_GATEWAY_KEY env)) eqn:E2; [reflexivity|].
  exfalso. apply H. unfold no_api_key, unset, JS.truthy_opt, JS.truthy_string in *.
  split.
  - destruct (Env.AI_GATEWAY_API_KEY env) as [s|]; [|auto].
    right. destruct (String.eqb_spec s ""); [congruence|discriminate].
  - destruct (Env.VERCEL_AI_GATEWAY_KEY env) as [s|]; [|auto].
    right. destruct (String.eqb_spec s ""); [congruence|discriminate].
Qed.

Section RetryFacts.
Context {W : Type}.
Variable process_env : W -> Env.t.
Variable generateText : Gen.request -> W -> Eff.res Gen.result * W.
Variable JSON_parse : string -> Eff.res ProductData.t.
Variable Buffer_from_base64 : string -> list N.

(** C10.  A data URI that does not mention the SVG media type and in
    which the pattern [/base64,(.+)/] finds nothing to decode is not
    classified as a placeholder, whatever the decoder does.  So an
    answer of the generation service that carries such an image is
    accepted on the attempt that receives it: the product is pushed
    with that image and the retry loop ends in the world that one call
    left, without another attempt. *)
Theorem undecodable_is_not_placeholder (uri : string) :
  Str.includes "data:image/svg+xml" uri = false ->
  Str.match_base64 uri = None ->
  isPlaceholderImage Buffer_from_base64 uri = false
  /\ forall fuel category i sampleImage attempts acc w result w',
      ~ no_api_key (process_env w) ->
      (attempts < maxRetries)%nat ->
      generateText (request_sent (process_env w) category sampleImage (S attempts)) w
      = (Eff.Ok result, w') ->
      extract_image (Gen.files result) = uri -> uri <> "" ->
      exists product,
        retry_loop process_env generateText JSON_parse Buffer_from_base64
          (S fuel) category i sampleImage attempts false acc w
        = (Eff.Done (acc ++ [product])%list, w')
        /\ GeneratedProduct.image product = uri.
Proof.
  intros Hsvg Hmatch.
  assert (isPlaceholderImage Buffer_from_base64 uri = false) as Hno.
  { unfold isPlaceholderImage. rewrite Hsvg, Hmatch. reflexivity. }
  split; [exact Hno|].
  intros fuel category i sampleImage attempts acc w result w'
         Hkey Hlt Hgen Himage Hne.
  apply Nat.ltb_lt in Hlt. cbn [retry_loop negb andb]. rewrite Hlt.
  unfold Eff.bind at 1.
  unfold try_generate, Eff.attempt, Eff.bind, Eff.read, Eff.call, Eff.throw, Eff.ret.
  unfold request_sent in Hgen.
  rewrite (api_key_check _ Hkey), Hgen, Himage.
  assert (JS.truthy_string uri = true) as ->.
  { unfold JS.truthy_string. apply negb_true_iff.
    destruct (String.eqb_spec uri ""); [congruence|reflexivity]. }
  rewrite Hno. cbn [andb].
  eexists. split; [destruct fuel; reflexivity|]. reflexivity.
Qed.

End RetryFacts.

(** ** Steps 3 and 4: the commerce stages *)

Lemma truthy_opt_false (v : option string) :
  JS.truthy_opt v = false <-> unset v.
Proof.
  unfold unset, JS.truthy_opt, JS.truthy_string. destruct v as [s|].
  - rewrite negb_false_iff. destruct (String.eqb_spec s "") as [->|Hne].
    + split; auto.
    + split; [discriminate|]. intros [H|H]; congruence.
  - split; auto.
Qed.

Lemma credentials_check (env : Env.t) :
  negb (JS.truthy_opt (Env.SHOPIFY_STORE_DOMAIN env))
  || negb (JS.truthy_opt (Env.SHOPIFY_ACCESS_TOKEN env)) = true
  <-> credentials_absent env.
Proof.
  unfold credentials_absent.
  rewrite orb_true_iff, !negb_true_iff, !truthy_opt_false. reflexivity.
Qed.

Lemma credentials_absent_dec (env : Env.t) :
  credentials_absent env \/ ~ credentials_absent env.
Proof.
  destruct (negb (JS.truthy_opt (Env.SHOPIFY_STORE_DOMAIN env))
            || negb (JS.truthy_opt (Env.SHOPIFY_ACCESS_TOKEN env))) eqn:E.
  - left. apply credentials_check. exact E.
  - right. intros H. apply credentials_check in H. congruence.
Qed.

Section CommerceFacts.
Context {W : Type}.
Variable process_env : W -> Env.t.
Variable fetch : Http.request -> W -> Eff.res Http.response * W.

Local Abbreviation create1 := (create_one fetch).
Local Abbreviation createL := (create_loop fetch).
Local Abbreviation createAll := (createShopifyProducts process_env fetch).

(** Creating one record ends, with the record or with an error. *)
Lemma create_one_ends domain token product w :
  exists r w', Eff.attempt (create1 domain token product) w = (Eff.Done r, w').
Proof.
  unfold create_one, Eff.attempt, Eff.bind, Eff.call, Eff.lift, Eff.throw, Eff.ret.
  destruct (fetch _ w) as [[e|response] w']; [eauto|].
  destruct (negb (Http.ok response)).
  - destruct (Http.text response); eauto.
  - destruct (Http.json response) as [e|[created|]]; [eauto| |eauto].
    destruct (Http.id created); eauto.
Qed.

(** The loop over the products never throws: a failed product is
    skipped. *)
Lemma create_loop_done domain token products :
  forall createdProducts w,
  exists created w',
    createL domain token products createdProducts w = (Eff.Done created, w').
Proof.
  induction products as [|product rest IH]; intros createdProducts w.
  - eexists _, _. reflexivity.
  - cbn [create_loop]. unfold Eff.bind at 1.
    destruct (create_one_ends domain token product w) as (r & w' & Hr).
    rewrite Hr. destruct r; apply IH.
Qed.

(** [createShopifyProducts] throws exactly when the credentials are
    absent, and then before any request is made. *)
Lemma createShopifyProducts_throws products w :
  (credentials_absent (process_env w) ->
   exists message,
     createAll products w = (Eff.Raised (JS.Error message), w))
  /\ (~ credentials_absent (process_env w) ->
      exists created w',
        createAll products w = (Eff.Done created, w')).
Proof.
  unfold createShopifyProducts, Eff.bind, Eff.read, Eff.throw.
  destruct (negb _ || negb _) eqn:E.
  - apply credentials_check in E. split; [eauto|tauto].
  - split.
    + intros H. apply credentials_check in H. congruence.
    + intros _. apply create_loop_done.
Qed.

Variable Date_now : W -> N.

Local Abbreviation upload1 := (upload_one fetch Date_now).
Local Abbreviation uploadL := (upload_loop fetch Date_now).
Local Abbreviation uploadAll := (uploadProductImages process_env fetch Date_now).

Lemma upload_one_ends domain token product w :
  exists r w', Eff.attempt (upload1 domain token product) w = (Eff.Done r, w').
Proof.
  unfold upload_one, Eff.attempt, Eff.bind, Eff.call, Eff.read, Eff.ret.
  destruct (negb (JS.truthy_string (ShopifyProduct.image product))); [eauto|].
  destruct (negb (JS.truthy_string _)); [eauto|].
  destruct (fetch _ w) as [[e|response] w']; [eauto|].
  destruct (negb (Http.ok response)); eauto.
Qed.

(** The loop over the records ends normally whatever happens to each
    upload. *)
Lemma upload_loop_done domain token products :
  forall w, exists w', uploadL domain token products w = (Eff.Done tt, w').
Proof.
  induction products as [|product rest IH]; intros w.
  - eexists. reflexivity.
  - cbn [upload_loop]. unfold Eff.bind at 1.
    destruct (upload_one_ends domain token product w) as (r & w' & Hr).
    rewrite Hr. apply IH.
Qed.

(** The two ways [uploadProductImages] ends. *)
Lemma uploadProductImages_cases products w :
  (credentials_absent (process_env w) ->
   uploadAll products w = (Eff.Raised (JS.Error msg_upload_credentials), w))
  /\ (~ credentials_absent (process_env w) ->
      exists w', uploadAll products w = (Eff.Done tt, w')).
Proof.
  unfold uploadProductImages, Eff.bind, Eff.read, Eff.throw.
  destruct (negb _ || negb _) eqn:E.
  - apply credentials_check in E. split; [auto|tauto].
  - split.
    + intros H. apply credentials_check in H. congruence.
    + intros _. apply upload_loop_done.
Qed.


End CommerceFacts.

(** ** The workflow *)

Lemma filter_valid_nil (cats : list (option Entry.t)) :
  (forall cat, In cat cats -> ~ acceptable cat) -> filter Organize.valid cats = [].
Proof.
  intros H. induction cats as [|c rest IH]; [reflexivity|].
  cbn [filter]. destruct (Organize.valid c) eqn:E.
  - apply valid_iff in E. exfalso. apply (H c); [left; reflexivity|exact E].
  - apply IH. intros cat Hin. apply H. right. exact Hin.
Qed.

(** A refused request makes the normalizer throw an [Error]. *)
Lemma organizeInput_rejects categories :
  rejected categories ->
  exists message,
    Organize.organizeInput categories = Eff.Throw (JS.Error message)
    /\ (categories = Some [] -> message = Organize.msg_empty).
Proof.
  unfold rejected, Organize.organizeInput. destruct categories as [cats|].
  - intros H.
    destruct (Nat.eqb_spec (List.length cats) 0) as [E|E]; [eauto|].
    assert (cats <> []) as Hne by (intros ->; apply E; reflexivity).
    destruct (Nat.ltb_spec 10 (List.length cats)) as [L|L].
    + eexists. split; [reflexivity|]. intros [= ->]. congruence.
    + destruct H as [H|[H|H]]; [congruence|lia|].
      rewrite (filter_valid_nil cats H). cbn.
      eexists. split; [reflexivity|]. intros [= ->]. congruence.
  - intros _. eexists. split; [reflexivity|]. discriminate.
Qed.

Section OrchestratorFacts.
Context {W : Type}.
Variable JSON_stringify : option (list (option Entry.t)) -> Eff.res unit.
Variable stage_generate : OrganizedInput.t -> option string -> Eff.M (W := W) generated.
Variable stage_create : list GeneratedProduct.t -> Eff.M (W := W) (list ShopifyProduct.t).
Variable stage_upload : list ShopifyProduct.t -> Eff.M (W := W) unit.

Local Abbreviation workflow :=
  (productGeneratorWorkflow JSON_stringify stage_generate stage_create stage_upload).

(** The workflow, read off stage by stage, for a request its first
    log line could serialise. *)
Lemma workflow_unfold categories sampleImage w text :
  JSON_stringify categories = Eff.Ok text ->
  workflow categories sampleImage w
  = match Organize.organizeInput categories with
    | Eff.Throw error =>
        (Eff.Done {| WorkflowResult.success := false;
                     WorkflowResult.totalProducts := JS.of_Z 0;
                     WorkflowResult.createdProducts := [];
                     WorkflowResult.errors :=
                       Some ["Step 1 failed: " ++ JS.message_of error] |}, w)
    | Eff.Ok organizedInput =>
        match step2 stage_generate organizedInput sampleImage w with
        | (Eff.Diverge, w1) => (Eff.Diverge, w1)
        | (Eff.Raised error, w1) =>
            (Eff.Done {| WorkflowResult.success := false;
                         WorkflowResult.totalProducts :=
                           JS.or_number (OrganizedInput.totalProducts organizedInput)
                             (JS.of_Z 0);
                         WorkflowResult.createdProducts := [];
                         WorkflowResult.errors :=
                           Some ["Step 2 failed: " ++ JS.message_of error] |}, w1)
        | (Eff.Done generatedProducts, w1) =>
            match stage_create generatedProducts w1 with
            | (Eff.Diverge, w2) => (Eff.Diverge, w2)
            | (Eff.Raised error, w2) =>
                (Eff.Done {| WorkflowResult.success := false;
                             WorkflowResult.totalProducts :=
                               OrganizedInput.totalProducts organizedInput;
                             WorkflowResult.createdProducts := [];
                             WorkflowResult.errors :=
                               Some ["Step 3 failed: " ++ JS.message_of error] |}, w2)
            | (Eff.Done createdProducts, w2) =>
                match stage_upload createdProducts w2 with
                | (Eff.Diverge, w3) => (Eff.Diverge, w3)
                | (Eff.Raised error, w3) =>
                    (Eff.Done {| WorkflowResult.success := true;
                                 WorkflowResult.totalProducts :=
                                   OrganizedInput.totalProducts organizedInput;
                                 WorkflowResult.createdProducts := createdProducts;
                                 WorkflowResult.errors :=
                                   Some ["Step 4 failed: " ++ JS.message_of error] |},
                     w3)
                | (Eff.Done _, w3) =>
                    (Eff.Done {| WorkflowResult.success := true;
                                 WorkflowResult.totalProducts :=
                                   OrganizedInput.totalProducts organizedInput;
                                 WorkflowResult.createdProducts := createdProducts;
                                 WorkflowResult.errors := None |}, w3)
                end
            end
        end
    end.
Proof.
  intros Hjson.
  unfold productGeneratorWorkflow, Eff.bind, Eff.attempt, Eff.lift, Eff.ret.
  rewrite Hjson.
  destruct (Organize.organizeInput categories) as [e|organizedInput];
    [reflexivity|].
  destruct (step2 stage_generate organizedInput sampleImage w)
    as [[e|generatedProducts|] w1]; try reflexivity.
  destruct (stage_create generatedProducts w1) as [[e|createdProducts|] w2];
    try reflexivity.
  destruct (stage_upload createdProducts w2) as [[e|u|] w3]; reflexivity.
Qed.

(** When the first log line cannot serialise the request, the error
    leaves the workflow: no [try] encloses that line. *)
Lemma workflow_throws categories sampleImage w error :
  JSON_stringify categories = Eff.Throw error ->
  workflow categories sampleImage w = (Eff.Raised error, w).
Proof.
  intros Hjson. unfold productGeneratorWorkflow, Eff.bind, Eff.lift.
  rewrite Hjson. reflexivity.
Qed.

(** C7, amended.  When the normalizer refuses a request that the
    first log line could serialise, the workflow returns
    [success: false], a total of 0, no record and one message: the
    normalizer's, behind the words "Step 1 failed: ".  The world is
    left as it was and the result does not depend on the later stages,
    which therefore did not run.  For the empty request the
    normalizer's error is the one about the empty array. *)
Theorem normalize_failure_is_terminal categories sampleImage w text :
  JSON_stringify categories = Eff.Ok text ->
  rejected categories ->
  exists message,
    Organize.organizeInput categories = Eff.Throw (JS.Error message)
    /\ workflow categories sampleImage w
       = (Eff.Done {| WorkflowResult.success := false;
                      WorkflowResult.totalProducts := JS.of_Z 0;
                      WorkflowResult.createdProducts := [];
                      WorkflowResult.errors :=
                        Some ["Step 1 failed: " ++ message] |}, w)
    /\ (categories = Some [] -> message = Organize.msg_empty).
Proof.
  intros Hjson H.
  destruct (organizeInput_rejects categories H) as (message & Hm & He).
  exists message. split; [exact Hm|]. split; [|exact He].
  rewrite (workflow_unfold _ _ _ text Hjson), Hm. reflexivity.
Qed.


(** C9.  When the create stage has returned its records, the workflow
    returns [success: true], the batch total and those records; the
    error list holds the message of step 4 when the publish stage
    threw and is absent when it did not.  The run is one that reached
    its stages: its first log line could serialise the request. *)
Theorem publish_failure_is_not_terminal categories sampleImage w text
        organizedInput generatedProducts w1 createdProducts w2 :
  JSON_stringify categories = Eff.Ok text ->
  Organize.organizeInput categories = Eff.Ok organizedInput ->
  step2 stage_generate organizedInput sampleImage w = (Eff.Done generatedProducts, w1) ->
  stage_create generatedProducts w1 = (Eff.Done createdProducts, w2) ->
  (forall error w3,
      stage_upload createdProducts w2 = (Eff.Raised error, w3) ->
      workflow categories sampleImage w
      = (Eff.Done {| WorkflowResult.success := true;
                     WorkflowResult.totalProducts :=
                       OrganizedInput.totalProducts organizedInput;
                     WorkflowResult.createdProducts := createdProducts;
                     WorkflowResult.errors :=
                       Some ["Step 4 failed: " ++ JS.message_of error] |}, w3))
  /\ (forall u w3,
      stage_upload createdProducts w2 = (Eff.Done u, w3) ->
      workflow categories sampleImage w
      = (Eff.Done {| WorkflowResult.success := true;
                     WorkflowResult.totalProducts :=
                       OrganizedInput.totalProducts organizedInput;
                     WorkflowResult.createdProducts := createdProducts;
                     WorkflowResult.errors := None |}, w3)).
Proof.
  intros Hjson H1 H2 H3.
  split; intros x w3 H4;
    rewrite (workflow_unfold _ _ _ text Hjson), H1, H2, H3, H4; reflexivity.
Qed.

(** Whatever the stages do, as long as each of them ends (by returning
    or by throwing), the workflow returns a result for a request its
    first log line could serialise. *)
Lemma workflow_returns categories sampleImage text :
  JSON_stringify categories = Eff.Ok text ->
  (forall organizedInput,
      Organize.organizeInput categories = Eff.Ok organizedInput ->
      Eff.terminates (stage_generate organizedInput sampleImage)) ->
  (forall generatedProducts, Eff.terminates (stage_create generatedProducts)) ->
  (forall createdProducts, Eff.terminates (stage_upload createdProducts)) ->
  forall w,
  exists result w',
    workflow categories sampleImage w = (Eff.Done result, w').
Proof.
  intros Hjson Hg Hc Hu w. rewrite (workflow_unfold _ _ _ text Hjson).
  destruct (Organize.organizeInput categories) as [e|organizedInput] eqn:H1;
    [eauto|].
  specialize (Hg organizedInput eq_refl w). unfold step2, Eff.bind in *.
  destruct (stage_generate organizedInput sampleImage w) as [[e|result|] w1];
    [eauto| |exfalso; apply Hg; reflexivity].
  destruct result as [|type_of|generatedProducts]; cbn; [eauto|eauto|].
  specialize (Hc generatedProducts w1).
  destruct (stage_create generatedProducts w1) as [[e|createdProducts|] w2];
    [eauto| |exfalso; apply Hc; reflexivity].
  specialize (Hu createdProducts w2).
  destruct (stage_upload createdProducts w2) as [[e|u|] w3];
    [eauto|eauto|exfalso; apply Hu; reflexivity].
Qed.

(** C6.  The claim fails on a request that the first log line cannot
    serialise: [JSON.stringify(categories)] is evaluated before the
    first [try], so its [TypeError] reaches the caller and no stage
    runs.  On every other request the workflow returns a result,
    whatever the stages do, as long as each of them ends. *)
Theorem workflow_returns_unless_log_throws categories sampleImage :
  (forall organizedInput,
      Organize.organizeInput categories = Eff.Ok organizedInput ->
      Eff.terminates (stage_generate organizedInput sampleImage)) ->
  (forall generatedProducts, Eff.terminates (stage_create generatedProducts)) ->
  (forall createdProducts, Eff.terminates (stage_upload createdProducts)) ->
  forall w,
    match JSON_stringify categories with
    | Eff.Throw error => workflow categories sampleImage w = (Eff.Raised error, w)
    | Eff.Ok _ =>
        exists result w', workflow categories sampleImage w = (Eff.Done result, w')
    end.
Proof.
  intros Hg Hc Hu w.
  destruct (JSON_stringify categories) as [error|text] eqn:Hjson.
  - apply workflow_throws. exact Hjson.
  - apply (workflow_returns categories sampleImage text Hjson Hg Hc Hu).
Qed.

End OrchestratorFacts.

(** The catch block of step 3 never reports a record or success,
    whatever the stages are: it reads the list of records before the
    create stage could assign it (the comment there intends "partial
    success if some products were created"). *)
Lemma create_failure_never_succeeds :
  ~ exists (W : Type)
      (JSON_stringify : option (list (option Entry.t)) -> Eff.res unit)
      (stage_generate : OrganizedInput.t -> option string -> Eff.M (W := W) generated)
      (stage_create : list GeneratedProduct.t -> Eff.M (W := W) (list ShopifyProduct.t))
      (stage_upload : list ShopifyProduct.t -> Eff.M (W := W) unit)
      categories sampleImage w organizedInput generatedProducts w1 error w2 result w',
      Organize.organizeInput categories = Eff.Ok organizedInput
      /\ step2 stage_generate organizedInput sampleImage w = (Eff.Done generatedProducts, w1)
      /\ stage_create generatedProducts w1 = (Eff.Raised error, w2)
      /\ productGeneratorWorkflow JSON_stringify stage_generate stage_create stage_upload
           categories sampleImage w = (Eff.Done result, w')
      /\ (WorkflowResult.success result = true
          \/ WorkflowResult.createdProducts result <> []).
Proof.
  intros (W & j & g & c & u & categories & sampleImage & w & organizedInput
          & generatedProducts & w1 & error & w2 & result & w'
          & H1 & H2 & H3 & H4 & H5).
  destruct (j categories) as [e|text] eqn:Hjson.
  - rewrite (workflow_throws _ _ _ _ _ _ _ _ Hjson) in H4. discriminate.
  - rewrite (workflow_unfold _ _ _ _ _ _ _ text Hjson), H1, H2, H3 in H4.
    injection H4 as <- _. cbn in H5. destruct H5 as [H5|H5]; congruence.
Qed.

(** ** The workflow with its own stages *)

Lemma accepted_count_bound (count : JS.number) (fuel : nat) :
  accepted_count count -> (100 <= fuel)%nat ->
  JS.ltb (JS.of_nat fuel) count = false.
Proof.
  intros [->|(q & -> & _ & Hq)] Hfuel; [reflexivity|].
  cbn. apply Qltb_false. apply Qle_trans with (1 := Hq).
  change 100 with (inject_Z 100). rewrite <- Zle_Qle. lia.
Qed.

Lemma organized_counts_accepted categories organizedInput :
  Organize.organizeInput categories = Eff.Ok organizedInput ->
  Forall (fun c => accepted_count (CategoryInput.count c))
    (OrganizedInput.categories organizedInput).
Proof.
  unfold Organize.organizeInput. destruct categories as [cats|]; [|discriminate].
  destruct (Nat.eqb _ 0); [discriminate|].
  destruct (Nat.ltb 10 _); [discriminate|].
  destruct (Nat.eqb _ 0); [discriminate|].
  intros [= <-]. cbn [OrganizedInput.categories].
  apply Forall_map, Forall_forall. intros cat Hin.
  apply filter_In in Hin. destruct Hin as [_ Hv].
  apply valid_iff in Hv. destruct Hv as (s & n & -> & _ & Hacc). exact Hacc.
Qed.

Section PipelineFacts.
Context {W : Type}.
Variable JSON_stringify : option (list (option Entry.t)) -> Eff.res unit.
Variable process_env : W -> Env.t.
Variable generateText : Gen.request -> W -> Eff.res Gen.result * W.
Variable JSON_parse : string -> Eff.res ProductData.t.
Variable Buffer_from_base64 : string -> list N.
Variable fetch : Http.request -> W -> Eff.res Http.response * W.
Variable Date_now : W -> N.

Lemma category_loop_ends sampleImage fuel :
  (100 <= fuel)%nat ->
  forall categories acc w,
    Forall (fun c => accepted_count (CategoryInput.count c)) categories ->
    exists products w',
      category_loop process_env generateText JSON_parse Buffer_from_base64
        fuel categories sampleImage acc w = (Eff.Done products, w').
Proof.
  intros Hfuel. induction categories as [|c rest IH]; intros acc w Hall.
  - eexists _, _. reflexivity.
  - inversion Hall as [|c' rest' Hc Hrest]; subst.
    cbn [category_loop]. unfold Eff.bind at 1.
    destruct (count_loop_done process_env generateText JSON_parse
                Buffer_from_base64 (CategoryInput.category c)
                (CategoryInput.count c) sampleImage fuel 0 acc w)
      as (mid & w1 & Hmid & _).
    { apply accepted_count_bound; [exact Hc|exact Hfuel]. }
    rewrite Hmid. apply IH. exact Hrest.
Qed.

(** On what the normalizer returns, step 2 ends. *)
Lemma run_generate_terminates fuel categories sampleImage organizedInput :
  (100 <= fuel)%nat ->
  Organize.organizeInput categories = Eff.Ok organizedInput ->
  Eff.terminates
    (run_generate process_env generateText JSON_parse Buffer_from_base64
       fuel organizedInput sampleImage).
Proof.
  intros Hfuel Horg w. unfold run_generate, generateProducts, Eff.bind.
  destruct (category_loop_ends sampleImage fuel Hfuel
              (OrganizedInput.categories organizedInput) [] w
              (organized_counts_accepted _ _ Horg)) as (products & w' & H).
  rewrite H. discriminate.
Qed.

Lemma createShopifyProducts_terminates products :
  Eff.terminates (createShopifyProducts process_env fetch products).
Proof.
  intros w.
  destruct (createShopifyProducts_throws process_env fetch products w) as [Ha Hp].
  destruct (credentials_absent_dec (process_env w)) as [H|H].
  - destruct (Ha H) as (message & ->). discriminate.
  - destruct (Hp H) as (created & w' & ->). discriminate.
Qed.

Lemma uploadProductImages_terminates products :
  Eff.terminates (uploadProductImages process_env fetch Date_now products).
Proof.
  intros w.
  destruct (uploadProductImages_cases process_env fetch Date_now products w)
    as (Ha & Hp).
  destruct (credentials_absent_dec (process_env w)) as [H|H].
  - rewrite (Ha H). discriminate.
  - destruct (Hp H) as (w' & ->). discriminate.
Qed.

Local Abbreviation deployed_workflow :=
  (pipeline JSON_stringify process_env generateText JSON_parse Buffer_from_base64
     fetch Date_now).

(** The deployed workflow returns a result for every request its first
    log line could serialise, and every behaviour of the services it
    calls. *)
Lemma pipeline_returns fuel categories sampleImage w text :
  (100 <= fuel)%nat ->
  JSON_stringify categories = Eff.Ok text ->
  exists result w',
    deployed_workflow fuel categories sampleImage w = (Eff.Done result, w').
Proof.
  intros Hfuel Hjson. unfold pipeline.
  apply (workflow_returns _ _ _ _ categories sampleImage text Hjson).
  - intros organizedInput Horg.
    apply (run_generate_terminates fuel categories); assumption.
  - apply createShopifyProducts_terminates.
  - apply uploadProductImages_terminates.
Qed.

(** When it cannot, the error of the log line leaves the workflow. *)
Lemma pipeline_throws fuel categories sampleImage w error :
  JSON_stringify categories = Eff.Throw error ->
  deployed_workflow fuel categories sampleImage w = (Eff.Raised error, w).
Proof. intros Hjson. unfold pipeline. apply workflow_throws. exact Hjson. Qed.


End PipelineFacts.

(** ** The theorems at concrete runs *)

Lemma undecodable_is_not_placeholder_witness :
  isPlaceholderImage Base64.decode "data:image/png;base64," = false
  /\ exists product,
      retry_loop Script.env Script.generateText Script.JSON_parse Base64.decode
        3 "Chairs" 0 None 0 false []
        (Script.start Script.configured [Eff.Ok empty_image_answer] [])
      = (Eff.Done [product], Script.start Script.configured [] [])
      /\ GeneratedProduct.image product = "data:image/png;base64,".
Proof.
  destruct (undecodable_is_not_placeholder Script.env Script.generateText
              Script.JSON_parse Base64.decode "data:image/png;base64,"
              eq_refl eq_refl) as [Hfalse Hloop].
  split; [exact Hfalse|].
  apply (Hloop 2%nat "Chairs" 0%nat None 0%nat []
           (Script.start Script.configured [Eff.Ok empty_image_answer] [])
           empty_image_answer (Script.start Script.configured [] [])).
  - intros [[H|H] _]; discriminate.
  - unfold maxRetries. lia.
  - reflexivity.
  - reflexivity.
  - discriminate.
Defined.

Lemma generateProducts_length_witness :
  exists products w',
    generateProducts Script.env Script.generateText Script.JSON_parse Base64.decode
      100 two_chairs_batch None (Script.start Script.configured [] [])
    = (Eff.Done products, w')
    /\ JS.eqb (JS.of_nat (List.length products)) (JS.of_Z 2) = true.
Proof.
  apply (generateProducts_length Script.env Script.generateText Script.JSON_parse
           Base64.decode 100 two_chairs_batch None
           (Script.start Script.configured [] [])).
  - reflexivity.
  - lia.
Defined.

Lemma normalize_failure_is_terminal_witness :
  exists message,
    Organize.organizeInput (Some []) = Eff.Throw (JS.Error message)
    /\ Script.run 100 (Some []) None (Script.start Script.configured [] [])
       = (Eff.Done {| WorkflowResult.success := false;
                      WorkflowResult.totalProducts := JS.of_Z 0;
                      WorkflowResult.createdProducts := [];
                      WorkflowResult.errors := Some ["Step 1 failed: " ++ message] |},
          Script.start Script.configured [] [])
    /\ (@Some (list (option Entry.t)) [] = Some [] -> message = Organize.msg_empty).
Proof.
  unfold Script.run, pipeline.
  apply (normalize_failure_is_terminal Script.JSON_stringify _ _ _ (Some []) None
           (Script.start Script.configured [] []) tt).
  - reflexivity.
  - cbn. left. reflexivity.
Defined.

(** C7, as stated, fails: the one entry of the error list is not the
    normalizer's message but that message behind the name of the
    step. *)
Lemma normalize_error_is_prefixed :
  exists result,
    Organize.organizeInput (Some []) = Eff.Throw (JS.Error Organize.msg_empty)
    /\ Script.run 100 (Some []) None (Script.start Script.configured [] [])
       = (Eff.Done result, Script.start Script.configured [] [])
    /\ WorkflowResult.errors result
       = Some ["Step 1 failed: Categories array is required and cannot be empty"]
    /\ WorkflowResult.errors result <> Some [Organize.msg_empty].
Proof.
  eexists. split; [reflexivity|]. split; [vm_compute; reflexivity|].
  split; [reflexivity|]. cbn. discriminate.
Qed.



Lemma publish_failure_is_not_terminal_witness :
  productGeneratorWorkflow Script.JSON_stringify Stub.generate Stub.create Stub.upload
    two_chairs None []
  = (Eff.Done {| WorkflowResult.success := true;
                 WorkflowResult.totalProducts := JS.of_Z 2;
                 WorkflowResult.createdProducts := [Stub.record];
                 WorkflowResult.errors :=
                   Some ["Step 4 failed: "
                         ++ JS.message_of (JS.Error "upload refused")] |},
     ["generate"; "create"; "upload"]).
Proof.
  refine (proj1 (publish_failure_is_not_terminal
                   Script.JSON_stringify Stub.generate Stub.create Stub.upload
                   two_chairs None [] tt two_chairs_batch [twin_variants] ["generate"]
                   [Stub.record] ["generate"; "create"] _ _ _ _) _ _ _);
    reflexivity.
Defined.

Lemma workflow_returns_unless_log_throws_witness :
  pipeline stringify_circular Script.env Script.generateText Script.JSON_parse
    Base64.decode Script.fetch Script.clock 100 two_chairs None
    (Script.start Script.configured [] [Script.created "1" "Chairs 1"])
  = (Eff.Raised (JS.Error "Converting circular structure to JSON"),
     Script.start Script.configured [] [Script.created "1" "Chairs 1"]).
Proof.
  unfold pipeline.
  apply (workflow_returns_unless_log_throws stringify_circular
           (run_generate Script.env Script.generateText Script.JSON_parse
              Base64.decode 100)
           (createShopifyProducts Script.env Script.fetch)
           (uploadProductImages Script.env Script.fetch Script.clock)
           two_chairs None).
  - intros organizedInput Horg.
    apply (run_generate_terminates _ _ _ _ 100 two_chairs); [lia|exact Horg].
  - apply createShopifyProducts_terminates.
  - apply uploadProductImages_terminates.
Defined.

(** ** The scenarios of the specification *)

(** Two chairs, every commerce call succeeding. *)
Example scenario_all_created :
  fst (Script.run 100 two_chairs None
         (Script.start Script.configured []
            [Script.created "1" "Chairs 1"; Script.created "2" "Chairs 2";
             Script.created "" ""; Script.created "" ""]))
  = Eff.Done {| WorkflowResult.success := true;
                WorkflowResult.totalProducts := JS.of_Z 2;
                WorkflowResult.createdProducts :=
                  [ {| ShopifyProduct.id := "1"; ShopifyProduct.title := "Chairs 1";
                       ShopifyProduct.image := placeholder_uri "Chairs" |};
                    {| ShopifyProduct.id := "2"; ShopifyProduct.title := "Chairs 2";
                       ShopifyProduct.image := placeholder_uri "Chairs" |} ];
                WorkflowResult.errors := None |}.
Proof. vm_compute. reflexivity. Qed.

(** The second create call is refused: one record, no error entry. *)
Example scenario_second_create_refused :
  fst (Script.run 100 two_chairs None
         (Script.start Script.configured []
            [Script.created "1" "Chairs 1"; Script.refused 422; Script.created "" ""]))
  = Eff.Done {| WorkflowResult.success := true;
                WorkflowResult.totalProducts := JS.of_Z 2;
                WorkflowResult.createdProducts :=
                  [ {| ShopifyProduct.id := "1"; ShopifyProduct.title := "Chairs 1";
                       ShopifyProduct.image := placeholder_uri "Chairs" |} ];
                WorkflowResult.errors := None |}.
Proof. vm_compute. reflexivity. Qed.

(** Three records whose uploads throw, are refused and succeed: all
    three requests are sent and the call ends normally. *)
Example upload_continues_after_failures :
  let records :=
    [ {| ShopifyProduct.id := "1"; ShopifyProduct.title := "a";
         ShopifyProduct.image := "data:image/png;base64,AAAA" |};
      {| ShopifyProduct.id := "2"; ShopifyProduct.title := "b";
         ShopifyProduct.image := "data:image/jpeg;base64,BBBB" |};
      {| ShopifyProduct.id := "3"; ShopifyProduct.title := "c";
         ShopifyProduct.image := "data:image/webp;base64,CCCC" |} ] in
  let r :=
    uploadProductImages Script.env Script.fetch Script.clock records
      (Script.start Script.configured []
         [Eff.Throw (JS.Error "network"); Script.refused 500;
          Script.created "" ""]) in
  fst r = Eff.Done tt
  /\ map Http.url (Script.sent (snd r))
     = [ "https://shop.example.com/admin/api/2025-07/products/1/images.json";
         "https://shop.example.com/admin/api/2025-07/products/2/images.json";
         "https://shop.example.com/admin/api/2025-07/products/3/images.json" ].
Proof. vm_compute. split; reflexivity. Qed.

(** * Further properties *)

(** ** More on strings *)

Lemma startsWith_app (p s : string) : Str.startsWith p (p ++ s) = true.
Proof.
  unfold Str.startsWith. induction p as [|c p IH]; cbn.
  - destruct s; reflexivity.
  - destruct (ascii_dec c c) as [_|Hne]; [exact IH|congruence].
Qed.

Lemma drop_app (p s : string) : Str.drop (String.length p) (p ++ s) = s.
Proof. induction p as [|c p IH]; cbn; [reflexivity|exact IH]. Qed.

Lemma span_app (f : ascii -> bool) (a : string) (c : ascii) (s : string) :
  Forall (fun x => f x = true) (list_ascii_of_string a) -> f c = false ->
  Str.span f (a ++ String.String c s) = a.
Proof.
  intros Ha Hc. induction a as [|x a IH]; cbn.
  - rewrite Hc. reflexivity.
  - cbn in Ha. inversion Ha as [|x' l Hx Hl]; subst.
    rewrite Hx, IH by exact Hl. reflexivity.
Qed.

Lemma app_assoc_string (a b c : string) : (a ++ b) ++ c = a ++ (b ++ c).
Proof. induction a as [|x a IH]; cbn; [reflexivity|rewrite IH; reflexivity]. Qed.

Lemma drop_last_slash_app (d : string) : Str.drop_last_slash (d ++ "/") = d.
Proof.
  induction d as [|c d IH]; [reflexivity|].
  cbn [append Str.drop_last_slash]. rewrite IH.
  destruct d; reflexivity.
Qed.

Lemma Forall_chars_app (P : ascii -> Prop) (a b : string) :
  Forall P (list_ascii_of_string a) -> Forall P (list_ascii_of_string b) ->
  Forall P (list_ascii_of_string (a ++ b)).
Proof.
  intros Ha Hb. induction a as [|x a IH]; cbn; [exact Hb|].
  cbn in Ha. inversion Ha; subst. constructor; auto.
Qed.

Lemma replace_newlines_clean (r s : string) :
  Forall (fun c => c <> Str.nl) (list_ascii_of_string r) ->
  Forall (fun c => c <> Str.nl) (list_ascii_of_string (Str.replace_newlines r s)).
Proof.
  intros Hr. induction s as [|c s IH]; cbn [Str.replace_newlines].
  - constructor.
  - destruct (Ascii.eqb_spec c Str.nl) as [->|Hc].
    + apply Forall_chars_app; assumption.
    + cbn [list_ascii_of_string]. constructor; assumption.
Qed.

(** ** More on the commerce stages *)

(** X1.  The store domain may be configured with a scheme and a
    trailing slash: [https://d/] and [http://d/] are both used as [d],
    and without the trailing slash only the scheme is removed. *)
Theorem normalize_domain_strips (d : string) :
  Str.normalize_domain ("https://" ++ d ++ "/") = d
  /\ Str.normalize_domain ("http://" ++ d ++ "/") = d
  /\ Str.normalize_domain ("https://" ++ d) = Str.drop_last_slash d
  /\ Str.normalize_domain ("http://" ++ d) = Str.drop_last_slash d.
Proof.
  unfold Str.normalize_domain.
  rewrite !(startsWith_app "https://").
  change (Str.drop 8 ("https://" ++ ?x)) with x.
  split; [|split; [|split]].
  - apply (drop_last_slash_app d).
  - change (Str.startsWith "https://" ("http://" ++ d ++ "/")) with false.
    rewrite (startsWith_app "http://"). apply (drop_last_slash_app d).
  - reflexivity.
  - change (Str.startsWith "https://" ("http://" ++ d)) with false.
    rewrite (startsWith_app "http://"). reflexivity.
Qed.

Lemma mapi_from_length {A B} (f : A -> nat -> B) (index : nat) (l : list A) :
  List.length (mapi_from f index l) = List.length l.
Proof.
  revert index. induction l as [|x l IH]; intros index; cbn; [reflexivity|].
  rewrite IH. reflexivity.
Qed.

Lemma mapi_from_positions (variants : list Variant.t) (index : nat) :
  map Payload.position (mapi_from variant_record index variants)
  = seq (index + 1) (List.length variants).
Proof.
  revert index. induction variants as [|v rest IH]; intros index; cbn [mapi_from map seq List.length].
  - reflexivity.
  - rewrite IH. cbn [variant_record Payload.position].
    replace (S index + 1)%nat with (S (index + 1)) by lia. reflexivity.
Qed.

Lemma or_string_nonempty (s d : string) : d <> "" -> JS.or_string s d <> "".
Proof.
  intros Hd. unfold JS.or_string, JS.truthy_string.
  destruct (String.eqb_spec s ""); cbn; assumption.
Qed.

Lemma mapi_from_options (variants : list Variant.t) (index : nat) :
  Forall (fun v => Payload.option1 v <> "") (mapi_from variant_record index variants).
Proof.
  revert index. induction variants as [|v rest IH]; intros index; cbn [mapi_from].
  - constructor.
  - constructor; [|apply IH].
    rewrite variant_record_option1. apply or_string_nonempty. discriminate.
Qed.

(** X2.  The variant records of a payload: one per generated variant
    and a single one when there is none, numbered 1, 2, ... in order,
    each with a non-empty option value. *)
Theorem build_variants_shape (product : GeneratedProduct.t) :
  List.length (build_variants product)
  = Nat.max 1 (List.length (GeneratedProduct.variants product))
  /\ map Payload.position (build_variants product)
     = seq 1 (List.length (build_variants product))
  /\ Forall (fun v => Payload.option1 v <> "") (build_variants product).
Proof.
  unfold build_variants.
  destruct (GeneratedProduct.variants product) as [|v rest].
  - cbn. split; [reflexivity|]. split; [reflexivity|].
    constructor; [discriminate|constructor].
  - change (Nat.ltb 0 (List.length (v :: rest))) with true. cbv iota.
    unfold mapi. rewrite mapi_from_length. split; [|split].
    + cbn [List.length]. lia.
    + apply (mapi_from_positions (v :: rest) 0).
    + apply mapi_from_options.
Qed.

(** The description of a payload holds no line feed and opens a
    paragraph. *)
Lemma body_html_has_no_newline (product : GeneratedProduct.t) :
  Forall (fun c => c <> Str.nl)
    (list_ascii_of_string (Payload.body_html (product_payload product)))
  /\ Str.startsWith "<p>" (Payload.body_html (product_payload product)) = true.
Proof.
  cbn [product_payload Payload.body_html]. split.
  - apply (Forall_chars_app _ "<p>").
    + repeat constructor; discriminate.
    + apply Forall_chars_app.
      * apply replace_newlines_clean. repeat constructor; discriminate.
      * repeat constructor; discriminate.
  - apply startsWith_app.
Qed.

Lemma replace_newlines_app (r a s : string) :
  Forall (fun c => c <> Str.nl) (list_ascii_of_string a) ->
  Str.replace_newlines r (a ++ s) = a ++ Str.replace_newlines r s.
Proof.
  intros Ha. induction a as [|c a IH]; [reflexivity|].
  cbn in Ha. inversion Ha as [|c' l Hc Hl]; subst.
  cbn [append Str.replace_newlines].
  destruct (Ascii.eqb_spec c Str.nl) as [E|_]; [contradiction|].
  rewrite IH by exact Hl. reflexivity.
Qed.

Lemma replace_newlines_line (r a : string) :
  Forall (fun c => c <> Str.nl) (list_ascii_of_string a) ->
  Str.replace_newlines r a = a.
Proof.
  intros Ha. induction a as [|c a IH]; [reflexivity|].
  cbn in Ha. inversion Ha as [|c' l Hc Hl]; subst.
  cbn [Str.replace_newlines].
  destruct (Ascii.eqb_spec c Str.nl) as [E|_]; [contradiction|].
  rewrite IH by exact Hl. reflexivity.
Qed.

(** Replacing the line feeds of lines joined by line feeds joins the
    lines by the replacement. *)
Lemma replace_newlines_concat (r : string) (lines : list string) :
  Forall (fun l => Forall (fun c => c <> Str.nl) (list_ascii_of_string l)) lines ->
  Str.replace_newlines r (String.concat (String.String Str.nl EmptyString) lines)
  = String.concat r lines.
Proof.
  induction lines as [|a rest IH]; intros H; [reflexivity|].
  inversion H as [|a' rest' Ha Hrest]; subst.
  destruct rest as [|b rest].
  - cbn [String.concat]. apply replace_newlines_line. exact Ha.
  - change (String.concat ?sep (a :: b :: rest))
      with (a ++ sep ++ String.concat sep (b :: rest)).
    rewrite replace_newlines_app by exact Ha.
    cbn [append Str.replace_newlines].
    rewrite Ascii.eqb_refl, IH by exact Hrest. reflexivity.
Qed.

(** X3.  The description of a payload is its generated description
    with every line in a paragraph element of its own: lines l1, ...,
    ln separated by line feeds give <p>l1</p><p>l2</p>...<p>ln</p>, the
    line feeds replaced by the paragraph breaks and nothing dropped. *)
Theorem body_html_paragraphs (product : GeneratedProduct.t) (lines : list string) :
  Forall (fun l => Forall (fun c => c <> Str.nl) (list_ascii_of_string l)) lines ->
  GeneratedProduct.description product
  = String.concat (String.String Str.nl EmptyString) lines ->
  Payload.body_html (product_payload product)
  = "<p>" ++ String.concat "</p><p>" lines ++ "</p>".
Proof.
  intros Hlines Hd. cbn [product_payload Payload.body_html].
  rewrite Hd, replace_newlines_concat by exact Hlines. reflexivity.
Qed.

Lemma string_nonempty_eqb (s : string) : s <> "" -> (s =? "") = false.
Proof. intros H. apply string_eqb_empty. exact H. Qed.

(** X4.  The data URI the generator builds from the first image file
    is taken apart again by the publisher: the attachment it sends is
    the file's base64 text, and the media subtype it reads is the
    file's. *)
Theorem data_uri_round_trip (sub base64 : string) (rest : list Gen.file) :
  sub <> "" -> base64 <> "" ->
  Forall (fun c => Str.not_semicolon c = true) (list_ascii_of_string sub) ->
  extract_image (image_file sub base64 :: rest)
  = "data:image/" ++ sub ++ ";base64," ++ base64
  /\ image_data (extract_image (image_file sub base64 :: rest)) = base64
  /\ Str.match_mime (extract_image (image_file sub base64 :: rest)) = Some sub.
Proof.
  intros Hsub Hb Hchars.
  assert (extract_image (image_file sub base64 :: rest)
          = "data:image/" ++ sub ++ ";base64," ++ base64) as E.
  { unfold extract_image. cbn [filter is_image image_file Gen.mediaType].
    rewrite (startsWith_app "image/" sub). cbn [Gen.base64].
    assert (JS.truthy_opt (Some base64) = true) as Ht.
    { unfold JS.truthy_opt, JS.truthy_string.
      rewrite (string_nonempty_eqb _ Hb). reflexivity. }
    change (Gen.base64 (image_file sub base64)) with (Some base64).
    rewrite Ht. reflexivity. }
  assert (Str.span Str.not_semicolon (sub ++ ";base64," ++ base64) = sub) as Hspan.
  { apply span_app; [exact Hchars|reflexivity]. }
  rewrite E. split; [reflexivity|]. split.
  - unfold image_data.
    rewrite (startsWith_app "data:image/").
    unfold Str.strip_data_uri_prefix.
    rewrite (startsWith_app "data:image/").
    change (Str.drop 11 ("data:image/" ++ ?x)) with x.
    rewrite Hspan, drop_app, (string_nonempty_eqb _ Hsub).
    rewrite (startsWith_app ";base64,"). reflexivity.
  - change ("data:image/" ++ sub ++ ";base64," ++ base64)
      with (String.String "d" ("ata:image/" ++ sub ++ ";base64," ++ base64)).
    cbn [Str.match_mime].
    change (String.String "d" ("ata:image/" ++ sub ++ ";base64," ++ base64))
      with ("data:image/" ++ sub ++ ";base64," ++ base64).
    rewrite (startsWith_app "data:image/").
    change (Str.drop 11 ("data:image/" ++ ?x)) with x.
    rewrite Hspan. destruct sub; [congruence|reflexivity].
Qed.

Lemma body_html_paragraphs_witness :
  Payload.body_html (product_payload two_line_chair)
  = "<p>Solid oak.</p><p>Seats one.</p>".
Proof.
  apply (body_html_paragraphs two_line_chair ["Solid oak."; "Seats one."]).
  - repeat constructor; discriminate.
  - reflexivity.
Defined.

Lemma data_uri_round_trip_witness :
  extract_image (image_file "png" "iVBORw0KGgo=" :: [])
  = "data:image/png;base64,iVBORw0KGgo="
  /\ image_data (extract_image (image_file "png" "iVBORw0KGgo=" :: []))
     = "iVBORw0KGgo="
  /\ Str.match_mime (extract_image (image_file "png" "iVBORw0KGgo=" :: []))
     = Some "png".
Proof.
  apply (data_uri_round_trip "png" "iVBORw0KGgo=" []).
  - discriminate.
  - discriminate.
  - repeat constructor.
Defined.

Lemma kept_length {A} (l l' : list A) : kept l l' -> (List.length l <= List.length l')%nat.
Proof. induction 1; cbn; lia. Qed.

Lemma kept_refl {A} (l : list A) : kept l l.
Proof. induction l; [apply kept_nil|apply kept_take; assumption]. Qed.

Section MoreCommerceFacts.
Context {W : Type}.
Variable process_env : W -> Env.t.
Variable fetch : Http.request -> W -> Eff.res Http.response * W.

(** A created record carries the image of its product. *)
Lemma create_one_image domain token product w created w' :
  Eff.attempt (create_one fetch domain token product) w = (Eff.Done (Eff.Ok created), w') ->
  ShopifyProduct.image created = GeneratedProduct.image product.
Proof.
  unfold create_one, Eff.attempt, Eff.bind, Eff.call, Eff.lift, Eff.throw, Eff.ret.
  destruct (fetch _ w) as [[e|response] w1]; [discriminate|].
  destruct (negb (Http.ok response)).
  - destruct (Http.text response); discriminate.
  - destruct (Http.json response) as [e|[c|]]; try discriminate.
    destruct (Http.id c); [|discriminate].
    intros [= <- _]. reflexivity.
Qed.

Lemma create_loop_kept domain token products :
  forall acc w created w',
    create_loop fetch domain token products acc w = (Eff.Done created, w') ->
    exists new,
      created = (acc ++ new)%list
      /\ kept (map ShopifyProduct.image new) (map GeneratedProduct.image products).
Proof.
  induction products as [|product rest IH]; intros acc w created w' H.
  - cbn in H. injection H as <- _. exists []. rewrite app_nil_r.
    split; [reflexivity|constructor].
  - cbn [create_loop] in H. unfold Eff.bind at 1 in H.
    destruct (create_one_ends fetch domain token product w) as (r & w1 & Hr).
    rewrite Hr in H. destruct r as [e|c].
    + destruct (IH _ _ _ _ H) as (new & -> & Hk).
      exists new. split; [reflexivity|]. cbn [map]. apply kept_skip. exact Hk.
    + destruct (IH _ _ _ _ H) as (new & -> & Hk).
      exists (c :: new). rewrite <- app_assoc. split; [reflexivity|].
      cbn [map]. rewrite (create_one_image _ _ _ _ _ _ Hr). apply kept_take. exact Hk.
Qed.

Lemma createShopifyProducts_kept products w created w' :
  createShopifyProducts process_env fetch products w = (Eff.Done created, w') ->
  kept (map ShopifyProduct.image created) (map GeneratedProduct.image products).
Proof.
  unfold createShopifyProducts, Eff.bind, Eff.read, Eff.throw.
  destruct (negb _ || negb _); [discriminate|].
  intros H. destruct (create_loop_kept _ _ _ _ _ _ _ H) as (new & -> & Hk).
  cbn [app]. exact Hk.
Qed.


(** X6.  [createShopifyProducts] throws exactly when the store domain
    or the access token is absent; the error names which of the two
    was found, and no request has been made. *)
Theorem createShopifyProducts_throws_iff products w :
  ((exists e w', createShopifyProducts process_env fetch products w = (Eff.Raised e, w'))
   <-> credentials_absent (process_env w))
  /\ (credentials_absent (process_env w) ->
      createShopifyProducts process_env fetch products w
      = (Eff.Raised
           (JS.Error (msg_create_credentials
                        (Env.SHOPIFY_STORE_DOMAIN (process_env w))
                        (Env.SHOPIFY_ACCESS_TOKEN (process_env w)))), w)).
Proof.
  unfold createShopifyProducts, Eff.bind, Eff.read, Eff.throw.
  destruct (negb _ || negb _) eqn:E.
  - apply credentials_check in E. split; [|auto].
    split; [auto|]. intros _. eauto.
  - assert (~ credentials_absent (process_env w)) as Hn.
    { intros H. apply credentials_check in H. congruence. }
    split; [|tauto]. split; [|tauto].
    intros (e & w' & H).
    destruct (create_loop_done fetch
                (Str.normalize_domain (JS.get_opt (Env.SHOPIFY_STORE_DOMAIN (process_env w))))
                (JS.get_opt (Env.SHOPIFY_ACCESS_TOKEN (process_env w)))
                products [] w) as (created & w'' & Hc).
    rewrite Hc in H. discriminate.
Qed.

End MoreCommerceFacts.


(** ** The requests the commerce stages make, in the scripted world *)

Lemma script_fetch_log (req : Http.request) (w : Script.world) :
  Script.sent (snd (Script.fetch req w)) = (Script.sent w ++ [req])%list
  /\ Script.env (snd (Script.fetch req w)) = Script.env w
  /\ Script.clock (snd (Script.fetch req w)) = Script.clock w.
Proof. unfold Script.fetch. destruct (Script.commerce w); cbn; auto. Qed.

Lemma create_one_log domain token product (w : Script.world) :
  Script.sent (snd (Eff.attempt (create_one Script.fetch domain token product) w))
  = (Script.sent w ++ [create_request domain token product])%list.
Proof.
  unfold create_one, Eff.attempt, Eff.bind, Eff.call, Eff.lift, Eff.throw, Eff.ret.
  fold (create_request domain token product).
  destruct (script_fetch_log (create_request domain token product) w) as (Hs & _).
  destruct (Script.fetch (create_request domain token product) w)
    as [[e|response] w1]; cbn [snd] in *; [exact Hs|].
  destruct (negb (Http.ok response)).
  - destruct (Http.text response); exact Hs.
  - destruct (Http.json response) as [e|[c|]]; try exact Hs.
    destruct (Http.id c); exact Hs.
Qed.

Lemma create_loop_log domain token products :
  forall acc (w : Script.world),
    Script.sent (snd (create_loop Script.fetch domain token products acc w))
    = (Script.sent w ++ map (create_request domain token) products)%list.
Proof.
  induction products as [|product rest IH]; intros acc w.
  - cbn. rewrite app_nil_r. reflexivity.
  - cbn [create_loop map]. unfold Eff.bind at 1.
    pose proof (create_one_log domain token product w) as Hlog.
    destruct (create_one_ends Script.fetch domain token product w) as (r & w1 & Hr).
    rewrite Hr in Hlog |- *. cbn [snd] in Hlog.
    destruct r; rewrite IH, Hlog, <- app_assoc; reflexivity.
Qed.

(** X7.  With the credentials present, [createShopifyProducts] makes
    exactly one request per product, in the order of the products and
    whatever the answers are: a refused product is not tried again and
    does not stop the loop.  Each request carries the payload of its
    product and goes to the normalized store domain. *)
Theorem createShopifyProducts_requests products (w : Script.world) :
  ~ credentials_absent (Script.env w) ->
  Script.sent (snd (createShopifyProducts Script.env Script.fetch products w))
  = (Script.sent w
     ++ map (create_request
               (Str.normalize_domain
                  (JS.get_opt (Env.SHOPIFY_STORE_DOMAIN (Script.env w))))
               (JS.get_opt (Env.SHOPIFY_ACCESS_TOKEN (Script.env w))))
            products)%list.
Proof.
  intros Hn. unfold createShopifyProducts, Eff.bind, Eff.read, Eff.throw.
  destruct (negb _ || negb _) eqn:E.
  - apply credentials_check in E. contradiction.
  - apply create_loop_log.
Qed.

Lemma createShopifyProducts_requests_witness :
  map Http.url
    (Script.sent
       (snd (createShopifyProducts Script.env Script.fetch three_products
               created_refused_created)))
  = [ "https://shop.example.com/admin/api/2025-07/products.json";
      "https://shop.example.com/admin/api/2025-07/products.json";
      "https://shop.example.com/admin/api/2025-07/products.json" ].
Proof.
  rewrite (createShopifyProducts_requests three_products created_refused_created).
  - reflexivity.
  - intros [[H|H]|[H|H]]; discriminate.
Defined.

Lemma upload_one_log domain token product (w : Script.world) :
  let w' := snd (Eff.attempt (upload_one Script.fetch Script.clock domain token product) w) in
  Script.sent w'
  = (Script.sent w
     ++ (if has_image_data product
         then [upload_request domain token (Script.clock w) product] else []))%list
  /\ Script.clock w' = Script.clock w.
Proof.
  unfold upload_one, has_image_data, Eff.attempt, Eff.bind, Eff.call, Eff.read, Eff.ret.
  destruct (JS.truthy_string (ShopifyProduct.image product)); cbn [negb andb];
    [|cbn; rewrite app_nil_r; auto].
  destruct (JS.truthy_string (image_data (ShopifyProduct.image product)));
    cbn [negb]; [|cbn; rewrite app_nil_r; auto].
  fold (upload_request domain token (Script.clock w) product).
  destruct (script_fetch_log (upload_request domain token (Script.clock w) product) w)
    as (Hs & _ & Hc).
  destruct (Script.fetch (upload_request domain token (Script.clock w) product) w)
    as [[e|response] w1]; cbn [snd] in *; [auto|].
  destruct (negb (Http.ok response)); cbn; auto.
Qed.

Lemma upload_loop_log domain token products :
  forall (w : Script.world),
    Script.sent (snd (upload_loop Script.fetch Script.clock domain token products w))
    = (Script.sent w
       ++ map (upload_request domain token (Script.clock w))
            (filter has_image_data products))%list.
Proof.
  induction products as [|product rest IH]; intros w.
  - cbn. rewrite app_nil_r. reflexivity.
  - cbn [upload_loop filter]. unfold Eff.bind at 1.
    destruct (upload_one_log domain token product w) as [Hlog Hclock].
    destruct (upload_one_ends Script.fetch Script.clock domain token product w)
      as (r & w1 & Hr).
    rewrite Hr in Hlog, Hclock |- *. cbn [snd] in Hlog, Hclock.
    rewrite IH, Hlog, Hclock, <- app_assoc.
    destruct (has_image_data product); reflexivity.
Qed.

(** X8.  With the credentials present, [uploadProductImages] makes one
    request for each record that has image data, in order and whatever
    the answers are, and none for a record whose image is empty or is
    only a data-URI prefix; the attachment is the image without its
    prefix and the request goes to the images of that record's id. *)
Theorem uploadProductImages_requests products (w : Script.world) :
  ~ credentials_absent (Script.env w) ->
  Script.sent
    (snd (uploadProductImages Script.env Script.fetch Script.clock products w))
  = (Script.sent w
     ++ map (upload_request
               (Str.normalize_domain
                  (JS.get_opt (Env.SHOPIFY_STORE_DOMAIN (Script.env w))))
               (JS.get_opt (Env.SHOPIFY_ACCESS_TOKEN (Script.env w)))
               (Script.clock w))
            (filter has_image_data products))%list.
Proof.
  intros Hn. unfold uploadProductImages, Eff.bind, Eff.read, Eff.throw.
  destruct (negb _ || negb _) eqn:E.
  - apply credentials_check in E. contradiction.
  - apply upload_loop_log.
Qed.

Lemma uploadProductImages_requests_witness :
  Script.sent
    (snd (uploadProductImages Script.env Script.fetch Script.clock mixed_records
            (Script.start Script.configured [] [Script.refused 500])))
  = [ {| Http.url := "https://shop.example.com/admin/api/2025-07/products/11/images.json";
         Http.access_token := "token";
         Http.body :=
           Payload.Image {| Payload.attachment := "iVBORw0KGgo=";
                            Payload.filename := "product-11-1700000000.png" |} |} ].
Proof.
  rewrite (uploadProductImages_requests mixed_records
             (Script.start Script.configured [] [Script.refused 500])).
  - vm_compute. reflexivity.
  - intros [[H|H]|[H|H]]; discriminate.
Defined.

Section MoreOrchestratorFacts.
Context {W : Type}.
Variable JSON_stringify : option (list (option Entry.t)) -> Eff.res unit.
Variable stage_generate : OrganizedInput.t -> option string -> Eff.M (W := W) generated.
Variable stage_create : list GeneratedProduct.t -> Eff.M (W := W) (list ShopifyProduct.t).
Variable stage_upload : list ShopifyProduct.t -> Eff.M (W := W) unit.

Local Abbreviation workflow :=
  (productGeneratorWorkflow JSON_stringify stage_generate stage_create stage_upload).

(** X9.  When the generate stage throws, or hands back null, undefined
    or something that is not an array, the workflow stops there: it
    returns [success: false], no record, the message of step 2, and
    the batch total (0 when the total is not a number); the world is as
    the generate stage left it, so the later stages did not run.  The
    run is one that reached its stages: its first log line could
    serialise the request. *)
Theorem generate_failure_is_terminal categories sampleImage w text organizedInput r w1 :
  JSON_stringify categories = Eff.Ok text ->
  Organize.organizeInput categories = Eff.Ok organizedInput ->
  stage_generate organizedInput sampleImage w = (r, w1) ->
  forall message,
    match r with
    | Eff.Raised error => message = JS.message_of error
    | Eff.Done Nullish => message = "generateProducts returned null or undefined"
    | Eff.Done (NotArray type_of) =>
        message = "generateProducts returned invalid type: " ++ type_of
                  ++ ", expected array"
    | _ => False
    end ->
    workflow categories sampleImage w
    = (Eff.Done {| WorkflowResult.success := false;
                   WorkflowResult.totalProducts :=
                     JS.or_number (OrganizedInput.totalProducts organizedInput)
                       (JS.of_Z 0);
                   WorkflowResult.createdProducts := [];
                   WorkflowResult.errors := Some ["Step 2 failed: " ++ message] |},
       w1).
Proof.
  intros Hjson H1 H2 message Hm.
  rewrite (workflow_unfold _ _ _ _ _ _ _ text Hjson), H1.
  unfold step2, Eff.bind. rewrite H2.
  destruct r as [error|[|type_of|products]|]; try contradiction;
    subst message; reflexivity.
Qed.

(** X10.  The shape of every result of the workflow: the error list
    is absent or holds a single message.  A failed run has no record
    and the message of step 1, 2 or 3; a successful run has no message,
    or the message of step 4. *)
Theorem workflow_result_shape categories sampleImage w result w' :
  workflow categories sampleImage w = (Eff.Done result, w') ->
  (WorkflowResult.success result = false ->
   WorkflowResult.createdProducts result = []
   /\ exists n message,
       In n ["1"; "2"; "3"]
       /\ WorkflowResult.errors result
          = Some ["Step " ++ n ++ " failed: " ++ message])
  /\ (WorkflowResult.success result = true ->
      WorkflowResult.errors result = None
      \/ exists message,
          WorkflowResult.errors result = Some ["Step 4 failed: " ++ message]).
Proof.
  destruct (JSON_stringify categories) as [e|text] eqn:Hjson.
  { rewrite (workflow_throws _ _ _ _ _ _ _ _ Hjson). discriminate. }
  rewrite (workflow_unfold _ _ _ _ _ _ _ text Hjson).
  destruct (Organize.organizeInput categories) as [e|organizedInput].
  { intros [= <- _]. cbn. split; [|discriminate].
    intros _. split; [reflexivity|]. exists "1", (JS.message_of e). cbn. auto. }
  destruct (step2 stage_generate organizedInput sampleImage w)
    as [[e|generatedProducts|] w1]; [| |discriminate].
  { intros [= <- _]. cbn. split; [|discriminate].
    intros _. split; [reflexivity|]. exists "2", (JS.message_of e). cbn. auto. }
  destruct (stage_create generatedProducts w1) as [[e|createdProducts|] w2];
    [| |discriminate].
  { intros [= <- _]. cbn. split; [|discriminate].
    intros _. split; [reflexivity|]. exists "3", (JS.message_of e). cbn. auto. }
  destruct (stage_upload createdProducts w2) as [[e|u|] w3]; [| |discriminate];
    intros [= <- _]; cbn; (split; [discriminate|]); intros _; eauto.
Qed.

End MoreOrchestratorFacts.

Lemma generate_failure_is_terminal_witness :
  productGeneratorWorkflow Script.JSON_stringify generate_nothing Stub.create Stub.upload
    two_chairs None []
  = (Eff.Done {| WorkflowResult.success := false;
                 WorkflowResult.totalProducts :=
                   JS.or_number (OrganizedInput.totalProducts two_chairs_batch)
                     (JS.of_Z 0);
                 WorkflowResult.createdProducts := [];
                 WorkflowResult.errors :=
                   Some ["Step 2 failed: "
                         ++ "generateProducts returned null or undefined"] |},
     ["generate"]).
Proof.
  apply (generate_failure_is_terminal Script.JSON_stringify generate_nothing
           Stub.create Stub.upload
           two_chairs None [] tt two_chairs_batch (Eff.Done Nullish) ["generate"]);
    reflexivity.
Defined.

Lemma workflow_result_shape_witness :
  WorkflowResult.errors
    {| WorkflowResult.success := true;
       WorkflowResult.totalProducts := JS.of_Z 2;
       WorkflowResult.createdProducts := [Stub.record];
       WorkflowResult.errors :=
         Some ["Step 4 failed: " ++ JS.message_of (JS.Error "upload refused")] |}
  = None
  \/ exists message,
      WorkflowResult.errors
        {| WorkflowResult.success := true;
           WorkflowResult.totalProducts := JS.of_Z 2;
           WorkflowResult.createdProducts := [Stub.record];
           WorkflowResult.errors :=
             Some ["Step 4 failed: " ++ JS.message_of (JS.Error "upload refused")] |}
      = Some ["Step 4 failed: " ++ message].
Proof.
  refine (proj2 (workflow_result_shape Script.JSON_stringify
                   Stub.generate Stub.create Stub.upload
                   two_chairs None [] _ ["generate"; "create"; "upload"] _) _);
    reflexivity.
Defined.

(** ** More on the generator *)

Lemma placeholder_uri_nonempty (category : string) : placeholder_uri category <> "".
Proof. unfold placeholder_uri. discriminate. Qed.

Lemma indices_whole (q : Q) (k fuel : nat) :
  q == inject_Z (Z.of_nat k) ->
  forall i, (i <= k)%nat -> (k <= i + fuel)%nat ->
  indices (JS.Fin q) i fuel = seq i (k - i).
Proof.
  intros Hq. unfold indices.
  induction fuel as [|fuel IH]; intros i Hik Hk; cbn [seq filter].
  - replace (k - i)%nat with O by lia. reflexivity.
  - destruct (JS.ltb (JS.of_nat i) (JS.Fin q)) eqn:Hi.
    + cbn in Hi. apply Qltb_true in Hi. rewrite Hq, <- Zlt_Qlt in Hi.
      rewrite IH by lia. replace (k - i)%nat with (S (k - S i)) by lia. reflexivity.
    + cbn in Hi. apply Qltb_false in Hi. rewrite Hq, <- Zle_Qle in Hi.
      replace (k - i)%nat with O by lia.
      pose proof (trips_none (JS.Fin q) fuel (S i)) as Hnone.
      unfold trips in Hnone. apply length_zero_iff_nil. apply Hnone.
      cbn. apply Qltb_false. rewrite Hq, <- Zle_Qle. lia.
Qed.

Section MoreGenerateFacts.
Context {W : Type}.
Variable process_env : W -> Env.t.
Variable generateText : Gen.request -> W -> Eff.res Gen.result * W.
Variable JSON_parse : string -> Eff.res ProductData.t.
Variable Buffer_from_base64 : string -> list N.

Local Abbreviation try_once :=
  (try_generate process_env generateText JSON_parse Buffer_from_base64).
Local Abbreviation retrying :=
  (retry_loop process_env generateText JSON_parse Buffer_from_base64).
Local Abbreviation counting :=
  (count_loop process_env generateText JSON_parse Buffer_from_base64).
Local Abbreviation over_categories :=
  (category_loop process_env generateText JSON_parse Buffer_from_base64).

Lemma try_generate_product category i sampleImage attempts w r w' :
  Eff.attempt (try_once category i sampleImage attempts) w
  = (Eff.Done (Eff.Ok (Some r)), w') ->
  well_formed category r.
Proof.
  unfold try_generate, Eff.attempt, Eff.bind, Eff.read, Eff.call, Eff.throw, Eff.ret.
  destruct (negb (JS.truthy_opt _)); [discriminate|].
  destruct (generateText _ w) as [[e|result] w1]; [discriminate|].
  destruct (isPlaceholderImage _ _ && Nat.ltb attempts maxRetries); [discriminate|].
  intros [= <- _]. split; [reflexivity|].
  cbn [GeneratedProduct.image].
  destruct (JS.truthy_string (extract_image (Gen.files result))) eqn:E.
  - unfold JS.truthy_string in E. apply negb_true_iff, string_eqb_empty in E. exact E.
  - apply placeholder_uri_nonempty.
Qed.

Lemma fallback_well_formed category i : well_formed category (fallback_product category i).
Proof. split; [reflexivity|apply placeholder_uri_nonempty]. Qed.

Lemma retry_loop_pushes_well_formed fuel category i sampleImage :
  forall attempts acc w,
    (attempts + fuel = maxRetries)%nat -> (0 < fuel)%nat ->
    exists product w',
      retrying fuel category i sampleImage attempts false acc w
      = (Eff.Done (acc ++ [product])%list, w')
      /\ well_formed category product.
Proof.
  induction fuel as [|fuel IH]; intros attempts acc w Hsum Hpos; [lia|].
  assert (Nat.ltb attempts maxRetries = true) as Hlt by (apply Nat.ltb_lt; lia).
  cbn [retry_loop negb andb]. rewrite Hlt.
  unfold Eff.bind at 1.
  destruct (try_generate_ends process_env generateText JSON_parse Buffer_from_base64
              category i sampleImage (S attempts) w)
    as (r & w' & Hr & Hlast).
  rewrite Hr.
  destruct r as [e|[product|]].
  - destruct (Nat.ltb_spec (S attempts) maxRetries) as [Hn|Hn].
    + apply IH; lia.
    + eexists _, _. split; [apply retry_loop_generated|apply fallback_well_formed].
  - eexists _, _. split; [apply retry_loop_generated|].
    apply (try_generate_product _ _ _ _ _ _ _ Hr).
  - destruct fuel as [|fuel'].
    + exfalso. apply Hlast; [unfold maxRetries in *; lia|reflexivity].
    + apply IH; lia.
Qed.

Lemma count_loop_well_formed category count sampleImage fuel :
  forall i acc w,
    JS.ltb (JS.of_nat (i + fuel)) count = false ->
    exists new w',
      counting fuel category count sampleImage i acc w
      = (Eff.Done (acc ++ new)%list, w')
      /\ List.length new = trips count i fuel
      /\ Forall (well_formed category) new.
Proof.
  induction fuel as [|fuel IH]; intros i acc w Hend.
  - rewrite Nat.add_0_r in Hend. cbn [count_loop]. rewrite Hend.
    exists [], w. rewrite app_nil_r. split; [reflexivity|]. split; [reflexivity|constructor].
  - cbn [count_loop].
    destruct (JS.ltb (JS.of_nat i) count) eqn:Hi.
    + unfold Eff.bind at 1.
      destruct (retry_loop_pushes_well_formed maxRetries category i sampleImage 0 acc w)
        as (product & w1 & Hp & Hwf); [reflexivity|unfold maxRetries; lia|].
      rewrite Hp.
      destruct (IH (S i) (acc ++ [product])%list w1) as (new & w' & Hc & Hlen & Hall).
      { rewrite <- Hend. f_equal. f_equal. lia. }
      exists (product :: new), w'. rewrite Hc, <- app_assoc.
      split; [reflexivity|]. split; [|constructor; assumption].
      unfold trips in *. cbn [seq filter List.length]. rewrite Hi, Hlen. reflexivity.
    + exists [], w. rewrite app_nil_r. split; [reflexivity|].
      rewrite trips_none by exact Hi. split; [reflexivity|constructor].
Qed.

Lemma well_formed_categories category (new : list GeneratedProduct.t) :
  Forall (well_formed category) new ->
  map GeneratedProduct.category new = repeat category (List.length new).
Proof.
  induction 1 as [|p l [Hc _] _ IH]; cbn; [reflexivity|].
  rewrite Hc, IH. reflexivity.
Qed.

Lemma well_formed_images category (new : list GeneratedProduct.t) :
  Forall (well_formed category) new ->
  Forall (fun p => GeneratedProduct.image p <> "") new.
Proof. apply Forall_impl. intros p [_ H]. exact H. Qed.

(** The loop over the categories, on counts the normalizer accepts. *)
Lemma category_loop_well_formed sampleImage fuel :
  (100 <= fuel)%nat ->
  forall categories acc w,
    Forall (fun c => accepted_count (CategoryInput.count c)) categories ->
    exists new w',
      over_categories fuel categories sampleImage acc w
      = (Eff.Done (acc ++ new)%list, w')
      /\ map GeneratedProduct.category new
         = flat_map (fun c => repeat (CategoryInput.category c)
                                (trips (CategoryInput.count c) 0 fuel)) categories
      /\ Forall (fun p => GeneratedProduct.image p <> "") new.
Proof.
  intros Hfuel. induction categories as [|c rest IH]; intros acc w Hall.
  - exists [], w. rewrite app_nil_r. split; [reflexivity|].
    split; [reflexivity|constructor].
  - inversion Hall as [|c' rest' Hc Hrest]; subst.
    cbn [category_loop]. unfold Eff.bind at 1.
    destruct (count_loop_well_formed (CategoryInput.category c)
                (CategoryInput.count c) sampleImage fuel 0 acc w)
      as (mid & w1 & Hmid & Hlen & Hwf).
    { apply accepted_count_bound; [exact Hc|exact Hfuel]. }
    rewrite Hmid.
    destruct (IH (acc ++ mid)%list w1 Hrest) as (new & w' & Hn & Hcats & Himgs).
    exists (mid ++ new)%list, w'. rewrite Hn, <- app_assoc.
    split; [reflexivity|]. split.
    + cbn [flat_map]. rewrite map_app, Hcats.
      rewrite (well_formed_categories _ _ Hwf), Hlen. reflexivity.
    + apply Forall_app. split; [|exact Himgs].
      apply (well_formed_images _ _ Hwf).
Qed.

(** X11.  On a valid batch the products come out in the order of the
    request: for each category in turn, as many products as its count,
    each carrying that category. *)
Theorem generateProducts_order fuel organizedInput sampleImage w :
  valid_batch organizedInput = true ->
  (100 <= fuel)%nat ->
  exists products w',
    generateProducts process_env generateText JSON_parse Buffer_from_base64
      fuel organizedInput sampleImage w = (Eff.Done products, w')
    /\ map GeneratedProduct.category products
       = flat_map (fun c => repeat (CategoryInput.category c)
                              (whole (CategoryInput.count c)))
           (OrganizedInput.categories organizedInput).
Proof.
  unfold valid_batch. rewrite !andb_true_iff.
  intros [[_ Hv] _] Hfuel. unfold generateProducts.
  assert (Forall (fun c => valid_count (CategoryInput.count c) = true)
            (OrganizedInput.categories organizedInput)) as Hvalid.
  { rewrite forallb_forall in Hv. apply Forall_forall. intros c Hin.
    apply Hv. apply in_map. exact Hin. }
  destruct (category_loop_well_formed sampleImage fuel Hfuel
              (OrganizedInput.categories organizedInput) [] w)
    as (new & w' & Hn & Hcats & _).
  { apply Forall_impl with (2 := Hvalid). intros c Hc.
    destruct (valid_count_whole _ Hc) as (q & Hq & Hw & Hr).
    right. exists q. split; [exact Hq|]. rewrite Hw.
    split; [change 1 with (inject_Z 1)|change 100 with (inject_Z 100)];
      rewrite <- Zle_Qle; lia. }
  exists new, w'. split; [exact Hn|]. rewrite Hcats.
  clear -Hvalid Hfuel.
  induction Hvalid as [|c rest Hc _ IH]; [reflexivity|].
  cbn [flat_map]. rewrite IH. f_equal. f_equal.
  destruct (valid_count_whole _ Hc) as (q & Hq & Hw & Hr).
  rewrite Hq at 1. rewrite (trips_whole q (whole (CategoryInput.count c)));
    [lia|exact Hw|lia|lia].
Qed.

End MoreGenerateFacts.

Lemma no_api_key_check (env : Env.t) :
  no_api_key env ->
  negb (JS.truthy_opt
          (JS.or_opt (Env.AI_GATEWAY_API_KEY env) (Env.VERCEL_AI_GATEWAY_KEY env)))
  = true.
Proof.
  intros [H1 H2]. apply truthy_opt_false in H1, H2.
  unfold JS.or_opt. rewrite H1, H2. reflexivity.
Qed.

Section KeylessFacts.
Context {W : Type}.
Variable process_env : W -> Env.t.
Variable generateText : Gen.request -> W -> Eff.res Gen.result * W.
Variable JSON_parse : string -> Eff.res ProductData.t.
Variable Buffer_from_base64 : string -> list N.

Lemma try_generate_no_key category i sampleImage attempts w :
  no_api_key (process_env w) ->
  Eff.attempt (try_generate process_env generateText JSON_parse Buffer_from_base64
                 category i sampleImage attempts) w
  = (Eff.Done (Eff.Throw (JS.Error msg_no_api_key)), w).
Proof.
  intros H. unfold try_generate, Eff.attempt, Eff.bind, Eff.read, Eff.throw.
  rewrite (no_api_key_check _ H). reflexivity.
Qed.

Lemma retry_loop_no_key_from category i sampleImage w fuel :
  no_api_key (process_env w) ->
  forall attempts acc,
    (attempts + fuel = maxRetries)%nat -> (0 < fuel)%nat ->
    retry_loop process_env generateText JSON_parse Buffer_from_base64
      fuel category i sampleImage attempts false acc w
    = (Eff.Done (acc ++ [fallback_product category i])%list, w).
Proof.
  intros H. induction fuel as [|fuel IH]; intros attempts acc Hsum Hpos; [lia|].
  assert (Nat.ltb attempts maxRetries = true) as Hlt by (apply Nat.ltb_lt; lia).
  cbn [retry_loop negb andb]. rewrite Hlt.
  unfold Eff.bind at 1. rewrite (try_generate_no_key _ _ _ _ _ H).
  destruct (Nat.ltb_spec (S attempts) maxRetries) as [Hn|Hn].
  - apply IH; lia.
  - apply retry_loop_generated.
Qed.

Lemma retry_loop_no_key category i sampleImage acc w :
  no_api_key (process_env w) ->
  retry_loop process_env generateText JSON_parse Buffer_from_base64
    maxRetries category i sampleImage 0 false acc w
  = (Eff.Done (acc ++ [fallback_product category i])%list, w).
Proof.
  intros H. apply retry_loop_no_key_from; [exact H|reflexivity|unfold maxRetries; lia].
Qed.

Lemma count_loop_no_key category count sampleImage w fuel :
  no_api_key (process_env w) ->
  forall i acc,
    JS.ltb (JS.of_nat (i + fuel)) count = false ->
    count_loop process_env generateText JSON_parse Buffer_from_base64
      fuel category count sampleImage i acc w
    = (Eff.Done (acc ++ map (fallback_product category) (indices count i fuel))%list, w).
Proof.
  intros H. induction fuel as [|fuel IH]; intros i acc Hend.
  - rewrite Nat.add_0_r in Hend. cbn [count_loop]. rewrite Hend.
    unfold indices. cbn [seq filter map]. rewrite app_nil_r. reflexivity.
  - cbn [count_loop]. unfold indices. cbn [seq filter].
    destruct (JS.ltb (JS.of_nat i) count) eqn:Hi.
    + unfold Eff.bind at 1. rewrite (retry_loop_no_key _ _ _ _ _ H).
      rewrite IH by (rewrite <- Hend; f_equal; f_equal; lia).
      unfold indices. cbn [map]. rewrite <- app_assoc. reflexivity.
    + assert (filter (fun j => JS.ltb (JS.of_nat j) count) (seq (S i) fuel) = [])
        as E.
      { apply length_zero_iff_nil. apply (trips_none count fuel (S i)).
        apply (ltb_of_nat_mono count i); [exact Hi|lia]. }
      rewrite E. cbn [map]. rewrite app_nil_r. reflexivity.
Qed.

Lemma category_loop_no_key sampleImage w fuel :
  no_api_key (process_env w) -> (100 <= fuel)%nat ->
  forall categories acc,
    Forall (fun c => valid_count (CategoryInput.count c) = true) categories ->
    category_loop process_env generateText JSON_parse Buffer_from_base64
      fuel categories sampleImage acc w
    = (Eff.Done (acc ++ fallback_products categories)%list, w).
Proof.
  intros H Hfuel. induction categories as [|c rest IH]; intros acc Hall.
  - cbn. rewrite app_nil_r. reflexivity.
  - inversion Hall as [|c' rest' Hc Hrest]; subst.
    destruct (valid_count_whole _ Hc) as (q & Hq & Hw & Hr).
    cbn [category_loop]. unfold Eff.bind at 1.
    rewrite (count_loop_no_key _ _ _ _ _ H).
    + rewrite IH by exact Hrest. unfold fallback_products. cbn [flat_map].
      rewrite <- app_assoc. rewrite Hq at 1.
      rewrite (indices_whole q (whole (CategoryInput.count c))); [|exact Hw|lia|lia].
      rewrite Nat.sub_0_r. reflexivity.
    + rewrite Hq. cbn. apply Qltb_false. rewrite Hw, <- Zle_Qle. lia.
Qed.

(** X12.  Without a key for the generation service, [generateProducts]
    never calls the service: on a valid batch it returns, for each
    category and each index, the made-up product with the labelled
    placeholder image, and leaves the world as it was. *)
Theorem generateProducts_without_key fuel organizedInput sampleImage w :
  no_api_key (process_env w) ->
  valid_batch organizedInput = true ->
  (100 <= fuel)%nat ->
  generateProducts process_env generateText JSON_parse Buffer_from_base64
    fuel organizedInput sampleImage w
  = (Eff.Done (fallback_products (OrganizedInput.categories organizedInput)), w).
Proof.
  intros H. unfold valid_batch. rewrite !andb_true_iff.
  intros [[_ Hv] _] Hfuel. unfold generateProducts.
  apply (category_loop_no_key sampleImage w fuel H Hfuel _ []).
  rewrite forallb_forall in Hv. apply Forall_forall. intros c Hin.
  apply Hv. apply in_map. exact Hin.
Qed.

End KeylessFacts.

Lemma generateProducts_without_key_witness :
  generateProducts Script.env Script.generateText Script.JSON_parse Base64.decode
    100 two_chairs_batch None (Script.start keyless [] [])
  = (Eff.Done [fallback_product "Chairs" 0; fallback_product "Chairs" 1],
     Script.start keyless [] []).
Proof.
  apply (generateProducts_without_key Script.env Script.generateText
           Script.JSON_parse Base64.decode 100 two_chairs_batch None
           (Script.start keyless [] [])).
  - split; [left|right]; reflexivity.
  - reflexivity.
  - lia.
Defined.

(** ** More on the workflow with its own stages *)

Lemma kept_Forall {A} (P : A -> Prop) (l l' : list A) :
  kept l l' -> Forall P l' -> Forall P l.
Proof.
  induction 1 as [|x l l' _ IH|x l l' _ IH]; intros H.
  - constructor.
  - inversion H; subst. auto.
  - inversion H; subst. constructor; auto.
Qed.

Section MorePipelineFacts.
Context {W : Type}.
Variable JSON_stringify : option (list (option Entry.t)) -> Eff.res unit.
Variable process_env : W -> Env.t.
Variable generateText : Gen.request -> W -> Eff.res Gen.result * W.
Variable JSON_parse : string -> Eff.res ProductData.t.
Variable Buffer_from_base64 : string -> list N.
Variable fetch : Http.request -> W -> Eff.res Http.response * W.
Variable Date_now : W -> N.

Local Abbreviation deployed :=
  (pipeline JSON_stringify process_env generateText JSON_parse Buffer_from_base64
     fetch Date_now).

(** X13.  The workflow as deployed, with its own stages: whatever the
    generation service and the commerce API do, it returns a result
    for every request its first log line could serialise; for any
    other request the error of that line reaches the caller, and no
    stage has run. *)
Theorem deployed_workflow_returns fuel categories sampleImage w :
  (100 <= fuel)%nat ->
  match JSON_stringify categories with
  | Eff.Ok _ =>
      exists result w', deployed fuel categories sampleImage w = (Eff.Done result, w')
  | Eff.Throw error => deployed fuel categories sampleImage w = (Eff.Raised error, w)
  end.
Proof.
  intros Hfuel. destruct (JSON_stringify categories) as [error|text] eqn:Hjson.
  - apply pipeline_throws. exact Hjson.
  - apply (pipeline_returns _ _ _ _ _ _ _ _ _ _ _ text Hfuel Hjson).
Qed.

(** X14.  Every record in the result of the deployed workflow carries
    a non-empty image, and when the counts of the batch are integers
    there are at most as many records as products were requested. *)
Theorem deployed_records fuel categories sampleImage w organizedInput result w' :
  (100 <= fuel)%nat ->
  Organize.organizeInput categories = Eff.Ok organizedInput ->
  deployed fuel categories sampleImage w = (Eff.Done result, w') ->
  Forall (fun r => ShopifyProduct.image r <> "") (WorkflowResult.createdProducts result)
  /\ (valid_batch organizedInput = true ->
      (List.length (WorkflowResult.createdProducts result)
       <= requested (OrganizedInput.categories organizedInput))%nat).
Proof.
  intros Hfuel Horg. unfold pipeline.
  destruct (JSON_stringify categories) as [e|text] eqn:Hjson.
  { rewrite (workflow_throws _ _ _ _ _ _ _ _ Hjson). discriminate. }
  rewrite (workflow_unfold _ _ _ _ _ _ _ text Hjson), Horg.
  unfold step2, run_generate, generateProducts. unfold Eff.bind at 1 2.
  destruct (category_loop_well_formed process_env generateText JSON_parse
              Buffer_from_base64 sampleImage fuel Hfuel
              (OrganizedInput.categories organizedInput) [] w
              (organized_counts_accepted _ _ Horg))
    as (products & w1 & Hgen & _ & Himages).
  cbn [app] in Hgen. rewrite Hgen. cbn [Eff.ret].
  destruct (createShopifyProducts process_env fetch products w1)
    as [[e|created|] w2] eqn:Hcreate.
  - intros [= <- _]. cbn. split; [constructor|lia].
  - pose proof (createShopifyProducts_kept _ _ _ _ _ _ Hcreate) as Hkept.
    pose proof (kept_length _ _ Hkept) as Hlen. rewrite !length_map in Hlen.
    assert (Forall (fun r => ShopifyProduct.image r <> "") created) as Hc.
    { apply Forall_map with (f := ShopifyProduct.image) (P := fun s => s <> "").
      apply (kept_Forall _ _ _ Hkept). apply Forall_map. exact Himages. }
    assert (valid_batch organizedInput = true ->
            (List.length created
             <= requested (OrganizedInput.categories organizedInput))%nat) as Hb.
    { unfold valid_batch. rewrite !andb_true_iff. intros [[_ Hv] _].
      destruct (category_loop_done process_env generateText JSON_parse
                  Buffer_from_base64 sampleImage fuel Hfuel
                  (OrganizedInput.categories organizedInput) [] w Hv)
        as (products' & w1' & Hgen' & Hlen').
      rewrite Hgen in Hgen'. injection Hgen' as <- _.
      cbn in Hlen'. lia. }
    destruct (uploadProductImages process_env fetch Date_now created w2)
      as [[e|u|] w3]; [| |discriminate]; intros [= <- _]; cbn; auto.
  - discriminate.
Qed.

End MorePipelineFacts.

Lemma deployed_workflow_returns_witness :
  exists result w',
    Script.run 100 two_chairs None created_refused_created = (Eff.Done result, w').
Proof.
  apply (deployed_workflow_returns Script.JSON_stringify Script.env
           Script.generateText Script.JSON_parse
           Base64.decode Script.fetch Script.clock 100 two_chairs None
           created_refused_created).
  lia.
Defined.

(** ** More on the normalizer *)

Lemma fold_counts (l : list (option Entry.t)) (a : JS.number) :
  fold_left (fun sum cat => JS.add sum (Organize.entry_count cat)) l a
  = fold_left JS.add (map Organize.entry_count l) a.
Proof.
  revert a. induction l as [|c l IH]; intros a; cbn [fold_left map];
    [reflexivity|apply IH].
Qed.

Lemma kept_counts_valid (cats : list (option Entry.t)) :
  integer_counts cats ->
  forallb valid_count (map Organize.entry_count (filter Organize.valid cats)) = true.
Proof.
  intros Hint. apply forallb_forall. intros n Hn.
  apply in_map_iff in Hn. destruct Hn as (cat & <- & Hin).
  apply filter_In in Hin. destruct Hin as [Hin Hv].
  apply valid_iff in Hv. destruct Hv as (s & m & -> & _ & Hacc).
  apply accepted_count_iff in Hacc. destruct Hacc as [Hlo Hhi].
  cbn [Organize.entry_count Organize.as_number Entry.count].
  unfold valid_count. rewrite Hlo, Hhi, (Hint _ m Hin eq_refl). reflexivity.
Qed.

(** X16.  A request whose counts are integers is turned into a batch
    that satisfies the invariant of the data model: 1 to 10 categories,
    each count an integer from 1 to 100, and a total equal to the sum
    of the counts. *)
Theorem organizeInput_gives_valid_batch categories cats organizedInput :
  categories = Some cats ->
  integer_counts cats ->
  Organize.organizeInput categories = Eff.Ok organizedInput ->
  valid_batch organizedInput = true
  /\ JS.eqb (OrganizedInput.totalProducts organizedInput)
       (JS.of_nat (requested (OrganizedInput.categories organizedInput))) = true.
Proof.
  intros -> Hint. unfold Organize.organizeInput.
  destruct (Nat.eqb_spec (List.length cats) 0) as [|Hne]; [discriminate|].
  destruct (Nat.ltb_spec 10 (List.length cats)) as [|Hle]; [discriminate|].
  destruct (Nat.eqb_spec (List.length (filter Organize.valid cats)) 0) as [|Hk];
    [discriminate|].
  intros [= <-].
  pose proof (kept_counts_valid cats Hint) as Hv.
  pose proof (filter_length_le Organize.valid cats) as Hlen.
  unfold valid_batch, requested.
  cbn [OrganizedInput.categories OrganizedInput.totalProducts].
  rewrite !map_map. cbn [CategoryInput.count].
  change (map (fun x => Organize.entry_count x) (filter Organize.valid cats))
    with (map Organize.entry_count (filter Organize.valid cats)).
  rewrite length_map, Hv.
  assert (fold_left (fun sum cat => JS.add sum (Organize.entry_count cat))
            (filter Organize.valid cats) (JS.of_Z 0)
          = fold_left JS.add (map Organize.entry_count (filter Organize.valid cats))
              (JS.of_Z 0)) as Hfold.
  { apply fold_counts. }
  rewrite Hfold.
  destruct (sum_of_counts _ Hv 0 0) as (r & Hr & Hsum);
    [reflexivity
    |apply few_counts_bound; rewrite length_map; apply Nat.leb_le; lia|].
  change (JS.of_Z 0) with (JS.Fin 0). rewrite Hr.
  assert (JS.eqb (JS.Fin r) (JS.Fin r) = true) as Hrefl.
  { cbn. apply Qeq_bool_iff. reflexivity. }
  rewrite Hrefl. split.
  - rewrite !andb_true_r. apply andb_true_iff. split; apply Nat.leb_le; lia.
  - cbn. apply Qeq_bool_iff. rewrite Hsum. cbn [Nat.add].
    rewrite <- (map_map Organize.entry_count whole). reflexivity.
Qed.

Lemma organizeInput_gives_valid_batch_witness :
  valid_batch two_chairs_batch = true
  /\ JS.eqb (OrganizedInput.totalProducts two_chairs_batch)
       (JS.of_nat (requested (OrganizedInput.categories two_chairs_batch))) = true.
Proof.
  apply (organizeInput_gives_valid_batch two_chairs
           [entry "Chairs" (JS.of_Z 2)] two_chairs_batch).
  - reflexivity.
  - intros c n [[= <-]|[]] [= <-]. reflexivity.
  - reflexivity.
Defined.

(** ** The forms *)

Lemma remove_at_length {A} (index : nat) (l : list A) :
  List.length (remove_at index l)
  = if Nat.ltb index (List.length l) then (List.length l - 1)%nat else List.length l.
Proof.
  revert index. induction l as [|x l IH]; intros index;
    [destruct index; reflexivity|].
  destruct index as [|index]; cbn [remove_at List.length].
  - cbn. lia.
  - rewrite IH. change (Nat.ltb (S index) (S (List.length l)))
      with (Nat.ltb index (List.length l)).
    destruct (Nat.ltb_spec index (List.length l)); lia.
Qed.

(** X17.  Whatever rows a user adds and removes, a form holds between
    1 and 10 rows. *)
Theorem form_rows_bounded (actions : list Form.action) :
  (1 <= List.length (fold_left Form.act actions Form.initial) <= 10)%nat.
Proof.
  assert (forall rows, (1 <= List.length rows <= 10)%nat ->
                       (1 <= List.length (fold_left Form.act actions rows) <= 10)%nat)
    as H.
  { induction actions as [|a rest IH]; intros rows Hrows; [exact Hrows|].
    cbn [fold_left]. apply IH. destruct a as [|index]; cbn [Form.act].
    - unfold Form.addCategory.
      destruct (Nat.ltb_spec (List.length rows) 10); [|exact Hrows].
      rewrite length_app. cbn. lia.
    - unfold Form.removeCategory.
      destruct (Nat.ltb_spec 1 (List.length rows)); [|exact Hrows].
      rewrite remove_at_length.
      destruct (Nat.ltb index (List.length rows)); lia. }
  apply H. cbn. lia.
Qed.

(** ** Trimming *)

Lemma trimEnd_step (c : ascii) (s : string) :
  Str.trimEnd (String.String c s)
  = match Str.trimEnd s with
    | EmptyString => if Str.is_space c then EmptyString else String.String c EmptyString
    | t => String.String c t
    end.
Proof. reflexivity. Qed.

Lemma trimEnd_idempotent (s : string) : Str.trimEnd (Str.trimEnd s) = Str.trimEnd s.
Proof.
  induction s as [|c s IH]; [reflexivity|].
  rewrite (trimEnd_step c s).
  destruct (Str.trimEnd s) as [|d t] eqn:E.
  - destruct (Str.is_space c) eqn:Hc; [reflexivity|].
    rewrite trimEnd_step. cbn [Str.trimEnd]. rewrite Hc. reflexivity.
  - rewrite trimEnd_step, IH. reflexivity.
Qed.

Lemma trimEnd_head (c : ascii) (s : string) :
  Str.is_space c = false ->
  exists t, Str.trimEnd (String.String c s) = String.String c t.
Proof.
  intros Hc. rewrite trimEnd_step.
  destruct (Str.trimEnd s); [rewrite Hc|]; eauto.
Qed.

Lemma trimStart_head (s : string) :
  Str.trimStart s = ""
  \/ exists c t, Str.trimStart s = String.String c t /\ Str.is_space c = false.
Proof.
  induction s as [|c s IH]; [left; reflexivity|].
  cbn [Str.trimStart]. destruct (Str.is_space c) eqn:Hc; [exact IH|].
  right. eauto.
Qed.

(** Trimming twice is trimming once. *)
Lemma trim_idempotent (s : string) : Str.trim (Str.trim s) = Str.trim s.
Proof.
  unfold Str.trim.
  destruct (trimStart_head s) as [E|(c & t & E & Hc)]; rewrite E.
  - reflexivity.
  - destruct (trimEnd_head c t Hc) as (u & Hu).
    rewrite Hu. cbn [Str.trimStart]. rewrite Hc, <- Hu.
    apply trimEnd_idempotent.
Qed.

Lemma truthy_string_iff (s : string) : JS.truthy_string s = true <-> s <> "".
Proof.
  unfold JS.truthy_string. rewrite negb_true_iff. apply string_eqb_empty.
Qed.

(** ** From the forms to the normalizer *)

Lemma page_entry_valid (cat : CategoryInput.t) :
  Page.valid cat = true ->
  JS.is_integer (CategoryInput.count cat) = true ->
  Organize.valid
    (Page.through_json
       {| CategoryInput.category := Str.trim (CategoryInput.category cat);
          CategoryInput.count := CategoryInput.count cat |}) = true.
Proof.
  unfold Page.valid. rewrite !andb_true_iff. intros [[Hname Hpos] Hmax] Hint.
  destruct (CategoryInput.count cat) as [| | |q] eqn:Hq; try discriminate.
  unfold Page.through_json. cbn [CategoryInput.category CategoryInput.count].
  rewrite valid_unfold. unfold JS.truthy_string in Hname. rewrite Hname. cbn [andb].
  cbn in Hpos, Hmax, Hint |- *.
  apply Qltb_true in Hpos. apply Qle_bool_iff in Hmax. apply Qeq_bool_iff in Hint.
  assert (JS.Qltb q (inject_Z 1) = false) as Hlo.
  { apply Qltb_false. rewrite Hint in Hpos |- *.
    rewrite <- Zle_Qle. change 0 with (inject_Z 0) in Hpos.
    rewrite <- Zlt_Qlt in Hpos. lia. }
  assert (JS.Qltb (inject_Z 100) q = false) as Hhi.
  { apply Qltb_false. exact Hmax. }
  rewrite Hlo, Hhi. reflexivity.
Qed.

(** X18.  What page.tsx submits is accepted whole by the normalizer:
    when the rows hold integer counts, every entry the page sends is
    kept, with the name and the count the page sent. *)
Theorem page_submission_is_kept (rows data : list CategoryInput.t) :
  (List.length rows <= 10)%nat ->
  integer_rows rows ->
  Page.categoriesData rows = Some data ->
  exists organizedInput,
    Organize.organizeInput (Some (map Page.through_json data)) = Eff.Ok organizedInput
    /\ OrganizedInput.categories organizedInput = data.
Proof.
  intros Hlen Hint. unfold Page.categoriesData.
  destruct (Nat.eqb_spec (List.length (filter Page.valid rows)) 0) as [|Hne];
    [discriminate|].
  intros [= <-].
  pose proof (filter_length_le Page.valid rows) as Hle.
  set (sent := map _ (filter Page.valid rows)).
  assert (List.length sent = List.length (filter Page.valid rows)) as Hsent
      by apply length_map.
  assert (filter Organize.valid (map Page.through_json sent)
          = map Page.through_json sent) as Hall.
  { apply forallb_filter_id. apply forallb_forall. intros e He.
    apply in_map_iff in He. destruct He as (c & <- & Hc).
    apply in_map_iff in Hc. destruct Hc as (cat & <- & Hcat).
    apply filter_In in Hcat. destruct Hcat as [Hin Hv].
    apply page_entry_valid; [exact Hv|].
    unfold integer_rows in Hint. rewrite Forall_forall in Hint. apply Hint, Hin. }
  unfold Organize.organizeInput.
  rewrite Hall, !length_map, !Hsent.
  destruct (Nat.eqb_spec (List.length (filter Page.valid rows)) 0); [lia|].
  destruct (Nat.ltb_spec 10 (List.length (filter Page.valid rows))); [lia|].
  eexists. split; [reflexivity|]. cbn [OrganizedInput.categories].
  unfold sent. rewrite !map_map. apply map_ext_in. intros cat Hcat.
  apply filter_In in Hcat. destruct Hcat as [_ Hv].
  unfold Page.valid in Hv. rewrite !andb_true_iff in Hv.
  destruct Hv as [[_ Hpos] Hmax].
  cbn [Page.through_json Organize.entry_category Organize.entry_count
       Organize.as_string Organize.as_number Entry.category Entry.count
       CategoryInput.category CategoryInput.count].
  rewrite trim_idempotent.
  destruct (CategoryInput.count cat); try discriminate. reflexivity.
Qed.

Lemma page_submission_is_kept_witness :
  exists organizedInput,
    Organize.organizeInput
      (Some (map Page.through_json
               [ {| CategoryInput.category := "Chairs";
                    CategoryInput.count := JS.of_Z 2 |} ]))
    = Eff.Ok organizedInput
    /\ OrganizedInput.categories organizedInput
       = [ {| CategoryInput.category := "Chairs"; CategoryInput.count := JS.of_Z 2 |} ].
Proof.
  apply (page_submission_is_kept some_rows).
  - cbn. lia.
  - repeat constructor.
  - reflexivity.
Defined.

(** X19.  Through shopify-data-generator.tsx no blank name reaches the
    batch: every category the normalizer keeps of what the component
    submits has a non-empty name. *)
Theorem component_names_not_blank (rows data : list CategoryInput.t) organizedInput :
  Component.validCategories rows = Some data ->
  Organize.organizeInput (Some (map Component.as_argument data)) = Eff.Ok organizedInput ->
  Forall (fun c => CategoryInput.category c <> "")
    (OrganizedInput.categories organizedInput).
Proof.
  unfold Component.validCategories.
  destruct (Nat.eqb (List.length (filter Component.valid rows)) 0); [discriminate|].
  intros [= <-]. unfold Organize.organizeInput.
  destruct (Nat.eqb _ 0); [discriminate|].
  destruct (Nat.ltb 10 _); [discriminate|].
  destruct (Nat.eqb _ 0); [discriminate|].
  intros [= <-]. cbn [OrganizedInput.categories].
  apply Forall_map, Forall_forall. intros e He.
  apply filter_In in He. destruct He as [He _].
  apply in_map_iff in He. destruct He as (cat & <- & Hcat).
  apply filter_In in Hcat. destruct Hcat as [_ Hv].
  cbn [CategoryInput.category Component.as_argument Organize.entry_category
       Organize.as_string Entry.category].
  apply truthy_string_iff. exact Hv.
Qed.

Lemma component_names_not_blank_witness :
  Forall (fun c => CategoryInput.category c <> "")
    [ {| CategoryInput.category := "Chairs"; CategoryInput.count := JS.of_Z 2 |} ].
Proof.
  apply (component_names_not_blank some_rows
           [ {| CategoryInput.category := " Chairs "; CategoryInput.count := JS.of_Z 2 |};
             {| CategoryInput.category := "Sofas"; CategoryInput.count := JS.of_Z 0 |} ]
           {| OrganizedInput.categories :=
                [ {| CategoryInput.category := "Chairs";
                     CategoryInput.count := JS.of_Z 2 |} ];
              OrganizedInput.totalProducts := JS.of_Z 2 |});
    reflexivity.
Defined.

(** ** The route *)

Section RouteFacts.
Context {W : Type}.
Variable JSON_parse : string -> Eff.res (option (list (option Entry.t))).
Variable Date_now : W -> N.
Variable random_suffix : W -> string * W.
Variable trigger :
  option (list (option Entry.t)) -> option string -> Eff.M (W := W) WorkflowResult.t.

Local Abbreviation POST := (Route.POST JSON_parse Date_now random_suffix trigger).
Local Abbreviation read_request := (Route.read_request (W := W) JSON_parse).

Lemma read_request_ends request w :
  fst (read_request request w) <> Eff.Diverge.
Proof.
  unfold Route.read_request, Eff.bind, Eff.lift, Eff.throw, Eff.ret.
  destruct (Str.includes _ _).
  - destruct (Route.formData request) as [e|form]; [discriminate|].
    destruct (negb _); [discriminate|].
    destruct (JSON_parse _); discriminate.
  - destruct (Route.json request) as [e|[message|categories]]; discriminate.
Qed.

(** X20.  A request whose categories are not an array, are empty or
    are more than 10 is answered with status 400 and an error message;
    the workflow is not started, whatever it would have done. *)
Theorem route_refuses request w categories sampleImage w1 :
  read_request request w = (Eff.Done (inr (categories, sampleImage)), w1) ->
  refused_by_route categories ->
  exists message,
    POST request w
    = (Eff.Done {| Route.status := 400; Route.payload := Route.ErrorBody message |}, w1).
Proof.
  intros Hread Href.
  unfold Route.POST, Route.handle, Eff.attempt. unfold Eff.bind at 1 2.
  rewrite Hread. destruct categories as [cats|]; [|eexists; reflexivity].
  cbn in Href. destruct Href as [->|Hlen]; [eexists; reflexivity|].
  destruct (Nat.eqb (List.length cats) 0); [eexists; reflexivity|].
  destruct (Nat.ltb_spec 10 (List.length cats)); [|lia].
  eexists. reflexivity.
Qed.

Lemma read_request_early request w response w1 :
  read_request request w = (Eff.Done (inl response), w1) ->
  Route.status response = 400%nat.
Proof.
  unfold Route.read_request, Eff.bind, Eff.lift, Eff.throw, Eff.ret.
  destruct (Str.includes _ _).
  - destruct (Route.formData request) as [e|form]; [discriminate|].
    destruct (negb _); [intros [= <- _]; reflexivity|].
    destruct (JSON_parse _); discriminate.
  - destruct (Route.json request) as [e|[message|categories]]; discriminate.
Qed.

(** X21.  The route answers every request: when the workflow ends,
    [POST] returns a response with status 200, 400 or 500 and throws
    nothing; with status 200 the body holds the result of the run of the
    workflow the route started, the world is as that run left it, and
    the status text is "completed" exactly when the result reports
    success. *)
Theorem route_always_answers request w :
  (forall categories sampleImage, Eff.terminates (trigger categories sampleImage)) ->
  exists response w',
    POST request w = (Eff.Done response, w')
    /\ (Route.status response = 400%nat \/ Route.status response = 500%nat
        \/ exists workflowId result categories sampleImage w0,
            trigger categories sampleImage w0 = (Eff.Done result, w')
            /\ response
            = {| Route.status := 200;
                 Route.payload :=
                   Route.WorkflowBody workflowId
                     (if WorkflowResult.success result then "completed" else "failed")
                     result |}).
Proof.
  intros Hend.
  unfold Route.POST, Route.handle, Eff.attempt. unfold Eff.bind at 1 2.
  pose proof (read_request_ends request w) as Hread.
  pose proof (read_request_early request w) as Hearly.
  destruct (read_request request w) as [[e|r|] w1];
    [eexists _, _; split; [reflexivity|cbn; auto]
    | |exfalso; apply Hread; reflexivity].
  destruct r as [response|[categories sampleImage]].
  { eexists _, _. split; [reflexivity|]. left. apply (Hearly response w1 eq_refl). }
  destruct categories as [cats|];
    [|eexists _, _; split; [reflexivity|cbn; auto]].
  destruct (Nat.eqb (List.length cats) 0);
    [eexists _, _; split; [reflexivity|cbn; auto]|].
  destruct (Nat.ltb 10 (List.length cats));
    [eexists _, _; split; [reflexivity|cbn; auto]|].
  unfold Eff.bind, Eff.read, Eff.call, Eff.throw, Eff.ret.
  destruct (random_suffix w1) as [suffix w2].
  specialize (Hend (Some cats) sampleImage w2).
  destruct (trigger (Some cats) sampleImage w2) as [[e|result|] w3] eqn:Hrun;
    [eexists _, _; split; [reflexivity|cbn; auto]
    | |exfalso; apply Hend; reflexivity].
  eexists _, _. split; [reflexivity|]. right. right.
  eexists _, result, (Some cats), sampleImage, w2. split; [exact Hrun|reflexivity].
Qed.

End RouteFacts.

Lemma organizeInput_after_guards cats error :
  cats <> [] -> (List.length cats <= 10)%nat ->
  Organize.organizeInput (Some cats) = Eff.Throw error ->
  error = JS.Error Organize.msg_none_valid.
Proof.
  intros Hne Hlen. unfold Organize.organizeInput.
  destruct (Nat.eqb_spec (List.length cats) 0) as [E|_].
  { destruct cats; [congruence|discriminate]. }
  destruct (Nat.ltb_spec 10 (List.length cats)); [lia|].
  destruct (Nat.eqb _ 0); [|discriminate].
  intros [= <-]. reflexivity.
Qed.

Section DeployedRouteFacts.
Context {W : Type}.
Variable JSON_stringify : option (list (option Entry.t)) -> Eff.res unit.
Variable process_env : W -> Env.t.
Variable generateText : Gen.request -> W -> Eff.res Gen.result * W.
Variable JSON_parse_product : string -> Eff.res ProductData.t.
Variable Buffer_from_base64 : string -> list N.
Variable fetch : Http.request -> W -> Eff.res Http.response * W.
Variable Date_now : W -> N.
Variable JSON_parse : string -> Eff.res (option (list (option Entry.t))).
Variable random_suffix : W -> string * W.

Local Abbreviation deployed_route :=
  (deployed_POST JSON_stringify process_env generateText JSON_parse_product
     Buffer_from_base64 fetch Date_now JSON_parse random_suffix).

Local Abbreviation deployed_workflow :=
  (pipeline JSON_stringify process_env generateText JSON_parse_product
     Buffer_from_base64 fetch Date_now).

(** X22.  A request that could be read and holds 1 to 10 entries
    starts the workflow and is answered with status 200, never 500,
    whatever the services do; the result in the body is the one the
    deployed workflow returns for these entries, and the only failure of
    step 1 that can still occur is that no entry is valid.  The entries
    were parsed from JSON, so the first log line of the workflow can
    serialise them. *)
Theorem route_starts_workflow fuel request w cats sampleImage w1 text :
  (100 <= fuel)%nat ->
  Route.read_request JSON_parse request w
  = (Eff.Done (inr (Some cats, sampleImage)), w1) ->
  JSON_stringify (Some cats) = Eff.Ok text ->
  cats <> [] -> (List.length cats <= 10)%nat ->
  exists workflowId result w',
    deployed_route fuel request w
    = (Eff.Done {| Route.status := 200;
                   Route.payload :=
                     Route.WorkflowBody workflowId
                       (if WorkflowResult.success result then "completed" else "failed")
                       result |}, w')
    /\ deployed_workflow fuel (Some cats) sampleImage (snd (random_suffix w1))
       = (Eff.Done result, w')
    /\ (forall error,
          Organize.organizeInput (Some cats) = Eff.Throw error ->
          WorkflowResult.errors result
          = Some ["Step 1 failed: " ++ Organize.msg_none_valid]).
Proof.
  intros Hfuel Hread Hjson Hne Hlen.
  unfold deployed_POST, Route.POST, Route.handle, Eff.attempt.
  unfold Eff.bind at 1 2. rewrite Hread.
  destruct (Nat.eqb_spec (List.length cats) 0) as [E|_].
  { destruct cats; [congruence|discriminate]. }
  destruct (Nat.ltb_spec 10 (List.length cats)); [lia|].
  unfold Eff.bind, Eff.read, Eff.call, Eff.throw, Eff.ret.
  destruct (random_suffix w1) as [suffix w2].
  destruct (pipeline_returns JSON_stringify process_env generateText
              JSON_parse_product Buffer_from_base64 fetch Date_now fuel
              (Some cats) sampleImage w2 text Hfuel Hjson)
    as (result & w3 & Hrun).
  rewrite Hrun. eexists _, result, w3. split; [reflexivity|].
  split; [exact Hrun|].
  intros error Herr.
  unfold pipeline in Hrun.
  rewrite (workflow_unfold _ _ _ _ _ _ _ text Hjson), Herr in Hrun.
  injection Hrun as <- _. cbn.
  rewrite (organizeInput_after_guards cats error Hne Hlen Herr). reflexivity.
Qed.

End DeployedRouteFacts.

(** ** More theorems at concrete runs *)

Lemma generateProducts_order_witness :
  exists products w',
    generateProducts Script.env Script.generateText Script.JSON_parse Base64.decode
      100 two_chairs_batch None (Script.start Script.configured [] [])
    = (Eff.Done products, w')
    /\ map GeneratedProduct.category products = ["Chairs"; "Chairs"].
Proof.
  apply (generateProducts_order Script.env Script.generateText Script.JSON_parse
           Base64.decode 100 two_chairs_batch None
           (Script.start Script.configured [] [])).
  - reflexivity.
  - lia.
Defined.

Lemma deployed_records_witness :
  exists result w',
    Script.run 100 two_chairs None created_refused_created = (Eff.Done result, w')
    /\ Forall (fun r => ShopifyProduct.image r <> "")
         (WorkflowResult.createdProducts result)
    /\ (valid_batch two_chairs_batch = true ->
        (List.length (WorkflowResult.createdProducts result) <= 2)%nat).
Proof.
  eexists _, _. split; [vm_compute; reflexivity|].
  eapply (deployed_records Script.JSON_stringify Script.env Script.generateText
           Script.JSON_parse
           Base64.decode Script.fetch Script.clock 100 two_chairs None
           created_refused_created two_chairs_batch).
  - lia.
  - reflexivity.
  - vm_compute. reflexivity.
Defined.

Lemma route_refuses_witness :
  exists message,
    Route.POST no_form_parse Script.clock fixed_suffix never_returns
      (json_request (Route.Object (Some [])))
      (Script.start Script.configured [] [])
    = (Eff.Done {| Route.status := 400; Route.payload := Route.ErrorBody message |},
       Script.start Script.configured [] []).
Proof.
  apply (route_refuses no_form_parse Script.clock fixed_suffix never_returns
           (json_request (Route.Object (Some [])))
           (Script.start Script.configured [] []) (Some []) None).
  - reflexivity.
  - left. reflexivity.
Defined.

Lemma route_always_answers_witness :
  exists response w',
    Route.POST no_form_parse Script.clock fixed_suffix (Script.run 100)
      (json_request (Route.Nothing "Cannot read properties of null"))
      (Script.start Script.configured [] [])
    = (Eff.Done response, w')
    /\ (Route.status response = 400%nat \/ Route.status response = 500%nat
        \/ exists workflowId result categories sampleImage w0,
            Script.run 100 categories sampleImage w0 = (Eff.Done result, w')
            /\ response
            = {| Route.status := 200;
                 Route.payload :=
                   Route.WorkflowBody workflowId
                     (if WorkflowResult.success result then "completed" else "failed")
                     result |}).
Proof.
  apply (route_always_answers no_form_parse Script.clock fixed_suffix (Script.run 100)).
  intros categories sampleImage w.
  destruct (pipeline_returns Script.JSON_stringify Script.env Script.generateText
              Script.JSON_parse Base64.decode Script.fetch Script.clock 100
              categories sampleImage w tt)
    as (result & w' & H); [lia|reflexivity|].
  unfold Script.run. rewrite H. discriminate.
Defined.

Lemma route_starts_workflow_witness :
  exists workflowId result w',
    deployed_POST Script.JSON_stringify Script.env Script.generateText
      Script.JSON_parse Base64.decode
      Script.fetch Script.clock no_form_parse fixed_suffix 100
      (json_request (Route.Object two_chairs)) created_refused_created
    = (Eff.Done {| Route.status := 200;
                   Route.payload :=
                     Route.WorkflowBody workflowId
                       (if WorkflowResult.success result then "completed" else "failed")
                       result |}, w')
    /\ Script.run 100 two_chairs None created_refused_created = (Eff.Done result, w')
    /\ (forall error,
          Organize.organizeInput two_chairs = Eff.Throw error ->
          WorkflowResult.errors result
          = Some ["Step 1 failed: " ++ Organize.msg_none_valid]).
Proof.
  apply (route_starts_workflow Script.JSON_stringify Script.env Script.generateText
           Script.JSON_parse
           Base64.decode Script.fetch Script.clock no_form_parse fixed_suffix 100
           (json_request (Route.Object two_chairs)) created_refused_created
           [entry "Chairs" (JS.of_Z 2)] None created_refused_created tt).
  - lia.
  - reflexivity.
  - reflexivity.
  - discriminate.
  - cbn. lia.
Defined.

Example route_answer_for_two_chairs :
  fst (deployed_POST Script.JSON_stringify Script.env Script.generateText
         Script.JSON_parse Base64.decode
         Script.fetch Script.clock no_form_parse fixed_suffix 100
         (json_request (Route.Object two_chairs)) created_refused_created)
  = Eff.Done
      {| Route.status := 200;
         Route.payload :=
           Route.WorkflowBody "workflow-1700000000-k3x9a1b2c" "completed"
             {| WorkflowResult.success := true;
                WorkflowResult.totalProducts := JS.of_Z 2;
                WorkflowResult.createdProducts :=
                  [ {| ShopifyProduct.id := "1"; ShopifyProduct.title := "Oak Chair";
                       ShopifyProduct.image := placeholder_uri "Chairs" |} ];
                WorkflowResult.errors := None |} |}.
Proof. vm_compute. reflexivity. Qed.
